(** * PSoC 4 CAPSENSE liquid level sensing: the firmware of [main.c] and
    [interface.c] as state transformers, and the properties of its level
    pipeline, its command console and its telemetry.

    Integers are [Z] with the wrap-around of their C type written out, the
    global arrays are lists read with [!!!] and written with [<[i:=x]>], the
    UART is the bytes waiting in the receive FIFO, the bytes transmitted so
    far and what the transmit FIFO answers to the bytes it is offered, and
    the three ways a call can end (it returns, it spins in [handle_error],
    it stores outside an array) are the three constructors of [outcome]. *)

From Stdlib Require Import ZArith String Ascii Lia Bool.
From stdpp Require Import base list.

Local Open Scope Z_scope.

(** ** Machine integers *)

Definition wrap32 (z : Z) : Z := (z + 2 ^ 31) mod 2 ^ 32 - 2 ^ 31.
Definition uint32 (z : Z) : Z := z mod 2 ^ 32.
Definition uint16 (z : Z) : Z := z mod 2 ^ 16.
Definition uint8 (z : Z) : Z := z mod 2 ^ 8.
Definition int8 (z : Z) : Z := (z + 2 ^ 7) mod 2 ^ 8 - 2 ^ 7.
Definition int16 (z : Z) : Z := (z + 2 ^ 15) mod 2 ^ 16 - 2 ^ 15.

Definition in_int32 (z : Z) : Prop := - 2 ^ 31 <= z < 2 ^ 31.
Definition in_uint16 (z : Z) : Prop := 0 <= z < 2 ^ 16.
Definition in_uint8 (z : Z) : Prop := 0 <= z < 2 ^ 8.

(** The bytes of a string literal, without the terminating NUL. *)
Definition text (s : string) : list Z :=
  map (fun c => Z.of_nat (nat_of_ascii c)) (list_ascii_of_string s).

Definition CRLF : list Z := [13; 10].

(** ** interface.h *)

Definition TRUE : Z := 1.
Definition FALSE : Z := 0.
Definition NUMSENSORS : nat := 12.
Definition UART_NONE : Z := 0.
Definition UART_BASIC : Z := 1.
Definition UART_CSVINIT : Z := 2.
Definition UART_CSV : Z := 3.
Definition LOGICAL_EM_EEPROM_SIZE : nat := 32.
Definition NUM_SAMPLES : Z := 20.

(** ** main.c: macros and constant tables *)

Definition LEVELMM_MAX : Z := 153.
Definition SENSORHEIGHT : Z := (LEVELMM_MAX * 256) `quot` (Z.of_nat NUMSENSORS - 1).
(** [sensorHeight] is a global that is initialised and never assigned. *)
Definition sensorHeight : Z := SENSORHEIGHT.

Definition sensorScale : list Z :=
  [0x01D0; 0x0100; 0x0100; 0x0100; 0x0100; 0x0100;
   0x0100; 0x0100; 0x0100; 0x0100; 0x0100; 0x01C0].
Definition sensorLimits : list Z :=
  [900; 550; 480; 480; 500; 450; 440; 450; 450; 400; 400; 550].

(** ** interface.c: constant tables *)

Definition arrayAxisLabel : list Z :=
  [-5; 0; 10; 20; 30; 40; 50; 60; 70; 80; 90; 100; 110; 120; 130; 140; 150;
   153; 160; 0].
Definition RX_CAPACITY : Z := 32.

(** ** The globals, the function statics and the peripherals *)

Record state : Type := mkState {
  (* main.c *)
  sensorActiveCount : Z;          (* uint8_t *)
  levelPercent : Z;               (* int32_t, 24.8 *)
  levelMm : Z;                    (* int32_t, 24.8 *)
  cal_flag : Z;                   (* uint8_t *)
  sensorRaw : list Z;             (* int32_t[NUMSENSORS] *)
  sensorDiff : list Z;            (* int32_t[NUMSENSORS] *)
  sensorEmptyOffset : list Z;     (* int32_t[LOGICAL_EM_EEPROM_SIZE] *)
  sensorProcessed : list Z;       (* int32_t[NUMSENSORS], 24.8 *)
  (* interface.c *)
  uartTxMode : Z;                 (* uint8_t *)
  storeSampleFlag : Z;            (* uint8_t *)
  resetSampleFlag : Z;            (* uint8_t *)
  bufferIndex : Z;                (* static uint16_t of receive_uart_cmd *)
  rxBuffer : list Z;              (* static char[32] of receive_uart_cmd *)
  sampleIndex : Z;                (* static uint16_t of display_next_level_val *)
  (* peripherals *)
  uart_rx : list Z;               (* bytes waiting in the receive FIFO *)
  uart_tx : list Z;               (* every byte transmitted so far *)
  eeprom : list Z;                (* logical bytes of the emulated EEPROM *)
  uart_tx_full : list bool        (* whether the transmit FIFO is full, at each
                                     of the coming calls of Cy_SCB_UART_Put *)
}.

Definition set_sensorActiveCount (v : Z) (s : state) : state :=
  mkState v (levelPercent s) (levelMm s) (cal_flag s) (sensorRaw s)
    (sensorDiff s) (sensorEmptyOffset s) (sensorProcessed s) (uartTxMode s)
    (storeSampleFlag s) (resetSampleFlag s) (bufferIndex s) (rxBuffer s)
    (sampleIndex s) (uart_rx s) (uart_tx s) (eeprom s)
    (uart_tx_full s).
Definition set_levelPercent (v : Z) (s : state) : state :=
  mkState (sensorActiveCount s) v (levelMm s) (cal_flag s) (sensorRaw s)
    (sensorDiff s) (sensorEmptyOffset s) (sensorProcessed s) (uartTxMode s)
    (storeSampleFlag s) (resetSampleFlag s) (bufferIndex s) (rxBuffer s)
    (sampleIndex s) (uart_rx s) (uart_tx s) (eeprom s)
    (uart_tx_full s).
Definition set_levelMm (v : Z) (s : state) : state :=
  mkState (sensorActiveCount s) (levelPercent s) v (cal_flag s) (sensorRaw s)
    (sensorDiff s) (sensorEmptyOffset s) (sensorProcessed s) (uartTxMode s)
    (storeSampleFlag s) (resetSampleFlag s) (bufferIndex s) (rxBuffer s)
    (sampleIndex s) (uart_rx s) (uart_tx s) (eeprom s)
    (uart_tx_full s).
Definition set_cal_flag (v : Z) (s : state) : state :=
  mkState (sensorActiveCount s) (levelPercent s) (levelMm s) v (sensorRaw s)
    (sensorDiff s) (sensorEmptyOffset s) (sensorProcessed s) (uartTxMode s)
    (storeSampleFlag s) (resetSampleFlag s) (bufferIndex s) (rxBuffer s)
    (sampleIndex s) (uart_rx s) (uart_tx s) (eeprom s)
    (uart_tx_full s).
Definition set_sensorRaw (v : list Z) (s : state) : state :=
  mkState (sensorActiveCount s) (levelPercent s) (levelMm s) (cal_flag s) v
    (sensorDiff s) (sensorEmptyOffset s) (sensorProcessed s) (uartTxMode s)
    (storeSampleFlag s) (resetSampleFlag s) (bufferIndex s) (rxBuffer s)
    (sampleIndex s) (uart_rx s) (uart_tx s) (eeprom s)
    (uart_tx_full s).
Definition set_sensorDiff (v : list Z) (s : state) : state :=
  mkState (sensorActiveCount s) (levelPercent s) (levelMm s) (cal_flag s)
    (sensorRaw s) v (sensorEmptyOffset s) (sensorProcessed s) (uartTxMode s)
    (storeSampleFlag s) (resetSampleFlag s) (bufferIndex s) (rxBuffer s)
    (sampleIndex s) (uart_rx s) (uart_tx s) (eeprom s)
    (uart_tx_full s).
Definition set_sensorEmptyOffset (v : list Z) (s : state) : state :=
  mkState (sensorActiveCount s) (levelPercent s) (levelMm s) (cal_flag s)
    (sensorRaw s) (sensorDiff s) v (sensorProcessed s) (uartTxMode s)
    (storeSampleFlag s) (resetSampleFlag s) (bufferIndex s) (rxBuffer s)
    (sampleIndex s) (uart_rx s) (uart_tx s) (eeprom s)
    (uart_tx_full s).
Definition set_sensorProcessed (v : list Z) (s : state) : state :=
  mkState (sensorActiveCount s) (levelPercent s) (levelMm s) (cal_flag s)
    (sensorRaw s) (sensorDiff s) (sensorEmptyOffset s) v (uartTxMode s)
    (storeSampleFlag s) (resetSampleFlag s) (bufferIndex s) (rxBuffer s)
    (sampleIndex s) (uart_rx s) (uart_tx s) (eeprom s)
    (uart_tx_full s).
Definition set_uartTxMode (v : Z) (s : state) : state :=
  mkState (sensorActiveCount s) (levelPercent s) (levelMm s) (cal_flag s)
    (sensorRaw s) (sensorDiff s) (sensorEmptyOffset s) (sensorProcessed s) v
    (storeSampleFlag s) (resetSampleFlag s) (bufferIndex s) (rxBuffer s)
    (sampleIndex s) (uart_rx s) (uart_tx s) (eeprom s)
    (uart_tx_full s).
Definition set_storeSampleFlag (v : Z) (s : state) : state :=
  mkState (sensorActiveCount s) (levelPercent s) (levelMm s) (cal_flag s)
    (sensorRaw s) (sensorDiff s) (sensorEmptyOffset s) (sensorProcessed s)
    (uartTxMode s) v (resetSampleFlag s) (bufferIndex s) (rxBuffer s)
    (sampleIndex s) (uart_rx s) (uart_tx s) (eeprom s)
    (uart_tx_full s).
Definition set_resetSampleFlag (v : Z) (s : state) : state :=
  mkState (sensorActiveCount s) (levelPercent s) (levelMm s) (cal_flag s)
    (sensorRaw s) (sensorDiff s) (sensorEmptyOffset s) (sensorProcessed s)
    (uartTxMode s) (storeSampleFlag s) v (bufferIndex s) (rxBuffer s)
    (sampleIndex s) (uart_rx s) (uart_tx s) (eeprom s)
    (uart_tx_full s).
Definition set_bufferIndex (v : Z) (s : state) : state :=
  mkState (sensorActiveCount s) (levelPercent s) (levelMm s) (cal_flag s)
    (sensorRaw s) (sensorDiff s) (sensorEmptyOffset s) (sensorProcessed s)
    (uartTxMode s) (storeSampleFlag s) (resetSampleFlag s) v (rxBuffer s)
    (sampleIndex s) (uart_rx s) (uart_tx s) (eeprom s)
    (uart_tx_full s).
Definition set_rxBuffer (v : list Z) (s : state) : state :=
  mkState (sensorActiveCount s) (levelPercent s) (levelMm s) (cal_flag s)
    (sensorRaw s) (sensorDiff s) (sensorEmptyOffset s) (sensorProcessed s)
    (uartTxMode s) (storeSampleFlag s) (resetSampleFlag s) (bufferIndex s) v
    (sampleIndex s) (uart_rx s) (uart_tx s) (eeprom s)
    (uart_tx_full s).
Definition set_sampleIndex (v : Z) (s : state) : state :=
  mkState (sensorActiveCount s) (levelPercent s) (levelMm s) (cal_flag s)
    (sensorRaw s) (sensorDiff s) (sensorEmptyOffset s) (sensorProcessed s)
    (uartTxMode s) (storeSampleFlag s) (resetSampleFlag s) (bufferIndex s)
    (rxBuffer s) v (uart_rx s) (uart_tx s) (eeprom s)
    (uart_tx_full s).
Definition set_uart_rx (v : list Z) (s : state) : state :=
  mkState (sensorActiveCount s) (levelPercent s) (levelMm s) (cal_flag s)
    (sensorRaw s) (sensorDiff s) (sensorEmptyOffset s) (sensorProcessed s)
    (uartTxMode s) (storeSampleFlag s) (resetSampleFlag s) (bufferIndex s)
    (rxBuffer s) (sampleIndex s) v (uart_tx s) (eeprom s)
    (uart_tx_full s).
Definition set_uart_tx (v : list Z) (s : state) : state :=
  mkState (sensorActiveCount s) (levelPercent s) (levelMm s) (cal_flag s)
    (sensorRaw s) (sensorDiff s) (sensorEmptyOffset s) (sensorProcessed s)
    (uartTxMode s) (storeSampleFlag s) (resetSampleFlag s) (bufferIndex s)
    (rxBuffer s) (sampleIndex s) (uart_rx s) v (eeprom s)
    (uart_tx_full s).
Definition set_eeprom (v : list Z) (s : state) : state :=
  mkState (sensorActiveCount s) (levelPercent s) (levelMm s) (cal_flag s)
    (sensorRaw s) (sensorDiff s) (sensorEmptyOffset s) (sensorProcessed s)
    (uartTxMode s) (storeSampleFlag s) (resetSampleFlag s) (bufferIndex s)
    (rxBuffer s) (sampleIndex s) (uart_rx s) (uart_tx s) v
    (uart_tx_full s).
Definition set_uart_tx_full (v : list bool) (s : state) : state :=
  mkState (sensorActiveCount s) (levelPercent s) (levelMm s) (cal_flag s)
    (sensorRaw s) (sensorDiff s) (sensorEmptyOffset s) (sensorProcessed s)
    (uartTxMode s) (storeSampleFlag s) (resetSampleFlag s) (bufferIndex s)
    (rxBuffer s) (sampleIndex s) (uart_rx s) (uart_tx s) (eeprom s) v.

(** How a call ends. *)
Inductive outcome : Type :=
| Returns (s : state)
    (* control is back in the caller *)
| Halted (s : state)
    (* handle_error: interrupts disabled, [while(1u)] for ever *)
| OutOfBounds (index : Z) (s : state).
    (* a store to [rxBuffer[index]] with [index] outside the 32 cells;
       beyond this point C gives the program no meaning *)

Definition and_then (o : outcome) (k : state -> outcome) : outcome :=
  match o with
  | Returns s => k s
  | Halted s => Halted s
  | OutOfBounds i s => OutOfBounds i s
  end.
Notation "o >>> k" := (and_then o k) (at level 50, left associativity).

(** [for (i = lo; i < lo + n; i++) body] *)
Definition for_range (lo n : nat) (body : nat -> state -> state) (s : state)
  : state :=
  foldl (fun acc i => body i acc) s (seq lo n).

(** ** The serial transport

    [Cy_SCB_UART_Put] offers one byte to the transmit FIFO and returns the
    number of bytes the FIFO has taken: 1, or 0 when it is full. Whether it
    is full is up to the line, not to the program: [uart_tx_full] holds the
    answers to the coming calls, one for each call, and when they are used
    up the FIFO has room. The list being finite, a byte that is offered
    until it is taken is taken in the end. [Cy_SCB_UART_PutString] waits
    for room itself and returns when the whole string is in the FIFO. *)

(** Whether the transmit FIFO is full at the next call. *)
Definition tx_fifo_full (s : state) : bool :=
  match uart_tx_full s with
  | full :: _ => full
  | [] => false
  end.

Definition Cy_SCB_UART_Put (b : Z) (s : state) : Z * state :=
  let s' := set_uart_tx_full (tail (uart_tx_full s)) s in
  if tx_fifo_full s then (0, s')
  else (1, set_uart_tx (uart_tx s ++ [uint8 b]) s').

Definition Cy_SCB_UART_PutString (t : list Z) (s : state) : state :=
  set_uart_tx (uart_tx s ++ t) s.

(** [while (0 == Cy_SCB_UART_Put(b)) {}], for at most [fuel] calls. *)
Fixpoint put_retry (fuel : nat) (b : Z) (s : state) : state :=
  match fuel with
  | O => s
  | S fuel' =>
      let '(taken, s') := Cy_SCB_UART_Put b s in
      if taken =? 0 then put_retry fuel' b s' else s'
  end.

(** The loop itself. Every refusal uses up an answer, so one call more than
    there are answers left is enough: [put_retry_enough] below shows that
    the byte is taken before the fuel is spent. *)
Definition put_until_accepted (b : Z) (s : state) : state :=
  put_retry (S (length (uart_tx_full s))) b s.

(** ** interface.c: decimal rendering *)

Definition decimal : list Z :=
  [1000000000; 100000000; 10000000; 1000000; 100000; 10000; 1000; 100; 10; 1].

(** [while(number >= decimal[i]) { zero_flag = 1; number -= decimal[i];
    digit++; }] with [d = decimal[i]]; returns [(number, digit, zero_flag)].
    [digit_loop_exact] below shows that the fuel used by [digit_row] is
    never exhausted. *)
Fixpoint digit_loop (fuel : nat) (d number digit zero_flag : Z) : Z * Z * Z :=
  match fuel with
  | O => (number, digit, zero_flag)
  | S fuel' =>
      if d <=? number
      then digit_loop fuel' d (number - d) (uint8 (digit + 1)) 1
      else (number, digit, zero_flag)
  end.

(** The body of [for(i = 0; i <= 9; i++)], from index [i] on, over the
    remaining entries [ds] of [decimal]; returns the bytes handed to
    [Cy_SCB_UART_Put], in order. *)
Fixpoint digit_row (ds : list Z) (i leading_zeros number zero_flag : Z)
  : list Z :=
  match ds with
  | [] => []
  | d :: ds' =>
      let '(number', digit, zero_flag') := digit_loop 10 d number 0 zero_flag in
      (if (zero_flag' =? 1) || (i =? 9) || (10 - leading_zeros <=? i)
       then [uint8 (digit + 48)] else [])
      ++ digit_row ds' (i + 1) leading_zeros number' zero_flag'
  end.

(** [display_decimal_val]. The minus sign is offered to the FIFO once and
    the result of the call is dropped, so the sign is lost when the FIFO
    is full; every digit is offered until it is taken. *)
Definition display_decimal_val (number leading_zeros : Z) (s : state) : state :=
  let leading_zeros := if 10 <? leading_zeros then 10 else leading_zeros in
  let s := if number <? 0 then snd (Cy_SCB_UART_Put 45 s) else s in
  let number := if number <? 0 then wrap32 (number * -1) else number in
  foldl (fun s digit => put_until_accepted digit s) s
    (digit_row decimal 0 leading_zeros number 0).

(** [for(i = 0; i < num_decimal; i++) dec_digits *= 10;] *)
Definition dec_digits_loop (num_decimal : Z) : Z :=
  Nat.iter (Z.to_nat num_decimal) (fun dec_digits => wrap32 (dec_digits * 10)) 1.

(** [decimal_num] of [display_decimal_fixed_val], after the two range
    checks: the mask is [0xFFFFFFFF >> (31 - fixed_shift)], and mask, product
    and shift are all evaluated in [unsigned int]. *)
Definition fraction_of (number fixed_shift num_decimal : Z) : Z :=
  let fixed_shift := if 31 <? fixed_shift then 31 else fixed_shift in
  let num_decimal := if 9 <? num_decimal then 9 else num_decimal in
  let dec_digits := dec_digits_loop num_decimal in
  Z.shiftr
    (uint32 (Z.land (uint32 number) (Z.shiftr 0xFFFFFFFF (31 - fixed_shift))
             * uint32 dec_digits))
    fixed_shift.

(** [display_decimal_fixed_val]. The point, like the sign, is offered to
    the FIFO once. *)
Definition display_decimal_fixed_val (number fixed_shift num_decimal : Z)
  (s : state) : state :=
  let fixed_shift' := if 31 <? fixed_shift then 31 else fixed_shift in
  let num_decimal' := if 9 <? num_decimal then 9 else num_decimal in
  let s := display_decimal_val (Z.shiftr number fixed_shift') 0 s in
  if 0 <? num_decimal' then
    let s := snd (Cy_SCB_UART_Put 46 s) in
    display_decimal_val (wrap32 (fraction_of number fixed_shift num_decimal))
      (int8 num_decimal') s
  else s.

(** ** interface.c: calibration *)

Definition display_offset (i : nat) (s : state) : state :=
  let s := display_decimal_val (sensorEmptyOffset s !!! i) 0 s in
  Cy_SCB_UART_PutString (text ",") s.

Definition display_current_cal_val (s : state) : state :=
  let s := Cy_SCB_UART_PutString (text "EmptyCal=") s in
  let s := for_range 0 NUMSENSORS display_offset s in
  Cy_SCB_UART_PutString CRLF s.

(** One [int32_t] as it lies in memory (little-endian Cortex-M0+). *)
Definition bytes_of_int32 (w : Z) : list Z :=
  let u := uint32 w in
  [u mod 256; (u / 256) mod 256; (u / 65536) mod 256; (u / 16777216) mod 256].

(** [handle_error(status, message)]: returns on success; otherwise prints the
    message and never returns. *)
Definition handle_error (success : bool) (message : list Z) (s : state)
  : outcome :=
  if success then Returns s
  else Halted (Cy_SCB_UART_PutString message s).

(** [sensorEmptyOffset[i] = sensorDiff[i];] *)
Definition copy_offset (i : nat) (s : state) : state :=
  set_sensorEmptyOffset (<[i := sensorDiff s !!! i]> (sensorEmptyOffset s)) s.

(** [store_calibration]. [write_ok] is whether [Cy_Em_EEPROM_Write] reports
    [CY_EM_EEPROM_SUCCESS]; a successful write puts the first
    [LOGICAL_EM_EEPROM_SIZE] bytes of [sensorEmptyOffset] at logical
    address 0. *)
Definition store_calibration (write_ok : bool) (s : state) : outcome :=
  let s := for_range 0 NUMSENSORS copy_offset s in
  let s := display_current_cal_val s in
  let s := if write_ok
           then set_eeprom
                  (take LOGICAL_EM_EEPROM_SIZE
                     (concat (map bytes_of_int32 (sensorEmptyOffset s)))) s
           else s in
  handle_error write_ok (text "Emulated EEPROM Write failed " ++ CRLF) s.

(** ** interface.c: the command console *)

(** A string literal as it lies in memory. *)
Definition cstr (s : string) : list Z := text s ++ [0].

(** [strcmp(a, b) == 0]: the rows are compared cell by cell up to the first
    difference or the first NUL. With a literal for [a] the comparison ends
    inside the literal, at most six cells into [b]. *)
Fixpoint strcmp_eq (a b : list Z) : bool :=
  match a, b with
  | x :: a', y :: b' =>
      if x =? y then (if x =? 0 then true else strcmp_eq a' b') else false
  | _, _ => false
  end.

(** [strlen(b)]: the cells before the first NUL. *)
Fixpoint strlen (b : list Z) : nat :=
  match b with
  | [] => O
  | x :: b' => if x =? 0 then O else S (strlen b')
  end.

(** [memset(b, '\0', n)] *)
Definition memset0 (b : list Z) (n : nat) : list Z :=
  replicate n 0 ++ drop n b.

(** [rxBuffer[index] = value]. The source has no range check of its own; a
    store outside the 32 cells ends the run as [OutOfBounds]. *)
Definition rx_store (index value : Z) (s : state) : outcome :=
  if (0 <=? index) && (index <? RX_CAPACITY)
  then Returns (set_rxBuffer (<[Z.to_nat index := value]> (rxBuffer s)) s)
  else OutOfBounds index s.

(** The [if / else if] chain over [strcmp]. *)
Definition match_command (s : state) : state :=
  if strcmp_eq (cstr "cal") (rxBuffer s) then set_cal_flag TRUE s
  else if strcmp_eq (cstr "stop") (rxBuffer s) then set_uartTxMode UART_NONE s
  else if strcmp_eq (cstr "csv") (rxBuffer s) then set_uartTxMode UART_CSVINIT s
  else if strcmp_eq (cstr "basic") (rxBuffer s) then set_uartTxMode UART_BASIC s
  else if strcmp_eq (cstr "") (rxBuffer s)
       then set_uartTxMode UART_NONE (set_storeSampleFlag TRUE s)
  else if strcmp_eq (cstr "reset") (rxBuffer s)
       then set_uartTxMode UART_NONE (set_resetSampleFlag TRUE s)
  else Cy_SCB_UART_PutString CRLF
         (Cy_SCB_UART_PutString (text "Command Error") s).

Definition receive_uart_cmd (s : state) : outcome :=
  match uart_rx s with
  | [] => Returns s
  | read_data :: rest =>
      let s := set_uart_rx rest s in
      (if 48 <? read_data
       then rx_store (bufferIndex s) (uint8 read_data)
              (put_until_accepted read_data s)
            >>> (fun s =>
                   Returns (set_bufferIndex (uint16 (bufferIndex s + 1)) s))
       else Returns s)
      >>> (fun s =>
             if (read_data =? 13) || (read_data =? 10)
             then rx_store (bufferIndex s) 0 s
                  >>> (fun s =>
                         let s := match_command s in
                         let s := set_bufferIndex 0 s in
                         Returns (set_rxBuffer
                                    (memset0 (rxBuffer s) (strlen (rxBuffer s)))
                                    s))
             else Returns s)
  end.

(** ** interface.c: telemetry *)

(** The header row of a sample sequence, sent when the cursor is at 0. *)
Definition display_sample_header (s : state) : state :=
  let s := Cy_SCB_UART_PutString (text "PresetMm,") s in
  let s := for_range 1 (NUMSENSORS - 1) (fun i s =>
             let s := Cy_SCB_UART_PutString (text "SenDiff") s in
             let s := display_decimal_val (Z.of_nat i) 0 s in
             Cy_SCB_UART_PutString (text ",") s) s in
  let s := Cy_SCB_UART_PutString (text "Level%, LevelMm") s in
  Cy_SCB_UART_PutString CRLF s.

(** One sample row: the axis label under the cursor, the processed values of
    sensors 1 to 11, percent and height. [arrayAxisLabel] is read at
    [sampleIndex], which [cursor_in_range] keeps below [NUM_SAMPLES]. *)
Definition display_sample_row (s : state) : state :=
  let s := display_decimal_val
             (arrayAxisLabel !!! Z.to_nat (sampleIndex s)) 0 s in
  let s := Cy_SCB_UART_PutString (text ",") s in
  let s := for_range 1 (NUMSENSORS - 1) (fun i s =>
             let s := display_decimal_val (sensorProcessed s !!! i) 0 s in
             Cy_SCB_UART_PutString (text ",") s) s in
  let s := display_decimal_fixed_val (levelPercent s) 8 1 s in
  let s := Cy_SCB_UART_PutString (text ",") s in
  let s := display_decimal_fixed_val (levelMm s) 8 1 s in
  Cy_SCB_UART_PutString CRLF s.

Definition display_next_level_val (s : state) : state :=
  let s :=
    if storeSampleFlag s =? TRUE then
      let s := set_uartTxMode UART_NONE s in
      let s := if sampleIndex s =? 0 then display_sample_header s else s in
      let s := display_sample_row s in
      let s := set_sampleIndex (uint16 (sampleIndex s + 1)) s in
      let s := if NUM_SAMPLES <=? sampleIndex s
               then set_sampleIndex (NUM_SAMPLES - 1) s else s in
      set_storeSampleFlag FALSE s
    else s in
  if resetSampleFlag s =? TRUE then
    let s := set_sampleIndex 0 s in
    let s := Cy_SCB_UART_PutString (text "Reset Test Level") s in
    let s := Cy_SCB_UART_PutString CRLF s in
    let s := set_resetSampleFlag FALSE s in
    set_storeSampleFlag FALSE s
  else s.

(** The [UART_BASIC] branch of [display_cur_liquid_level]. *)
Definition display_basic (s : state) : state :=
  let s := Cy_SCB_UART_PutString (text "%=") s in
  let s := display_decimal_val (Z.shiftr (levelPercent s) 8) 0 s in
  let s := Cy_SCB_UART_PutString (text ".") s in
  let s := display_decimal_val
             (Z.shiftr (wrap32 (Z.land (levelPercent s) 0xFF * 10)) 8) 0 s in
  let s := Cy_SCB_UART_PutString (text "   mm=") s in
  let s := display_decimal_val (Z.shiftr (levelMm s) 8) 0 s in
  let s := Cy_SCB_UART_PutString (text ".") s in
  let s := display_decimal_val
             (Z.shiftr (wrap32 (Z.land (levelMm s) 0xFF * 10)) 8) 0 s in
  Cy_SCB_UART_PutString CRLF s.

(** The [UART_CSVINIT] branch: the header row, then the mode becomes
    [UART_CSV]. *)
Definition display_csv_header (s : state) : state :=
  let s := for_range 0 NUMSENSORS (fun i s =>
             let s := Cy_SCB_UART_PutString (text "Raw") s in
             let s := display_decimal_val (Z.of_nat i) 0 s in
             let s := Cy_SCB_UART_PutString (text ",") s in
             let s := Cy_SCB_UART_PutString (text "Diff") s in
             let s := display_decimal_val (Z.of_nat i) 0 s in
             let s := Cy_SCB_UART_PutString (text ",") s in
             let s := Cy_SCB_UART_PutString (text "Proc") s in
             let s := display_decimal_val (Z.of_nat i) 0 s in
             Cy_SCB_UART_PutString (text ",") s) s in
  let s := Cy_SCB_UART_PutString (text "SenActCnt,") s in
  let s := Cy_SCB_UART_PutString (text "Level%, LevelMm") s in
  let s := Cy_SCB_UART_PutString CRLF s in
  set_uartTxMode UART_CSV s.

(** The [UART_CSV] branch: one data row. *)
Definition display_csv_row (s : state) : state :=
  let s := for_range 0 NUMSENSORS (fun i s =>
             let s := display_decimal_val (sensorRaw s !!! i) 0 s in
             let s := Cy_SCB_UART_PutString (text ",") s in
             let s := display_decimal_val (sensorDiff s !!! i) 0 s in
             let s := Cy_SCB_UART_PutString (text ",") s in
             let s := display_decimal_val (sensorProcessed s !!! i) 0 s in
             Cy_SCB_UART_PutString (text ",") s) s in
  let s := display_decimal_val (sensorActiveCount s) 0 s in
  let s := Cy_SCB_UART_PutString (text ",") s in
  let s := display_decimal_fixed_val (levelPercent s) 8 1 s in
  let s := Cy_SCB_UART_PutString (text ",") s in
  let s := display_decimal_fixed_val (levelMm s) 8 1 s in
  Cy_SCB_UART_PutString CRLF s.

(** The mode-dependent first half of [display_cur_liquid_level]. *)
Definition display_mode (s : state) : state :=
  if uartTxMode s =? UART_BASIC then display_basic s
  else if (uartTxMode s =? UART_CSVINIT) || (uartTxMode s =? UART_CSV) then
    if uartTxMode s =? UART_CSVINIT then display_csv_header s
    else display_csv_row s
  else s.

Definition display_cur_liquid_level (s : state) : outcome :=
  receive_uart_cmd (display_mode s)
  >>> (fun s => Returns (display_next_level_val s)).

(** ** main.c: one turn of [for (;;)] *)

(** What the surroundings present during one turn of the loop:
    [Cy_CapSense_IsBusy], the [raw] fields of
    [cy_capsense_tuner.sensorContext] (each a [uint16_t]), and the status of
    [Cy_Em_EEPROM_Write] should it be called. *)
Record env : Type := mkEnv {
  capsense_busy : bool;
  raw_count : nat -> Z;
  eeprom_write_ok : bool
}.

(** [sensorRaw[i] = ...raw; sensorDiff[i] = sensorRaw[i];] *)
Definition read_count (e : env) (i : nat) (s : state) : state :=
  let s := set_sensorRaw (<[i := raw_count e i]> (sensorRaw s)) s in
  set_sensorDiff (<[i := sensorRaw s !!! i]> (sensorDiff s)) s.

Definition main_read_counts (e : env) (s : state) : state :=
  for_range 0 NUMSENSORS (read_count e) s.

(** [if(cal_flag == TRUE) { cal_flag = FALSE; store_calibration(); }] *)
Definition main_calibration (e : env) (s : state) : outcome :=
  if cal_flag s =? TRUE
  then store_calibration (eeprom_write_ok e) (set_cal_flag FALSE s)
  else Returns s.

(** The body of the normalisation loop for sensor [i]. *)
Definition pipeline_step (i : nat) (s : state) : state :=
  let s := set_sensorDiff
             (<[i := wrap32 (sensorDiff s !!! i - sensorEmptyOffset s !!! i)]>
                (sensorDiff s)) s in
  let s := if sensorDiff s !!! i <? 0
           then set_sensorDiff (<[i := 0]> (sensorDiff s)) s else s in
  let s := set_sensorProcessed
             (<[i := Z.shiftr
                       (wrap32 (sensorDiff s !!! i * sensorScale !!! i)) 8]>
                (sensorProcessed s)) s in
  if sensorLimits !!! i `quot` 2 <? sensorProcessed s !!! i then
    if (i =? 0)%nat || (i =? NUMSENSORS - 1)%nat
    then set_sensorActiveCount (uint8 (sensorActiveCount s + 1)) s
    else set_sensorActiveCount (uint8 (sensorActiveCount s + 2)) s
  else s.

(** [sensorActiveCount = 0;] and the normalisation loop. *)
Definition main_pipeline (s : state) : state :=
  for_range 0 NUMSENSORS pipeline_step (set_sensorActiveCount 0 s).

(** The block guarded by [CY_CAPSENSE_NOT_BUSY == Cy_CapSense_IsBusy(...)],
    with the scan engine reporting success. *)
Definition main_scan_complete (e : env) (s : state) : outcome :=
  main_calibration e (main_read_counts e s)
  >>> (fun s => Returns (main_pipeline s)).

(** [levelMm], the round-to-full correction and [levelPercent]. *)
Definition main_level (s : state) : state :=
  let s := set_levelMm
             (wrap32 (sensorActiveCount s * Z.shiftr sensorHeight 1)) s in
  let s := if Z.shiftl LEVELMM_MAX 8 - Z.shiftr sensorHeight 2 <? levelMm s
           then set_levelMm (Z.shiftl LEVELMM_MAX 8) s else s in
  set_levelPercent
    (wrap32 (uint32 (wrap32 (levelMm s * 100)) `quot` LEVELMM_MAX)) s.

Definition main_loop_body (e : env) (s : state) : outcome :=
  (if capsense_busy e then Returns s else main_scan_complete e s)
  >>> (fun s => display_cur_liquid_level (main_level s)).

(** The first turns of the loop, one per element of [es]. *)
Fixpoint main_loop (es : list env) (s : state) : outcome :=
  match es with
  | [] => Returns s
  | e :: es' => main_loop_body e s >>> main_loop es'
  end.

(** The static initialisers of both files. *)
Definition power_on : state :=
  {| sensorActiveCount := 0; levelPercent := 0; levelMm := 0;
     cal_flag := FALSE;
     sensorRaw := replicate NUMSENSORS 0;
     sensorDiff := replicate NUMSENSORS 0;
     sensorEmptyOffset := replicate LOGICAL_EM_EEPROM_SIZE 0;
     sensorProcessed := replicate NUMSENSORS 0;
     uartTxMode := UART_BASIC; storeSampleFlag := FALSE;
     resetSampleFlag := FALSE;
     bufferIndex := 0; rxBuffer := replicate (Z.to_nat RX_CAPACITY) 0;
     sampleIndex := 0;
     uart_rx := []; uart_tx := []; eeprom := []; uart_tx_full := [] |}.

(** The start-up loop that reads [eepromEmptyOffset] as an array of
    [int16_t] into [sensorEmptyOffset], one entry per sensor; [flash index]
    is the half-word found there. *)
Definition load_offset (flash : nat -> Z) (index : nat) (s : state) : state :=
  set_sensorEmptyOffset
    (<[index := int16 (flash index)]> (sensorEmptyOffset s)) s.

Definition main_load_offsets (flash : nat -> Z) (s : state) : state :=
  for_range 0 NUMSENSORS (load_offset flash) s.

(** A console with bytes typed into it. *)
Definition typed (bytes : list Z) (s : state) : state :=
  set_uart_rx (uart_rx s ++ bytes) s.

(** ** interface.c: the command list *)

(** The line end of the command list, which is LF CR. *)
Definition LFCR : list Z := [10; 13].

Definition display_uart_commands (s : state) : state :=
  let s := Cy_SCB_UART_PutString LFCR s in
  let s := Cy_SCB_UART_PutString (text "Commands " ++ LFCR) s in
  let s := Cy_SCB_UART_PutString
             (text "  stop - Stops displaying data over UART." ++ LFCR) s in
  let s := Cy_SCB_UART_PutString
             (text "  cal - Stores empty container sensor values to EEPROM for calibration."
              ++ LFCR) s in
  let s := Cy_SCB_UART_PutString
             (text "  basic - Outputs liquid level in mm and %." ++ LFCR) s in
  let s := Cy_SCB_UART_PutString
             (text "  csv - Outputs intermediate computation values as well as liquid level in CSV format."
              ++ LFCR) s in
  let s := Cy_SCB_UART_PutString
             (text "  'Enter' - Outputs the next set of level values from the sample array."
              ++ LFCR) s in
  let s := Cy_SCB_UART_PutString
             (text "  reset - Resets the sample array pointer to 0 %." ++ LFCR) s in
  Cy_SCB_UART_PutString LFCR s.

(** ** main.c: from reset to the loop *)

(** What start-up finds: the status of [Cy_Em_EEPROM_Init], the half-words
    of [eepromEmptyOffset] read as an array of [int16_t], and whether the
    transmit FIFO is full at each call of [Cy_SCB_UART_Put] from then on. *)
Record boot : Type := mkBoot {
  eeprom_init_ok : bool;
  boot_flash : nat -> Z;
  boot_tx_full : list bool
}.

(** The four strings sent first: clear screen and home, then the title
    between two rules. *)
Definition main_banner (s : state) : state :=
  let s := Cy_SCB_UART_PutString ([27] ++ text "[2J" ++ [27] ++ text "[;H") s in
  let s := Cy_SCB_UART_PutString
             (text "***************************************************************"
              ++ CRLF) s in
  let s := Cy_SCB_UART_PutString
             (text "CE239150 - PSoC 4 Capacitive Liquid Level Sensing" ++ CRLF)
             s in
  Cy_SCB_UART_PutString
    (text "***************************************************************"
     ++ CRLF ++ [10]) s.

(** [main] up to [for (;;)], with the board initialised: the banner, the
    command list, the calibration line, the EEPROM initialisation with its
    error handler, and the loop that loads the baselines. The CAPSENSE
    initialisation and the first scan assign none of the globals. *)
Definition main_startup (b : boot) (s : state) : outcome :=
  let s := main_banner s in
  let s := display_uart_commands s in
  let s := display_current_cal_val s in
  handle_error (eeprom_init_ok b)
    (text "Emulated EEPROM Initialization Error " ++ CRLF) s
  >>> (fun s => Returns (main_load_offsets (boot_flash b) s)).

(** [main], for the first turns of its loop: [bytes] are in the receive
    FIFO when the loop is entered, and [es] is what each turn finds. *)
Definition main (b : boot) (bytes : list Z) (es : list env) : outcome :=
  main_startup b (set_uart_tx_full (boot_tx_full b) (typed bytes power_on))
  >>> main_loop es.

(** ** What the claims are stated with *)

(** *** The bytes offered to the transmit FIFO *)

(** The bytes [display_decimal_val(number, leading_zeros)] offers to the
    FIFO, in order: the minus sign of a negative number, which is offered
    once, and the digits, each of which is offered until it is taken. *)
Definition decimal_val_text (number leading_zeros : Z) : list Z :=
  let leading_zeros := if 10 <? leading_zeros then 10 else leading_zeros in
  (if number <? 0 then [45] else [])
  ++ digit_row decimal 0 leading_zeros
       (if number <? 0 then wrap32 (number * -1) else number) 0.

(** The bytes [display_decimal_fixed_val] offers to the FIFO: the whole
    part, the point, which is offered once, and the fraction. *)
Definition decimal_fixed_val_text (number fixed_shift num_decimal : Z) : list Z :=
  let fixed_shift' := if 31 <? fixed_shift then 31 else fixed_shift in
  let num_decimal' := if 9 <? num_decimal then 9 else num_decimal in
  decimal_val_text (Z.shiftr number fixed_shift') 0
  ++ (if 0 <? num_decimal'
      then [46] ++ decimal_val_text
                     (wrap32 (fraction_of number fixed_shift num_decimal))
                     (int8 num_decimal')
      else []).

(** [sent] is [offered] less some of its minus signs and points: what
    arrives of a number when the FIFO is full at some of the single
    offers. *)
Inductive thin : list Z -> list Z -> Prop :=
| thin_nil : thin [] []
| thin_keep b offered sent :
    thin offered sent -> thin (b :: offered) (b :: sent)
| thin_drop b offered sent :
    b = 45 \/ b = 46 -> thin offered sent -> thin (b :: offered) sent.

(** The answers left when a byte has been offered until it was taken. *)
Fixpoint after_put (answers : list bool) : list bool :=
  match answers with
  | true :: later => after_put later
  | false :: later => later
  | [] => []
  end.

(** The answers left after [n] such bytes. *)
Definition after_puts (n : nat) (answers : list bool) : list bool :=
  Nat.iter n after_put answers.

(** The state after transmitting [sent], with [left] the answers of the
    FIFO still to come. *)
Definition emit (sent : list Z) (left : list bool) (s : state) : state :=
  set_uart_tx (uart_tx s ++ sent) (set_uart_tx_full left s).

(** [t'] is [t] after the bytes [offered] have been handed to the transport
    and those of them that [R] lets through have been transmitted; with
    room in the FIFO throughout, that is all of them. *)
Definition sent_by (R : list Z -> list Z -> Prop) (t t' : state)
  (offered : list Z) : Prop :=
  exists sent left,
    t' = emit sent left t /\ R offered sent
    /\ (uart_tx_full t = [] -> sent = offered /\ left = []).

(** [f] hands the bytes [offered] to the transport, in every state that
    satisfies [P]. *)
Definition sends (R : list Z -> list Z -> Prop) (P : state -> Prop)
  (f : state -> state) (offered : state -> list Z) : Prop :=
  forall t, P t -> sent_by R t (f t) (offered t).

(** Any state at all. *)
Definition any_state (_ : state) : Prop := True.

(** A text, and a condition, that do not depend on the transmit side of
    the state. *)
Definition tx_blind (offered : state -> list Z) : Prop :=
  forall sent left t, offered (emit sent left t) = offered t.
Definition tx_blind_on (P : state -> Prop) : Prop :=
  forall sent left t, P t -> P (emit sent left t).

(** The array sizes of the C declarations. *)
Record well_formed (s : state) : Prop := {
  wf_raw : length (sensorRaw s) = NUMSENSORS;
  wf_diff : length (sensorDiff s) = NUMSENSORS;
  wf_offset : length (sensorEmptyOffset s) = LOGICAL_EM_EEPROM_SIZE;
  wf_processed : length (sensorProcessed s) = NUMSENSORS
}.

(** The scan engine delivers unsigned 16-bit counts. *)
Definition counts_ok (e : env) : Prop :=
  forall i, (i < NUMSENSORS)%nat -> in_uint16 (raw_count e i).

(** A baseline is a half-word loaded at start-up or the copy of an earlier
    raw count; [baseline_ok_load] and [baseline_ok_loop] show that the
    program keeps it so. *)
Definition baseline_ok (s : state) : Prop :=
  forall i, (i < NUMSENSORS)%nat ->
    - 2 ^ 15 <= sensorEmptyOffset s !!! i < 2 ^ 16.

(** Weight of slot [i] in the active count. *)
Definition weight (i : nat) : Z :=
  if (i =? 0)%nat || (i =? NUMSENSORS - 1)%nat then 1 else 2.

(** The submersion test of slot [i] on a row of processed values. *)
Definition submerged (processed : list Z) (i : nat) : bool :=
  sensorLimits !!! i `quot` 2 <? processed !!! i.

(** The weighted sum of the submersion tests over the first [n] slots. *)
Fixpoint weighted_sum (processed : list Z) (n : nat) : Z :=
  match n with
  | O => 0
  | S n' => weighted_sum processed n'
            + (if submerged processed n' then weight n' else 0)
  end.

(** Slot [i] after the normalisation loop, from the state before it. *)
Definition diff_of (s : state) (i : nat) : Z :=
  let d := wrap32 (sensorDiff s !!! i - sensorEmptyOffset s !!! i) in
  if d <? 0 then 0 else d.
Definition processed_of (s : state) (i : nat) : Z :=
  Z.shiftr (wrap32 (diff_of s i * sensorScale !!! i)) 8.

(** "Within a quarter of a slot height of the maximum". *)
Definition near_full (h : Z) : Prop :=
  Z.abs (Z.shiftl LEVELMM_MAX 8 - h) <= sensorHeight `quot` 4.

(** *** Frames: the fields a piece of code does not assign *)

(** Everything the normalisation loop leaves alone. *)
Definition outside_pipeline (s : state) :=
  (levelPercent s, levelMm s, cal_flag s, sensorRaw s, sensorEmptyOffset s,
   (uartTxMode s, storeSampleFlag s, resetSampleFlag s, bufferIndex s,
    rxBuffer s, sampleIndex s, uart_rx s, uart_tx s, eeprom s)).

(** Everything the loop that reads the counts leaves alone. *)
Definition outside_counts (s : state) :=
  (sensorActiveCount s, levelPercent s, levelMm s, cal_flag s,
   sensorEmptyOffset s, sensorProcessed s,
   (uartTxMode s, storeSampleFlag s, resetSampleFlag s, bufferIndex s,
    rxBuffer s, sampleIndex s, uart_rx s, uart_tx s, eeprom s)).

(** Everything but the transmit log. *)
Definition outside_tx (s : state) :=
  (sensorActiveCount s, levelPercent s, levelMm s, cal_flag s, sensorRaw s,
   sensorDiff s, sensorEmptyOffset s, sensorProcessed s,
   (uartTxMode s, storeSampleFlag s, resetSampleFlag s, bufferIndex s,
    rxBuffer s, sampleIndex s, uart_rx s, eeprom s)).

(** Everything [store_calibration] leaves alone. *)
Definition outside_calibration (s : state) :=
  (sensorActiveCount s, levelPercent s, levelMm s, cal_flag s, sensorRaw s,
   sensorDiff s, sensorProcessed s,
   (uartTxMode s, storeSampleFlag s, resetSampleFlag s, bufferIndex s,
    rxBuffer s, sampleIndex s, uart_rx s)).

(** Everything but the two level values. *)
Definition outside_level (s : state) :=
  (sensorActiveCount s, cal_flag s, sensorRaw s, sensorDiff s,
   sensorEmptyOffset s, sensorProcessed s,
   (uartTxMode s, storeSampleFlag s, resetSampleFlag s, bufferIndex s,
    rxBuffer s, sampleIndex s, uart_rx s, uart_tx s, eeprom s)).

(** *** Sample inputs *)

(** A scan with every count at 1000, and an EEPROM that accepts writes. *)
Definition sample_scan : env :=
  {| capsense_busy := false; raw_count := fun _ => 1000;
     eeprom_write_ok := true |}.

(** The same scan with an EEPROM that refuses the write. *)
Definition sample_scan_refused : env :=
  {| capsense_busy := false; raw_count := fun _ => 1000;
     eeprom_write_ok := false |}.

(** *** The line accumulator *)

(** The six command lines. *)
Definition known_commands : list (list Z) :=
  [text "cal"; text "stop"; text "csv"; text "basic"; []; text "reset"].

(** The bytes of a typed line that the accumulator echoes and stores. *)
Definition kept (bytes : list Z) : list Z :=
  filter (fun b => 48 < b) bytes.

(** A byte of the transport that does not end a line. *)
Definition line_byte (b : Z) : Prop := 0 <= b < 256 /\ b <> 13 /\ b <> 10.

(** [n] calls of [receive_uart_cmd]. *)
Fixpoint receive_bytes (n : nat) (s : state) : outcome :=
  match n with
  | O => Returns s
  | S n' => receive_uart_cmd s >>> receive_bytes n'
  end.

(** The state [s] with [line] held in the line buffer, [tx] transmitted so
    far and [rx] waiting to be read. *)
Definition holding (line tx rx : list Z) (s : state) : state :=
  set_bufferIndex (Z.of_nat (length line))
    (set_rxBuffer (line ++ replicate (Z.to_nat RX_CAPACITY - length line) 0)
       (set_uart_tx tx (set_uart_rx rx s))).

(** What [match_command] does for an accumulated [line]. *)
Definition command_effect (line : list Z) (s : state) : state :=
  if decide (line = text "cal") then set_cal_flag TRUE s
  else if decide (line = text "stop") then set_uartTxMode UART_NONE s
  else if decide (line = text "csv") then set_uartTxMode UART_CSVINIT s
  else if decide (line = text "basic") then set_uartTxMode UART_BASIC s
  else if decide (line = []) then
    set_uartTxMode UART_NONE (set_storeSampleFlag TRUE s)
  else if decide (line = text "reset") then
    set_uartTxMode UART_NONE (set_resetSampleFlag TRUE s)
  else Cy_SCB_UART_PutString CRLF
         (Cy_SCB_UART_PutString (text "Command Error") s).

(** *** The console seen on its own

    The display mode, the flags, the line buffer, the cursor and the receive
    queue change from turn to turn in a way that does not depend on the
    sensor arrays or on what has been transmitted. [console] is that part of
    the state; the functions after it are the console part of the functions
    of [interface.c] and [main.c], and the [_refines] lemmas relate them. *)

Record console : Type := mkConsole {
  con_mode : Z; con_store : Z; con_reset : Z; con_cal : Z;
  con_index : Z; con_buffer : list Z; con_cursor : Z; con_rx : list Z
}.

Definition console_of (s : state) : console :=
  mkConsole (uartTxMode s) (storeSampleFlag s) (resetSampleFlag s)
    (cal_flag s) (bufferIndex s) (rxBuffer s) (sampleIndex s) (uart_rx s).

Inductive console_outcome : Type :=
| ConReturns (c : console)
| ConHalted
| ConOutOfBounds.

Definition con_then (o : console_outcome) (k : console -> console_outcome)
  : console_outcome :=
  match o with ConReturns c => k c | _ => o end.

Definition set_con_mode (v : Z) (c : console) : console :=
  mkConsole v (con_store c) (con_reset c) (con_cal c) (con_index c)
    (con_buffer c) (con_cursor c) (con_rx c).

Definition set_con_store (v : Z) (c : console) : console :=
  mkConsole (con_mode c) v (con_reset c) (con_cal c) (con_index c)
    (con_buffer c) (con_cursor c) (con_rx c).

Definition set_con_reset (v : Z) (c : console) : console :=
  mkConsole (con_mode c) (con_store c) v (con_cal c) (con_index c)
    (con_buffer c) (con_cursor c) (con_rx c).

Definition set_con_cal (v : Z) (c : console) : console :=
  mkConsole (con_mode c) (con_store c) (con_reset c) v (con_index c)
    (con_buffer c) (con_cursor c) (con_rx c).

Definition set_con_index (v : Z) (c : console) : console :=
  mkConsole (con_mode c) (con_store c) (con_reset c) (con_cal c) v
    (con_buffer c) (con_cursor c) (con_rx c).

Definition set_con_buffer (v : list Z) (c : console) : console :=
  mkConsole (con_mode c) (con_store c) (con_reset c) (con_cal c) (con_index c)
    v (con_cursor c) (con_rx c).

Definition set_con_cursor (v : Z) (c : console) : console :=
  mkConsole (con_mode c) (con_store c) (con_reset c) (con_cal c) (con_index c)
    (con_buffer c) v (con_rx c).

Definition set_con_rx (v : list Z) (c : console) : console :=
  mkConsole (con_mode c) (con_store c) (con_reset c) (con_cal c) (con_index c)
    (con_buffer c) (con_cursor c) v.

(** [display_mode]: only the step from [UART_CSVINIT] to [UART_CSV]. *)
Definition console_display_mode (c : console) : console :=
  set_con_mode
    (if con_mode c =? UART_BASIC then con_mode c
     else if (con_mode c =? UART_CSVINIT) || (con_mode c =? UART_CSV)
          then if con_mode c =? UART_CSVINIT then UART_CSV else con_mode c
          else con_mode c) c.

Definition console_store (index value : Z) (c : console) : console_outcome :=
  if (0 <=? index) && (index <? RX_CAPACITY)
  then ConReturns (set_con_buffer (<[Z.to_nat index := value]> (con_buffer c)) c)
  else ConOutOfBounds.

Definition console_command (c : console) : console :=
  if strcmp_eq (cstr "cal") (con_buffer c) then set_con_cal TRUE c
  else if strcmp_eq (cstr "stop") (con_buffer c) then set_con_mode UART_NONE c
  else if strcmp_eq (cstr "csv") (con_buffer c) then set_con_mode UART_CSVINIT c
  else if strcmp_eq (cstr "basic") (con_buffer c) then set_con_mode UART_BASIC c
  else if strcmp_eq (cstr "") (con_buffer c)
       then set_con_mode UART_NONE (set_con_store TRUE c)
  else if strcmp_eq (cstr "reset") (con_buffer c)
       then set_con_mode UART_NONE (set_con_reset TRUE c)
  else c.

Definition console_receive (c : console) : console_outcome :=
  match con_rx c with
  | [] => ConReturns c
  | read_data :: rest =>
      let c := set_con_rx rest c in
      con_then
        (if 48 <? read_data
         then con_then (console_store (con_index c) (uint8 read_data) c)
                (fun c => ConReturns
                            (set_con_index (uint16 (con_index c + 1)) c))
         else ConReturns c)
        (fun c =>
           if (read_data =? 13) || (read_data =? 10)
           then con_then (console_store (con_index c) 0 c)
                  (fun c =>
                     let c := console_command c in
                     let c := set_con_index 0 c in
                     ConReturns
                       (set_con_buffer
                          (memset0 (con_buffer c) (strlen (con_buffer c))) c))
           else ConReturns c)
  end.

Definition console_next_level (c : console) : console :=
  let c :=
    if con_store c =? TRUE then
      let c := set_con_mode UART_NONE c in
      let c := set_con_cursor (uint16 (con_cursor c + 1)) c in
      let c := if NUM_SAMPLES <=? con_cursor c
               then set_con_cursor (NUM_SAMPLES - 1) c else c in
      set_con_store FALSE c
    else c in
  if con_reset c =? TRUE
  then set_con_store FALSE (set_con_reset FALSE (set_con_cursor 0 c))
  else c.

(** [display_cur_liquid_level] *)
Definition console_render (c : console) : console_outcome :=
  con_then (console_receive (console_display_mode c))
    (fun c => ConReturns (console_next_level c)).

(** The calibration request as the loop consumes it. *)
Definition console_scan (e : env) (c : console) : console_outcome :=
  if con_cal c =? TRUE
  then if capsense_busy e then ConReturns c
       else if eeprom_write_ok e then ConReturns (set_con_cal FALSE c)
            else ConHalted
  else ConReturns c.

Definition console_cycle (e : env) (c : console) : console_outcome :=
  con_then (console_scan e c) console_render.

Fixpoint console_loop (es : list env) (c : console) : console_outcome :=
  match es with
  | [] => ConReturns c
  | e :: es' => con_then (console_cycle e c) (console_loop es')
  end.

(** The outcome of the program and the outcome of its console agree. *)
Definition refines (o : outcome) (co : console_outcome) : Prop :=
  match o, co with
  | Returns s, ConReturns c => console_of s = c
  | Halted _, ConHalted => True
  | OutOfBounds _ _, ConOutOfBounds => True
  | _, _ => False
  end.

(** *** Sessions *)

(** Nothing pending at the console: no flag set and the line buffer empty. *)
Definition idle_console (s : state) : Prop :=
  cal_flag s = FALSE /\ storeSampleFlag s = FALSE /\ resetSampleFlag s = FALSE
  /\ bufferIndex s = 0 /\ rxBuffer s = replicate (Z.to_nat RX_CAPACITY) 0.

(** The fraction digits as the specification words them: mask the low 8
    bits, multiply by [10 ^ n] with [n] clamped to [0, 9], shift right
    by 8. *)
Definition fraction_by_low_byte (v n : Z) : Z :=
  Z.shiftr (Z.land v 0xFF * 10 ^ Z.min (Z.max n 0) 9) 8.

(** The state at a full container: 153 mm, 100 percent. *)
Definition full_container : state :=
  set_levelMm (Z.shiftl LEVELMM_MAX 8) (set_levelPercent (Z.shiftl 100 8) power_on).

(** The CSV header row. *)
Definition csv_header_text : list Z :=
  concat (map (fun i => text "Raw" ++ decimal_val_text (Z.of_nat i) 0
                        ++ text "," ++ text "Diff"
                        ++ decimal_val_text (Z.of_nat i) 0
                        ++ text "," ++ text "Proc"
                        ++ decimal_val_text (Z.of_nat i) 0 ++ text ",")
            (seq 0 NUMSENSORS))
  ++ text "SenActCnt," ++ text "Level%, LevelMm" ++ CRLF.

(** The three columns of sensor [i] in a CSV data row. *)
Definition csv_slot_text (t : state) (i : nat) : list Z :=
  decimal_val_text (sensorRaw t !!! i) 0 ++ text ","
  ++ decimal_val_text (sensorDiff t !!! i) 0 ++ text ","
  ++ decimal_val_text (sensorProcessed t !!! i) 0 ++ text ",".

(** The CSV data row for the readings held in [t]. *)
Definition csv_row_text (t : state) : list Z :=
  concat (map (csv_slot_text t) (seq 0 NUMSENSORS))
  ++ decimal_val_text (sensorActiveCount t) 0 ++ text ","
  ++ decimal_fixed_val_text (levelPercent t) 8 1 ++ text ","
  ++ decimal_fixed_val_text (levelMm t) 8 1 ++ CRLF.

(** The state handed to [display_cur_liquid_level] in a turn of the loop in
    which no calibration is requested. *)
Definition sensed (e : env) (s : state) : state :=
  main_level (if capsense_busy e then s
              else main_pipeline (main_read_counts e s)).

(** A CSV session under way: mode [UART_CSV], nothing typed, nothing
    pending. *)
Definition csv_running (s : state) : Prop :=
  idle_console s /\ uartTxMode s = UART_CSV /\ uart_rx s = [].

(** A CSV data row for some readings, as it arrives: less the signs and
    points for which the FIFO had no room. *)
Definition is_csv_data_row (row : list Z) : Prop :=
  exists t, thin (csv_row_text t) row.

(** The claim about a CSV session, for the bytes typed into an idle console
    and the number of turns of the loop spent reading them: the turn after
    those transmits the header row and nothing else and leaves the mode at
    [UART_CSV]; all later turns leave it there and transmit one data row
    each, never the letter that begins a header. *)
Definition csv_session (bytes : list Z) (reading : nat) : Prop :=
  forall (s : state) (es : list env) (e : env) (es' : list env),
    idle_console s -> uart_rx s = bytes -> length es = reading ->
    exists s1 s2 s3 rows,
      main_loop es s = Returns s1
      /\ main_loop_body e s1 = Returns s2
      /\ uart_tx s2 = uart_tx s1 ++ csv_header_text
      /\ uartTxMode s2 = UART_CSV
      /\ main_loop es' s2 = Returns s3
      /\ uartTxMode s3 = UART_CSV
      /\ uart_tx s3 = uart_tx s2 ++ concat rows
      /\ length rows = length es'
      /\ Forall is_csv_data_row rows
      /\ ~ In 82 (concat rows).

(** The digits by division, for a number that is not negative. *)
Fixpoint digit_row_div (ds : list Z) (i leading_zeros number zero_flag : Z)
  : list Z :=
  match ds with
  | [] => []
  | d :: ds' =>
      let zero_flag' := if d <=? number then 1 else zero_flag in
      (if (zero_flag' =? 1) || (i =? 9) || (10 - leading_zeros <=? i)
       then [uint8 (number / d + 48)] else [])
      ++ digit_row_div ds' (i + 1) leading_zeros (number mod d) zero_flag'
  end.

(** Each entry positive and ten times the next. *)
Fixpoint decades (ds : list Z) : Prop :=
  match ds with
  | [] => True
  | d :: ds' =>
      0 < d /\ match ds' with [] => True | d' :: _ => d = 10 * d' end
      /\ decades ds'
  end.

(** The sensor side of the state, which the console never assigns. *)
Definition sensors (s : state) :=
  (sensorActiveCount s, levelPercent s, levelMm s, sensorRaw s, sensorDiff s,
   sensorEmptyOffset s, sensorProcessed s, eeprom s).

(** ** What the further properties are stated with *)

(** *** Decimal texts *)

(** An ASCII digit. *)
Definition is_digit (b : Z) : Prop := 48 <= b <= 57.

(** The number a row of ASCII digits denotes. *)
Definition decimal_value (bs : list Z) : Z :=
  foldl (fun acc b => acc * 10 + (b - 48)) 0 bs.

(** Each entry ten times the next, the last one 1. *)
Fixpoint powers_of_ten (ds : list Z) : Prop :=
  match ds with
  | [] => True
  | d :: ds' =>
      d = match ds' with [] => 1 | d' :: _ => 10 * d' end /\ powers_of_ten ds'
  end.

(** *** The level from turn to turn *)

(** The active count is the weighted sum of the submersion tests on the
    processed values held, and the two level values are the ones
    [main_level] computes from that count. *)
Definition level_settled (s : state) : Prop :=
  sensorActiveCount s = weighted_sum (sensorProcessed s) NUMSENSORS
  /\ levelMm s = levelMm (main_level s)
  /\ levelPercent s = levelPercent (main_level s).

(** Everything but the baselines and the transmit log. *)
Definition outside_startup (s : state) :=
  (sensorActiveCount s, levelPercent s, levelMm s, cal_flag s, sensorRaw s,
   sensorDiff s, sensorProcessed s,
   (uartTxMode s, storeSampleFlag s, resetSampleFlag s, bufferIndex s,
    rxBuffer s, sampleIndex s, uart_rx s, eeprom s)).

(** Everything but the baselines. *)
Definition outside_baselines (s : state) :=
  (sensorActiveCount s, levelPercent s, levelMm s, cal_flag s, sensorRaw s,
   sensorDiff s, sensorProcessed s,
   (uartTxMode s, storeSampleFlag s, resetSampleFlag s, bufferIndex s,
    rxBuffer s, sampleIndex s, uart_rx s, uart_tx s, eeprom s)).

(** *** The console from turn to turn *)

(** A byte of the transport that the line accumulator keeps. *)
Definition kept_byte (b : Z) : Prop := 48 < b < 256.

(** The console at the head of the loop: the mode is one of the four, no
    one-shot flag is pending, the cursor is inside the axis-label table, and
    the line buffer holds the bytes kept so far on the current line, with
    the index behind them and zeros after. *)
Definition console_settled (s : state) : Prop :=
  (uartTxMode s = UART_NONE \/ uartTxMode s = UART_BASIC
   \/ uartTxMode s = UART_CSVINIT \/ uartTxMode s = UART_CSV)
  /\ (cal_flag s = FALSE \/ cal_flag s = TRUE)
  /\ storeSampleFlag s = FALSE /\ resetSampleFlag s = FALSE
  /\ 0 <= sampleIndex s <= NUM_SAMPLES - 1
  /\ exists line,
       (length line <= Z.to_nat RX_CAPACITY)%nat /\ Forall kept_byte line
       /\ bufferIndex s = Z.of_nat (length line)
       /\ rxBuffer s = line ++ replicate (Z.to_nat RX_CAPACITY - length line) 0.

(** No line of [bytes] holds more bytes above ['0'] than the line buffer
    has cells beside the one of the terminating zero: [room] is what is
    left of those [RX_CAPACITY - 1] cells on the line being read. *)
Fixpoint lines_fit_in (room : nat) (bytes : list Z) : bool :=
  match bytes with
  | [] => true
  | b :: rest =>
      if 48 <? b
      then match room with
           | O => false
           | S room' => lines_fit_in room' rest
           end
      else if (b =? 13) || (b =? 10)
           then lines_fit_in (Z.to_nat RX_CAPACITY - 1) rest
           else lines_fit_in room rest
  end.

Definition lines_fit (bytes : list Z) : bool :=
  lines_fit_in (Z.to_nat RX_CAPACITY - 1) bytes.

(** The line being read fits: the buffer holds [line] with a cell to
    spare, and what is still to be read fits the cells left. *)
Definition line_fits (s : state) : Prop :=
  exists line,
    (length line < Z.to_nat RX_CAPACITY)%nat /\ Forall kept_byte line
    /\ bufferIndex s = Z.of_nat (length line)
    /\ rxBuffer s = line ++ replicate (Z.to_nat RX_CAPACITY - length line) 0
    /\ lines_fit_in (Z.to_nat RX_CAPACITY - 1 - length line) (uart_rx s) = true.

(** A turn that finds the scan still running. *)
Definition sample_busy : env :=
  {| capsense_busy := true; raw_count := fun _ => 1000;
     eeprom_write_ok := true |}.

(** *** The lines of the display modes *)

(** The first decimal of a 24.8 fixed-point value, truncated. *)
Definition tenths (v : Z) : Z := v mod 256 * 10 / 256.

(** The line of the BASIC mode for the level values held in [t]. *)
Definition basic_line_text (t : state) : list Z :=
  text "%=" ++ decimal_val_text (levelPercent t / 256) 0
  ++ [46; 48 + tenths (levelPercent t)]
  ++ text "   mm=" ++ decimal_val_text (levelMm t / 256) 0
  ++ [46; 48 + tenths (levelMm t)] ++ CRLF.

(** The calibration line for a row of baselines: the first [NUMSENSORS]
    of them, each followed by a comma. *)
Definition cal_line_text (baselines : list Z) : list Z :=
  text "EmptyCal="
  ++ concat (map (fun i => decimal_val_text (baselines !!! i) 0 ++ text ",")
               (seq 0 NUMSENSORS))
  ++ CRLF.

(** The header row of a sample sequence. *)
Definition sample_header_text : list Z :=
  text "PresetMm,SenDiff1,SenDiff2,SenDiff3,SenDiff4,SenDiff5,SenDiff6,SenDiff7,SenDiff8,SenDiff9,SenDiff10,SenDiff11,Level%, LevelMm"
  ++ CRLF.

(** The sample row for the cursor at [cursor] and the readings held in
    [t]: the axis label, the processed values of sensors 1 to 11, percent
    and height. *)
Definition sample_row_text (cursor : Z) (t : state) : list Z :=
  decimal_val_text (arrayAxisLabel !!! Z.to_nat cursor) 0 ++ text ","
  ++ concat (map (fun i => decimal_val_text (sensorProcessed t !!! i) 0
                           ++ text ",")
               (seq 1 (NUMSENSORS - 1)))
  ++ decimal_fixed_val_text (levelPercent t) 8 1 ++ text ","
  ++ decimal_fixed_val_text (levelMm t) 8 1 ++ CRLF.

(** A scan with every count at 100. *)
Definition sample_scan_low : env :=
  {| capsense_busy := false; raw_count := fun _ => 100;
     eeprom_write_ok := true |}.

(** The commas of a line: one less than its fields. *)
Definition commas (line : list Z) : nat := count_occ Z.eq_dec line 44.

(** The three commands that set the display mode, with the mode each
    sets. *)
Definition mode_commands : list (list Z * Z) :=
  [(text "stop", UART_NONE); (text "basic", UART_BASIC);
   (text "csv", UART_CSVINIT)].

(** A scan that finds the five lowest sensors at 1000 and the others at 0. *)
Definition sample_scan_five : env :=
  {| capsense_busy := false;
     raw_count := fun i => if (i <? 5)%nat then 1000 else 0;
     eeprom_write_ok := true |}.

(** ** Integers *)

Lemma wrap32_small z : in_int32 z -> wrap32 z = z.
Proof.
  unfold in_int32, wrap32. intros H.
  rewrite Z.mod_small by lia. lia.
Qed.

Lemma wrap32_range z : in_int32 (wrap32 z).
Proof.
  unfold in_int32, wrap32.
  pose proof (Z.mod_pos_bound (z + 2 ^ 31) (2 ^ 32) ltac:(lia)). lia.
Qed.

Lemma uint8_small z : in_uint8 z -> uint8 z = z.
Proof. unfold in_uint8, uint8. intros H. apply Z.mod_small. lia. Qed.

(** ** Loops *)

Lemma for_range_0 lo body s : for_range lo 0 body s = s.
Proof. reflexivity. Qed.

Lemma for_range_S lo n body s :
  for_range lo (S n) body s = body (lo + n)%nat (for_range lo n body s).
Proof. unfold for_range. rewrite seq_S, foldl_app. reflexivity. Qed.

(** A property kept by every turn of a loop is kept by the loop. *)
Lemma for_range_keeps (P : state -> Prop) lo n body s :
  (forall i t, P t -> P (body i t)) -> P s -> P (for_range lo n body s).
Proof.
  intros Hbody Hs. induction n as [|n IH].
  - exact Hs.
  - rewrite for_range_S. apply Hbody, IH.
Qed.

(** ** The transport *)

Lemma emit_emit a la b lb t : emit b lb (emit a la t) = emit (a ++ b) lb t.
Proof. destruct t. unfold emit. cbn. rewrite <- app_assoc. reflexivity. Qed.

Lemma emit_nil t : emit [] (uart_tx_full t) t = t.
Proof. destruct t. unfold emit. cbn. rewrite app_nil_r. reflexivity. Qed.

Lemma emit_answers a l l' t : emit a l (set_uart_tx_full l' t) = emit a l t.
Proof. destruct t. reflexivity. Qed.

Lemma emit_sent a l a' l' t : emit a l t = emit a' l' t -> a = a'.
Proof.
  intros H. apply (f_equal uart_tx) in H. unfold emit in H. cbn in H.
  exact (app_inv_head _ _ _ H).
Qed.

Lemma put_string_emit x t :
  Cy_SCB_UART_PutString x t = emit x (uart_tx_full t) t.
Proof. destruct t. reflexivity. Qed.

(** One offer: the byte is transmitted unless the FIFO is full, and one
    answer is used up. *)
Lemma put_once b t :
  snd (Cy_SCB_UART_Put b t)
  = emit (if tx_fifo_full t then [] else [uint8 b]) (tail (uart_tx_full t)) t.
Proof.
  unfold Cy_SCB_UART_Put, emit. cbv zeta.
  destruct (tx_fifo_full t); cbn [snd]; destruct t; cbn;
    rewrite ?app_nil_r; reflexivity.
Qed.

(** The retry loop ends before its fuel does, with the byte transmitted. *)
Lemma put_retry_enough answers : forall fuel b t,
  uart_tx_full t = answers -> (length answers < fuel)%nat ->
  put_retry fuel b t = emit [uint8 b] (after_put answers) t.
Proof.
  induction answers as [|full later IH]; intros fuel b t Ha Hfuel;
    (destruct fuel as [|fuel]; [cbn in Hfuel; lia|]);
    cbn [put_retry]; unfold Cy_SCB_UART_Put, tx_fifo_full; rewrite Ha;
    cbv zeta.
  - reflexivity.
  - destruct full; cbv iota; cbn [Z.eqb tail after_put].
    + rewrite (IH fuel b (set_uart_tx_full later t));
        [apply emit_answers|reflexivity|cbn [length] in Hfuel; lia].
    + reflexivity.
Qed.

Lemma put_until_accepted_eq b t :
  put_until_accepted b t = emit [uint8 b] (after_put (uart_tx_full t)) t.
Proof. unfold put_until_accepted. apply put_retry_enough; [reflexivity|lia]. Qed.

Lemma after_puts_nil n : after_puts n [] = [].
Proof.
  unfold after_puts. induction n as [|n IH]; [reflexivity|].
  rewrite Nat.iter_succ, IH. reflexivity.
Qed.

(** A row of bytes, each offered until it is taken. *)
Lemma put_each_eq bytes : forall t,
  foldl (fun s b => put_until_accepted b s) t bytes
  = emit (map uint8 bytes) (after_puts (length bytes) (uart_tx_full t)) t.
Proof.
  induction bytes as [|b bytes IH]; intros t.
  - symmetry. apply emit_nil.
  - cbn [foldl map length]. rewrite IH, put_until_accepted_eq, emit_emit.
    unfold after_puts. rewrite Nat.iter_succ_r. reflexivity.
Qed.

Lemma uint8_uint8 z : uint8 (uint8 z) = uint8 z.
Proof. unfold uint8. apply Z.mod_mod. lia. Qed.

Lemma digit_row_uint8 ds : forall i leading_zeros number zero_flag,
  map uint8 (digit_row ds i leading_zeros number zero_flag)
  = digit_row ds i leading_zeros number zero_flag.
Proof.
  induction ds as [|d ds IH]; intros i leading_zeros number zero_flag;
    [reflexivity|].
  cbn [digit_row].
  destruct (digit_loop 10 d number 0 zero_flag) as [[number' digit] zf].
  rewrite map_app, IH. f_equal.
  case_match; [|reflexivity]. cbn [map]. rewrite uint8_uint8. reflexivity.
Qed.

(** [display_decimal_val] in one step: the sign if the number is negative
    and the FIFO has room for it, then every digit. *)
Lemma display_decimal_val_emit number leading_zeros t :
  let digits :=
    digit_row decimal 0 (if 10 <? leading_zeros then 10 else leading_zeros)
      (if number <? 0 then wrap32 (number * -1) else number) 0 in
  display_decimal_val number leading_zeros t
  = emit ((if (number <? 0) && negb (tx_fifo_full t) then [45] else [])
          ++ digits)
      (after_puts (length digits)
         (if number <? 0 then tail (uart_tx_full t) else uart_tx_full t))
      t.
Proof.
  cbv zeta. unfold display_decimal_val. cbv zeta.
  rewrite put_each_eq, digit_row_uint8.
  destruct (number <? 0); cbn [andb app].
  - rewrite put_once, emit_emit.
    destruct (tx_fifo_full t); reflexivity.
  - reflexivity.
Qed.

(** *** Signs and points that may be missing *)

Lemma thin_refl a : thin a a.
Proof. induction a; constructor; assumption. Qed.

Lemma thin_app a a' b b' : thin a a' -> thin b b' -> thin (a ++ b) (a' ++ b').
Proof.
  intros Ha Hb. induction Ha; cbn [app]; [exact Hb|..].
  - constructor. assumption.
  - apply thin_drop; assumption.
Qed.

Lemma eq_app (a a' b b' : list Z) : a = a' -> b = b' -> a ++ b = a' ++ b'.
Proof. intros -> ->. reflexivity. Qed.

(** What is left of a text is part of it. *)
Lemma thin_Forall (P : Z -> Prop) offered sent :
  thin offered sent -> Forall P offered -> Forall P sent.
Proof.
  induction 1 as [|b offered sent _ IH|b offered sent _ _ IH]; intros Hall.
  - constructor.
  - inversion Hall; subst. constructor; auto.
  - inversion Hall; subst. auto.
Qed.

(** *** Single numbers *)

Lemma decimal_val_sent number leading_zeros t :
  sent_by thin t (display_decimal_val number leading_zeros t)
    (decimal_val_text number leading_zeros).
Proof.
  rewrite display_decimal_val_emit. cbv zeta. unfold decimal_val_text.
  eexists _, _. split; [reflexivity|]. split.
  - apply thin_app; [|apply thin_refl].
    destruct (number <? 0); cbn [andb]; [|constructor].
    destruct (tx_fifo_full t); cbn [negb];
      [apply thin_drop; [left; reflexivity|constructor]|apply thin_refl].
  - intros Hroom. unfold tx_fifo_full. rewrite Hroom.
    rewrite andb_true_r. split; [reflexivity|].
    destruct (number <? 0); apply after_puts_nil.
Qed.

(** A number that is not negative has no sign to lose. *)
Lemma decimal_val_sent_all number leading_zeros t :
  0 <= number ->
  sent_by eq t (display_decimal_val number leading_zeros t)
    (decimal_val_text number leading_zeros).
Proof.
  intros Hn. rewrite display_decimal_val_emit. cbv zeta.
  unfold decimal_val_text.
  replace (number <? 0) with false by (symmetry; apply Z.ltb_ge; lia).
  eexists _, _. split; [reflexivity|]. split; [reflexivity|].
  intros Hroom. split; [reflexivity|]. rewrite Hroom. apply after_puts_nil.
Qed.

(** *** Sequences and loops of transmissions *)

Section Sending.
Variable R : list Z -> list Z -> Prop.
Hypothesis R_refl : forall a, R a a.
Hypothesis R_app : forall a a' b b', R a a' -> R b b' -> R (a ++ b) (a' ++ b').

Lemma sent_by_refl t : sent_by R t t [].
Proof.
  exists [], (uart_tx_full t). split; [symmetry; apply emit_nil|].
  split; [apply R_refl|]. intros ->. split; reflexivity.
Qed.

Lemma sent_by_trans t u v a b :
  sent_by R t u a -> sent_by R u v b -> sent_by R t v (a ++ b).
Proof.
  intros (s1 & l1 & -> & R1 & X1) (s2 & l2 & -> & R2 & X2).
  exists (s1 ++ s2), l2. split; [apply emit_emit|].
  split; [apply R_app; assumption|]. intros Hroom.
  destruct (X1 Hroom) as (-> & ->).
  destruct (X2 eq_refl) as (-> & ->). split; reflexivity.
Qed.

Lemma sent_by_put x t : sent_by R t (Cy_SCB_UART_PutString x t) x.
Proof.
  exists x, (uart_tx_full t). split; [apply put_string_emit|].
  split; [apply R_refl|]. intros ->. split; reflexivity.
Qed.

Variable P : state -> Prop.
Hypothesis P_blind : tx_blind_on P.

Lemma sends_put x : sends R P (Cy_SCB_UART_PutString x) (fun _ => x).
Proof. intros t _. apply sent_by_put. Qed.

Lemma sends_ext f a a' :
  (forall t, P t -> a t = a' t) -> sends R P f a -> sends R P f a'.
Proof. intros E H t Ht. rewrite <- (E t Ht). apply H, Ht. Qed.

Lemma sends_then f g a b :
  sends R P f a -> sends R P g b -> tx_blind b ->
  sends R P (fun t => let u := f t in g u) (fun t => a t ++ b t).
Proof.
  intros Hf Hg Hb t Ht. cbv zeta.
  pose proof (Hf t Ht) as H1. destruct H1 as (s1 & l1 & E1 & R1 & X1).
  pose proof (Hg (f t)) as H2. rewrite E1 in H2 |- *.
  specialize (H2 (P_blind _ _ _ Ht)). rewrite Hb in H2.
  apply (sent_by_trans t (emit s1 l1 t)); [|exact H2].
  exists s1, l1. auto.
Qed.

Lemma sends_for_range lo n body (out : nat -> state -> list Z) :
  (forall i, (lo <= i < lo + n)%nat -> sends R P (body i) (out i)) ->
  (forall i, tx_blind (out i)) ->
  sends R P (for_range lo n body)
    (fun t => concat (map (fun i => out i t) (seq lo n))).
Proof.
  intros Hbody Hout. induction n as [|n IH]; intros t Ht.
  - apply sent_by_refl.
  - rewrite for_range_S, seq_S, map_app, concat_app. cbn [map concat].
    rewrite app_nil_r.
    pose proof (IH ltac:(intros i Hi; apply Hbody; lia) t Ht) as H1.
    destruct H1 as (s1 & l1 & E1 & R1 & X1).
    pose proof (Hbody (lo + n)%nat ltac:(lia) (for_range lo n body t)) as H2.
    rewrite E1 in H2 |- *.
    specialize (H2 (P_blind _ _ _ Ht)). rewrite Hout in H2.
    apply (sent_by_trans t (emit s1 l1 t)); [|exact H2].
    exists s1, l1. auto.
Qed.

(** A transmission changes nothing but the transmit side. *)
Lemma sends_outside f a t :
  sends R P f a -> P t -> outside_tx (f t) = outside_tx t.
Proof.
  intros H Ht. destruct (H t Ht) as (s1 & l1 & -> & _). reflexivity.
Qed.
End Sending.

(** *** The lines of [interface.c] *)

Ltac blind := intros ? ? ?; reflexivity.

(** [let u := f s in g u]: first [f], then [g]. *)
Ltac sends_let R_app P_blind :=
  lazymatch goal with
  | |- sends ?R ?P (fun s => let u := @?f s in @?g u) _ =>
      apply (sends_then R R_app P P_blind f g)
  end.

Lemma put_once_sent b t :
  b = 45 \/ b = 46 -> sent_by thin t (snd (Cy_SCB_UART_Put b t)) [b].
Proof.
  intros Hb. rewrite put_once.
  replace (uint8 b) with b by (destruct Hb; subst; reflexivity).
  eexists _, _. split; [reflexivity|]. split.
  - destruct (tx_fifo_full t); [apply thin_drop; [exact Hb|constructor]
                               |apply thin_refl].
  - intros Hroom. unfold tx_fifo_full. rewrite Hroom. split; reflexivity.
Qed.

Lemma decimal_fixed_val_sent number fixed_shift num_decimal t :
  sent_by thin t (display_decimal_fixed_val number fixed_shift num_decimal t)
    (decimal_fixed_val_text number fixed_shift num_decimal).
Proof.
  unfold display_decimal_fixed_val, decimal_fixed_val_text. cbv zeta.
  destruct (0 <? (if 9 <? num_decimal then 9 else num_decimal)).
  - eapply (sent_by_trans thin thin_app); [apply decimal_val_sent|].
    eapply (sent_by_trans thin thin_app);
      [apply put_once_sent; right; reflexivity|apply decimal_val_sent].
  - rewrite app_nil_r. apply decimal_val_sent.
Qed.

Section Lines.
Variable R : list Z -> list Z -> Prop.
Hypothesis R_refl : forall a, R a a.
Hypothesis R_app : forall a a' b b', R a a' -> R b b' -> R (a ++ b) (a' ++ b').
(** The numbers that [R] lets through. *)
Variable good : Z -> Prop.
Hypothesis R_number : forall number leading_zeros t,
  good number ->
  sent_by R t (display_decimal_val number leading_zeros t)
    (decimal_val_text number leading_zeros).
Variable P : state -> Prop.
Hypothesis P_blind : tx_blind_on P.

Lemma sends_number (number : state -> Z) leading_zeros :
  (forall t, P t -> good (number t)) ->
  sends R P (fun s => display_decimal_val (number s) leading_zeros s)
    (fun s => decimal_val_text (number s) leading_zeros).
Proof. intros H t Ht. apply R_number, H, Ht. Qed.

Lemma display_current_cal_val_sends :
  (forall t i, P t -> (i < NUMSENSORS)%nat ->
     good (sensorEmptyOffset t !!! i)) ->
  sends R P display_current_cal_val
    (fun t => cal_line_text (sensorEmptyOffset t)).
Proof.
  intros Hgood. cbv beta delta [display_current_cal_val cal_line_text].
  sends_let R_app P_blind; [apply sends_put, R_refl| |blind].
  sends_let R_app P_blind; [|apply sends_put, R_refl|blind].
  apply (sends_for_range R R_refl R_app P P_blind 0 NUMSENSORS display_offset
           (fun i t => decimal_val_text (sensorEmptyOffset t !!! i) 0
                       ++ text ","));
    [|intros i; blind].
  intros i Hi. cbv beta delta [display_offset].
  sends_let R_app P_blind; [|apply sends_put, R_refl|blind].
  apply sends_number. intros t Ht. apply Hgood; [exact Ht|lia].
Qed.

Lemma display_sample_header_sends :
  (forall i, good (Z.of_nat i)) ->
  sends R P display_sample_header (fun _ => sample_header_text).
Proof.
  intros Hgood.
  apply (sends_ext R P _
           (fun _ => text "PresetMm,"
                     ++ concat (map (fun i => text "SenDiff"
                                              ++ decimal_val_text (Z.of_nat i) 0
                                              ++ text ",")
                                  (seq 1 (NUMSENSORS - 1)))
                     ++ text "Level%, LevelMm" ++ CRLF));
    [intros t Ht; vm_compute; reflexivity|].
  cbv beta delta [display_sample_header].
  sends_let R_app P_blind; [apply sends_put, R_refl| |blind].
  sends_let R_app P_blind; [| |blind].
  - apply (sends_for_range R R_refl R_app P P_blind 1 (NUMSENSORS - 1) _
             (fun i _ => text "SenDiff" ++ decimal_val_text (Z.of_nat i) 0
                         ++ text ","));
      [|intros i; blind].
    intros i Hi.
    sends_let R_app P_blind; [apply sends_put, R_refl| |blind].
    sends_let R_app P_blind; [|apply sends_put, R_refl|blind].
    apply (sends_number (fun _ => Z.of_nat i)). intros t Ht. apply Hgood.
  - sends_let R_app P_blind; [apply sends_put, R_refl
                             |apply sends_put, R_refl|blind].
Qed.

(** [display_csv_header] before it sets the mode. *)
Lemma csv_header_row_sends :
  (forall i, good (Z.of_nat i)) ->
  sends R P
    (fun s =>
       let s := for_range 0 NUMSENSORS (fun i s =>
                  let s := Cy_SCB_UART_PutString (text "Raw") s in
                  let s := display_decimal_val (Z.of_nat i) 0 s in
                  let s := Cy_SCB_UART_PutString (text ",") s in
                  let s := Cy_SCB_UART_PutString (text "Diff") s in
                  let s := display_decimal_val (Z.of_nat i) 0 s in
                  let s := Cy_SCB_UART_PutString (text ",") s in
                  let s := Cy_SCB_UART_PutString (text "Proc") s in
                  let s := display_decimal_val (Z.of_nat i) 0 s in
                  Cy_SCB_UART_PutString (text ",") s) s in
       let s := Cy_SCB_UART_PutString (text "SenActCnt,") s in
       let s := Cy_SCB_UART_PutString (text "Level%, LevelMm") s in
       Cy_SCB_UART_PutString CRLF s)
    (fun _ => csv_header_text).
Proof.
  intros Hgood. cbv beta delta [csv_header_text].
  sends_let R_app P_blind; [| |blind].
  - apply (sends_for_range R R_refl R_app P P_blind 0 NUMSENSORS _
             (fun i _ => text "Raw" ++ decimal_val_text (Z.of_nat i) 0
                         ++ text "," ++ text "Diff"
                         ++ decimal_val_text (Z.of_nat i) 0
                         ++ text "," ++ text "Proc"
                         ++ decimal_val_text (Z.of_nat i) 0 ++ text ","));
      [|intros i; blind].
    intros i Hi.
    sends_let R_app P_blind; [apply sends_put, R_refl| |blind].
    sends_let R_app P_blind;
      [apply (sends_number (fun _ => Z.of_nat i)); intros; apply Hgood
      | |blind].
    sends_let R_app P_blind; [apply sends_put, R_refl| |blind].
    sends_let R_app P_blind; [apply sends_put, R_refl| |blind].
    sends_let R_app P_blind;
      [apply (sends_number (fun _ => Z.of_nat i)); intros; apply Hgood
      | |blind].
    sends_let R_app P_blind; [apply sends_put, R_refl| |blind].
    sends_let R_app P_blind; [apply sends_put, R_refl| |blind].
    sends_let R_app P_blind;
      [apply (sends_number (fun _ => Z.of_nat i)); intros; apply Hgood
      |apply sends_put, R_refl|blind].
  - sends_let R_app P_blind; [apply sends_put, R_refl| |blind].
    sends_let R_app P_blind; [apply sends_put, R_refl
                             |apply sends_put, R_refl|blind].
Qed.

(** The BASIC line, with its numbers as the code computes them. *)
Lemma display_basic_sends :
  (forall t, P t ->
     good (Z.shiftr (levelPercent t) 8)
     /\ good (Z.shiftr (wrap32 (Z.land (levelPercent t) 0xFF * 10)) 8)
     /\ good (Z.shiftr (levelMm t) 8)
     /\ good (Z.shiftr (wrap32 (Z.land (levelMm t) 0xFF * 10)) 8)) ->
  sends R P display_basic
    (fun t =>
       text "%=" ++ decimal_val_text (Z.shiftr (levelPercent t) 8) 0
       ++ text "."
       ++ decimal_val_text
            (Z.shiftr (wrap32 (Z.land (levelPercent t) 0xFF * 10)) 8) 0
       ++ text "   mm=" ++ decimal_val_text (Z.shiftr (levelMm t) 8) 0
       ++ text "."
       ++ decimal_val_text
            (Z.shiftr (wrap32 (Z.land (levelMm t) 0xFF * 10)) 8) 0
       ++ CRLF).
Proof.
  intros Hgood. cbv beta delta [display_basic].
  sends_let R_app P_blind; [apply sends_put, R_refl| |blind].
  sends_let R_app P_blind;
    [apply (sends_number (fun s => Z.shiftr (levelPercent s) 8));
     intros t Ht; apply (Hgood t Ht)| |blind].
  sends_let R_app P_blind; [apply sends_put, R_refl| |blind].
  sends_let R_app P_blind;
    [apply (sends_number
              (fun s => Z.shiftr (wrap32 (Z.land (levelPercent s) 0xFF * 10)) 8));
     intros t Ht; apply (Hgood t Ht)| |blind].
  sends_let R_app P_blind; [apply sends_put, R_refl| |blind].
  sends_let R_app P_blind;
    [apply (sends_number (fun s => Z.shiftr (levelMm s) 8));
     intros t Ht; apply (Hgood t Ht)| |blind].
  sends_let R_app P_blind; [apply sends_put, R_refl| |blind].
  sends_let R_app P_blind;
    [apply (sends_number
              (fun s => Z.shiftr (wrap32 (Z.land (levelMm s) 0xFF * 10)) 8));
     intros t Ht; apply (Hgood t Ht)
    |apply sends_put, R_refl|blind].
Qed.
End Lines.

Lemma any_state_blind : tx_blind_on any_state.
Proof. intros sent left t H. exact H. Qed.

Lemma sends_number_thin (number : state -> Z) leading_zeros :
  sends thin any_state
    (fun s => display_decimal_val (number s) leading_zeros s)
    (fun s => decimal_val_text (number s) leading_zeros).
Proof. intros t _. apply decimal_val_sent. Qed.

Lemma sends_fixed_thin (number : state -> Z) fixed_shift num_decimal :
  sends thin any_state
    (fun s => display_decimal_fixed_val (number s) fixed_shift num_decimal s)
    (fun s => decimal_fixed_val_text (number s) fixed_shift num_decimal).
Proof. intros t _. apply decimal_fixed_val_sent. Qed.

Ltac thin_let := sends_let thin_app any_state_blind.
Ltac thin_put := apply (sends_put thin thin_refl any_state).

(** The calibration line, whatever the baselines. *)
Lemma display_current_cal_val_thin :
  sends thin any_state display_current_cal_val
    (fun t => cal_line_text (sensorEmptyOffset t)).
Proof.
  apply (display_current_cal_val_sends thin thin_refl thin_app
           (fun _ => True) (fun n lz t _ => decimal_val_sent n lz t)
           any_state any_state_blind).
  intros. exact I.
Qed.

(** The calibration line arrives whole when no baseline is negative. *)
Lemma display_current_cal_val_all :
  sends eq
    (fun t => forall i, (i < NUMSENSORS)%nat -> 0 <= sensorEmptyOffset t !!! i)
    display_current_cal_val
    (fun t => cal_line_text (sensorEmptyOffset t)).
Proof.
  apply (display_current_cal_val_sends eq (@eq_refl _) eq_app
           (fun n => 0 <= n) decimal_val_sent_all).
  - intros sent left t H. exact H.
  - intros t i Ht Hi. apply Ht, Hi.
Qed.

(** The headers hold no sign and no point: they arrive whole. *)
Lemma display_sample_header_all :
  sends eq any_state display_sample_header (fun _ => sample_header_text).
Proof.
  apply (display_sample_header_sends eq (@eq_refl _) eq_app
           (fun n => 0 <= n) decimal_val_sent_all any_state any_state_blind).
  intros i. lia.
Qed.

Lemma display_csv_header_emit t :
  exists left,
    display_csv_header t = set_uartTxMode UART_CSV (emit csv_header_text left t)
    /\ (uart_tx_full t = [] -> left = []).
Proof.
  destruct (csv_header_row_sends eq (@eq_refl _) eq_app
              (fun n => 0 <= n) decimal_val_sent_all any_state any_state_blind
              ltac:(intros i; cbv beta; lia) t I) as (sent & left & E & <- & X).
  exists left. split; [|intros Hroom; apply X, Hroom].
  cbv beta delta [display_csv_header]. cbv beta zeta in E |- *.
  rewrite E. reflexivity.
Qed.

Lemma display_basic_thin :
  exists offered, sends thin any_state display_basic offered.
Proof.
  eexists.
  apply (display_basic_sends thin thin_refl thin_app
           (fun _ => True) (fun n lz t _ => decimal_val_sent n lz t)
           any_state any_state_blind).
  intros. repeat split.
Qed.

(** The data rows: a number may lose its sign, a fixed-point number its
    point as well. *)
Lemma display_csv_row_sends :
  sends thin any_state display_csv_row csv_row_text.
Proof.
  cbv beta delta [display_csv_row csv_row_text].
  thin_let; [| |blind].
  - apply (sends_for_range thin thin_refl thin_app any_state any_state_blind
             0 NUMSENSORS _ (fun i t => csv_slot_text t i));
      [|intros i; blind].
    intros i Hi. cbv beta delta [csv_slot_text].
    thin_let; [apply (sends_number_thin (fun s => sensorRaw s !!! i))| |blind].
    thin_let; [thin_put| |blind].
    thin_let; [apply (sends_number_thin (fun s => sensorDiff s !!! i))| |blind].
    thin_let; [thin_put| |blind].
    thin_let; [apply (sends_number_thin (fun s => sensorProcessed s !!! i))
              |thin_put|blind].
  - thin_let; [apply (sends_number_thin sensorActiveCount)| |blind].
    thin_let; [thin_put| |blind].
    thin_let; [apply (sends_fixed_thin levelPercent)| |blind].
    thin_let; [thin_put| |blind].
    thin_let; [apply (sends_fixed_thin levelMm)|thin_put|blind].
Qed.

Lemma display_sample_row_sends :
  sends thin any_state display_sample_row
    (fun t => sample_row_text (sampleIndex t) t).
Proof.
  cbv beta delta [display_sample_row sample_row_text].
  thin_let;
    [apply (sends_number_thin
              (fun s => arrayAxisLabel !!! Z.to_nat (sampleIndex s)))| |blind].
  thin_let; [thin_put| |blind].
  thin_let; [| |blind].
  - apply (sends_for_range thin thin_refl thin_app any_state any_state_blind
             1 (NUMSENSORS - 1) _
             (fun i t => decimal_val_text (sensorProcessed t !!! i) 0
                         ++ text ","));
      [|intros i; blind].
    intros i Hi.
    thin_let; [apply (sends_number_thin (fun s => sensorProcessed s !!! i))
              |thin_put|blind].
  - thin_let; [apply (sends_fixed_thin levelPercent)| |blind].
    thin_let; [thin_put| |blind].
    thin_let; [apply (sends_fixed_thin levelMm)|thin_put|blind].
Qed.

(** What a transmission leaves alone. *)
Lemma sends_any_outside R f a t :
  sends R any_state f a -> outside_tx (f t) = outside_tx t.
Proof. intros H. apply (sends_outside R any_state f a t H I). Qed.

(** ** The normalisation loop *)

(** One turn of the loop, written as three assignments. *)
Lemma pipeline_step_eq i s :
  (i < length (sensorDiff s))%nat ->
  (i < length (sensorProcessed s))%nat ->
  pipeline_step i s =
  set_sensorActiveCount
    (if sensorLimits !!! i `quot` 2 <? processed_of s i
     then uint8 (sensorActiveCount s + weight i) else sensorActiveCount s)
    (set_sensorProcessed (<[i := processed_of s i]> (sensorProcessed s))
       (set_sensorDiff (<[i := diff_of s i]> (sensorDiff s)) s)).
Proof.
  intros Hd Hp. destruct s; cbn in Hd, Hp.
  unfold pipeline_step, processed_of, diff_of, weight; cbn.
  rewrite (list_lookup_total_insert_eq sensorDiff0 i) by exact Hd.
  destruct (wrap32 _ <? 0) eqn:Hneg; cbn.
  - rewrite list_insert_insert_eq.
    rewrite !list_lookup_total_insert_eq by (rewrite ?length_insert; assumption).
    repeat case_match; reflexivity.
  - rewrite !list_lookup_total_insert_eq by (rewrite ?length_insert; assumption).
    repeat case_match; reflexivity.
Qed.

Lemma pipeline_step_outside i s :
  outside_pipeline (pipeline_step i s) = outside_pipeline s.
Proof. unfold pipeline_step. repeat case_match; reflexivity. Qed.

Lemma main_pipeline_outside s :
  outside_pipeline (main_pipeline s) = outside_pipeline s.
Proof.
  unfold main_pipeline.
  apply (for_range_keeps (fun t => outside_pipeline t = outside_pipeline s)).
  - intros i t Ht. rewrite pipeline_step_outside. exact Ht.
  - reflexivity.
Qed.

Lemma weighted_sum_insert processed n j x :
  (n <= j)%nat ->
  weighted_sum (<[j := x]> processed) n = weighted_sum processed n.
Proof.
  intros Hj. induction n as [|n IH]; [reflexivity|].
  cbn [weighted_sum]. rewrite IH by lia. unfold submerged.
  rewrite list_lookup_total_insert_ne by lia. reflexivity.
Qed.

Lemma weight_range i : 1 <= weight i <= 2.
Proof. unfold weight. case_match; lia. Qed.

Lemma weighted_sum_step processed n :
  weighted_sum processed n <= weighted_sum processed (S n)
  <= weighted_sum processed n + weight n.
Proof.
  cbn [weighted_sum]. pose proof (weight_range n). case_match; lia.
Qed.

Lemma weighted_sum_range_from processed n k :
  weighted_sum processed (n + k)
  <= weighted_sum processed n + 2 * Z.of_nat k.
Proof.
  induction k as [|k IH].
  - rewrite Nat.add_0_r. lia.
  - rewrite Nat.add_succ_r.
    pose proof (weighted_sum_step processed (n + k)).
    pose proof (weight_range (n + k)). lia.
Qed.

Lemma weighted_sum_range processed n :
  0 <= weighted_sum processed n <= 2 * Z.of_nat n.
Proof.
  induction n as [|n IH]; cbn [weighted_sum]; [lia|].
  pose proof (weight_range n). case_match; lia.
Qed.

(** The state after the first [k] turns of the normalisation loop. *)
Lemma pipeline_prefix k s :
  length (sensorDiff s) = NUMSENSORS ->
  length (sensorProcessed s) = NUMSENSORS ->
  (k <= NUMSENSORS)%nat ->
  let t := for_range 0 k pipeline_step (set_sensorActiveCount 0 s) in
  length (sensorDiff t) = NUMSENSORS
  /\ length (sensorProcessed t) = NUMSENSORS
  /\ sensorEmptyOffset t = sensorEmptyOffset s
  /\ (forall i, sensorDiff t !!! i
                = if decide (i < k)%nat then diff_of s i else sensorDiff s !!! i)
  /\ (forall i, sensorProcessed t !!! i
                = if decide (i < k)%nat then processed_of s i
                  else sensorProcessed s !!! i)
  /\ sensorActiveCount t = weighted_sum (sensorProcessed t) k.
Proof.
  intros Hd Hp. induction k as [|k IH]; intros Hk t.
  - subst t. cbn. repeat split; try assumption; intros i; case_decide; (lia || reflexivity).
  - destruct IH as (Ld & Lp & Eo & Ed & Ep & Ea); [lia|].
    subst t. rewrite for_range_S. cbn [Nat.add].
    set (u := for_range 0 k pipeline_step (set_sensorActiveCount 0 s)) in *.
    assert (Hdu : diff_of u k = diff_of s k).
    { unfold diff_of. rewrite Ed, Eo. case_decide; [lia|reflexivity]. }
    assert (Hpu : processed_of u k = processed_of s k).
    { unfold processed_of. rewrite Hdu. reflexivity. }
    rewrite pipeline_step_eq by lia. cbn.
    rewrite !length_insert, Hdu, Hpu.
    repeat split; try assumption.
    + intros i. rewrite list_lookup_total_insert by lia. rewrite Ed.
      repeat case_decide; try reflexivity; try lia.
      destruct H; subst; reflexivity.
    + intros i. rewrite list_lookup_total_insert by lia. rewrite Ep.
      repeat case_decide; try reflexivity; try lia.
      destruct H; subst; reflexivity.
    + rewrite weighted_sum_insert by lia. unfold submerged.
      rewrite list_lookup_total_insert_eq by lia.
      pose proof (weighted_sum_range (sensorProcessed u) k) as Hr.
      pose proof (weight_range k) as Hw.
      rewrite Ea. case_match; [|lia].
      apply uint8_small. unfold in_uint8, NUMSENSORS in *. lia.
Qed.

Lemma main_pipeline_spec s :
  length (sensorDiff s) = NUMSENSORS ->
  length (sensorProcessed s) = NUMSENSORS ->
  length (sensorDiff (main_pipeline s)) = NUMSENSORS
  /\ length (sensorProcessed (main_pipeline s)) = NUMSENSORS
  /\ (forall i, (i < NUMSENSORS)%nat ->
        sensorDiff (main_pipeline s) !!! i = diff_of s i
        /\ sensorProcessed (main_pipeline s) !!! i = processed_of s i)
  /\ sensorActiveCount (main_pipeline s)
     = weighted_sum (sensorProcessed (main_pipeline s)) NUMSENSORS.
Proof.
  intros Hd Hp. unfold main_pipeline.
  pose proof (pipeline_prefix NUMSENSORS s Hd Hp (Nat.le_refl _)) as H.
  cbv zeta in H. destruct H as (Ld & Lp & _ & Ed & Ep & Ea).
  repeat split; try assumption.
  - rewrite Ed. case_decide; [reflexivity|lia].
  - rewrite Ep. case_decide; [reflexivity|lia].
Qed.

(** ** Reading the counts *)

Lemma main_read_counts_outside e s :
  outside_counts (main_read_counts e s) = outside_counts s.
Proof.
  unfold main_read_counts.
  apply (for_range_keeps (fun t => outside_counts t = outside_counts s)).
  - intros i t Ht. rewrite <- Ht. reflexivity.
  - reflexivity.
Qed.

Lemma read_counts_prefix e k s :
  length (sensorRaw s) = NUMSENSORS ->
  length (sensorDiff s) = NUMSENSORS ->
  (k <= NUMSENSORS)%nat ->
  length (sensorRaw (for_range 0 k (read_count e) s)) = NUMSENSORS
  /\ length (sensorDiff (for_range 0 k (read_count e) s)) = NUMSENSORS
  /\ forall i, (i < k)%nat ->
       sensorRaw (for_range 0 k (read_count e) s) !!! i = raw_count e i
       /\ sensorDiff (for_range 0 k (read_count e) s) !!! i = raw_count e i.
Proof.
  intros Hr Hd. induction k as [|k IH]; intros Hk.
  - cbn. repeat split; try assumption; lia.
  - destruct IH as (Lr & Ld & E); [lia|].
    rewrite for_range_S. cbn [Nat.add].
    set (u := for_range 0 k (read_count e) s) in *.
    unfold read_count. cbn. rewrite !length_insert.
    repeat split; try assumption.
    + rewrite list_lookup_total_insert.
      case_decide as Hi; [destruct Hi; subst; reflexivity|]. apply E; lia.
    + rewrite list_lookup_total_insert_eq by lia.
      rewrite list_lookup_total_insert.
      case_decide as Hi; [destruct Hi; subst; reflexivity|]. apply E; lia.
Qed.

Lemma main_read_counts_spec e s :
  length (sensorRaw s) = NUMSENSORS ->
  length (sensorDiff s) = NUMSENSORS ->
  length (sensorRaw (main_read_counts e s)) = NUMSENSORS
  /\ length (sensorDiff (main_read_counts e s)) = NUMSENSORS
  /\ forall i, (i < NUMSENSORS)%nat ->
       sensorRaw (main_read_counts e s) !!! i = raw_count e i
       /\ sensorDiff (main_read_counts e s) !!! i = raw_count e i.
Proof.
  intros Hr Hd. exact (read_counts_prefix e NUMSENSORS s Hr Hd (Nat.le_refl _)).
Qed.

(** ** Calibration *)

(** Reduction of projections over the setters, and nothing else. *)
Ltac fields :=
  cbn [sensorActiveCount levelPercent levelMm cal_flag sensorRaw sensorDiff
       sensorEmptyOffset sensorProcessed uartTxMode storeSampleFlag
       resetSampleFlag bufferIndex rxBuffer sampleIndex uart_rx uart_tx eeprom
       uart_tx_full
       set_sensorActiveCount set_levelPercent set_levelMm set_cal_flag
       set_sensorRaw set_sensorDiff set_sensorEmptyOffset set_sensorProcessed
       set_uartTxMode set_storeSampleFlag set_resetSampleFlag set_bufferIndex
       set_rxBuffer set_sampleIndex set_uart_rx set_uart_tx set_eeprom
       set_uart_tx_full emit Cy_SCB_UART_PutString and_then] in *.

Ltac frame := unfold outside_tx, outside_calibration, outside_counts,
                outside_pipeline, outside_level in *; fields; congruence.

Lemma display_current_cal_val_outside s :
  outside_tx (display_current_cal_val s) = outside_tx s.
Proof. exact (sends_any_outside thin _ _ s display_current_cal_val_thin). Qed.

Lemma copy_offset_prefix k s :
  length (sensorEmptyOffset s) = LOGICAL_EM_EEPROM_SIZE ->
  (k <= NUMSENSORS)%nat ->
  outside_calibration (for_range 0 k copy_offset s) = outside_calibration s
  /\ uart_tx (for_range 0 k copy_offset s) = uart_tx s
  /\ eeprom (for_range 0 k copy_offset s) = eeprom s
  /\ length (sensorEmptyOffset (for_range 0 k copy_offset s))
     = LOGICAL_EM_EEPROM_SIZE
  /\ forall i, sensorEmptyOffset (for_range 0 k copy_offset s) !!! i
               = if decide (i < k)%nat then sensorDiff s !!! i
                 else sensorEmptyOffset s !!! i.
Proof.
  intros Ho. induction k as [|k IH]; intros Hk.
  - cbn. repeat split; assumption.
  - destruct IH as (F & T & P & L & E); [lia|].
    rewrite for_range_S. cbn [Nat.add].
    set (u := for_range 0 k copy_offset s) in *.
    unfold copy_offset. cbn. rewrite length_insert.
    assert (Hd : sensorDiff u = sensorDiff s) by frame.
    repeat split; try assumption.
    intros i. rewrite list_lookup_total_insert, E, Hd.
    unfold NUMSENSORS, LOGICAL_EM_EEPROM_SIZE in *.
    repeat case_decide; try reflexivity; try lia.
    destruct H; subst; reflexivity.
Qed.

Lemma store_calibration_spec ok s :
  length (sensorEmptyOffset s) = LOGICAL_EM_EEPROM_SIZE ->
  exists c,
    store_calibration ok s = (if ok then Returns c else Halted c)
    /\ outside_calibration c = outside_calibration s
    /\ length (sensorEmptyOffset c) = LOGICAL_EM_EEPROM_SIZE
    /\ (forall i, (i < NUMSENSORS)%nat ->
          sensorEmptyOffset c !!! i = sensorDiff s !!! i)
    /\ eeprom c = (if ok
                   then take LOGICAL_EM_EEPROM_SIZE
                          (concat (map bytes_of_int32 (sensorEmptyOffset c)))
                   else eeprom s).
Proof.
  intros Ho.
  destruct (copy_offset_prefix NUMSENSORS s Ho (Nat.le_refl _))
    as (F & T & P & L & E).
  unfold store_calibration.
  generalize dependent (for_range 0 NUMSENSORS copy_offset s).
  intros s1 F T P L E.
  pose proof (display_current_cal_val_outside s1) as D.
  generalize dependent (display_current_cal_val s1). intros s2 D.
  assert (O2 : sensorEmptyOffset s2 = sensorEmptyOffset s1) by frame.
  assert (E2 : eeprom s2 = eeprom s) by frame.
  destruct ok; cbn; eexists; (split; [reflexivity|]); cbn;
    rewrite ?O2; repeat split; try assumption; try frame.
  - intros i Hi. rewrite E. case_decide; [reflexivity|lia].
  - intros i Hi. rewrite E. case_decide; [reflexivity|lia].
Qed.

(** ** The block run when a scan is complete *)

Lemma main_scan_complete_plain e s :
  cal_flag s <> TRUE ->
  main_scan_complete e s = Returns (main_pipeline (main_read_counts e s)).
Proof.
  intros Hc. unfold main_scan_complete, main_calibration.
  pose proof (main_read_counts_outside e s) as F.
  assert (Hf : cal_flag (main_read_counts e s) = cal_flag s) by frame.
  rewrite Hf. apply Z.eqb_neq in Hc. rewrite Hc. reflexivity.
Qed.

Lemma main_scan_complete_cal e s :
  cal_flag s = TRUE ->
  main_scan_complete e s
  = store_calibration (eeprom_write_ok e)
      (set_cal_flag FALSE (main_read_counts e s))
    >>> (fun c => Returns (main_pipeline c)).
Proof.
  intros Hc. unfold main_scan_complete, main_calibration.
  pose proof (main_read_counts_outside e s) as F.
  assert (Hf : cal_flag (main_read_counts e s) = cal_flag s) by frame.
  rewrite Hf, Hc. reflexivity.
Qed.

Lemma limits_half_nonneg i : 0 <= sensorLimits !!! i `quot` 2.
Proof. do 12 (destruct i as [|i]; [vm_compute; discriminate|]). vm_compute; discriminate. Qed.

Lemma scale_range i : 0 <= sensorScale !!! i <= 464.
Proof.
  do 12 (destruct i as [|i]; [vm_compute; split; discriminate|]).
  vm_compute; split; discriminate.
Qed.

Lemma weighted_sum_dry processed n :
  (forall i, (i < n)%nat -> processed !!! i <= 0) ->
  weighted_sum processed n = 0.
Proof.
  intros H. induction n as [|n IH]; [reflexivity|].
  cbn [weighted_sum]. rewrite IH by (intros; apply H; lia).
  unfold submerged. pose proof (limits_half_nonneg n). pose proof (H n ltac:(lia)).
  case_match eqn:Hs; [|reflexivity]. apply Z.ltb_lt in Hs. lia.
Qed.

(** ** Height and percent *)

Lemma main_level_mm s :
  levelMm (main_level s)
  = let h := wrap32 (sensorActiveCount s * Z.shiftr sensorHeight 1) in
    if Z.shiftl LEVELMM_MAX 8 - Z.shiftr sensorHeight 2 <? h
    then Z.shiftl LEVELMM_MAX 8 else h.
Proof. unfold main_level. cbn. case_match; reflexivity. Qed.

Lemma main_level_percent s :
  levelPercent (main_level s)
  = wrap32 (uint32 (wrap32 (levelMm (main_level s) * 100)) `quot` LEVELMM_MAX).
Proof. unfold main_level. cbn. case_match; reflexivity. Qed.

Lemma main_level_outside s : outside_level (main_level s) = outside_level s.
Proof. unfold main_level. cbn. case_match; reflexivity. Qed.

(** ** The level pipeline: diff, active count, height *)

Lemma diff_of_floor s i :
  in_int32 (sensorDiff s !!! i - sensorEmptyOffset s !!! i) ->
  diff_of s i = Z.max 0 (sensorDiff s !!! i - sensorEmptyOffset s !!! i).
Proof.
  intros H. unfold diff_of. rewrite wrap32_small by exact H.
  case_match eqn:Hn; [apply Z.ltb_lt in Hn|apply Z.ltb_ge in Hn]; lia.
Qed.

(** C4. In a turn of the loop in which the scan is complete (and the
    calibration write, if one is requested, succeeds), the block returns and
    leaves in every slot [i] the count that was read and
    [diff = max(0, raw - baseline)], which is never negative; the baseline
    is the one in force when the diff is computed, and it is the baseline of
    the start of the turn when no calibration was requested. Counts are
    unsigned 16-bit values and baselines are half-words or earlier counts. *)
Theorem diff_is_floored_difference (e : env) (s : state) :
  well_formed s -> counts_ok e -> baseline_ok s ->
  (cal_flag s = TRUE -> eeprom_write_ok e = true) ->
  exists s',
    main_scan_complete e s = Returns s'
    /\ (cal_flag s <> TRUE -> sensorEmptyOffset s' = sensorEmptyOffset s)
    /\ forall i, (i < NUMSENSORS)%nat ->
         sensorRaw s' !!! i = raw_count e i
         /\ sensorDiff s' !!! i
            = Z.max 0 (sensorRaw s' !!! i - sensorEmptyOffset s' !!! i)
         /\ 0 <= sensorDiff s' !!! i.
Proof.
  intros [Lr Ld Lo Lp] Hc Hb Hw.
  destruct (main_read_counts_spec e s Lr Ld) as (Lr1 & Ld1 & R1).
  pose proof (main_read_counts_outside e s) as F1.
  destruct (decide (cal_flag s = TRUE)) as [Hcal|Hcal].
  - rewrite (main_scan_complete_cal e s Hcal), (Hw Hcal).
    generalize dependent (main_read_counts e s). intros s1 Lr1 Ld1 R1 F1.
    destruct (store_calibration_spec true (set_cal_flag FALSE s1))
      as (c & -> & Fc & Lc & Ec & _); [frame|].
    fields. eexists; split; [reflexivity|].
    split; [tauto|]. intros i Hi.
    pose proof (main_pipeline_outside c) as Fp.
    destruct (main_pipeline_spec c) as (_ & _ & Ep & _); [frame|frame|].
    destruct (Ep i Hi) as [Ed _]. destruct (R1 i Hi) as [Rr Rd].
    assert (O : sensorEmptyOffset (main_pipeline c) = sensorEmptyOffset c) by frame.
    assert (Rc : sensorRaw (main_pipeline c) = sensorRaw s1) by frame.
    assert (Dc : sensorDiff c = sensorDiff s1) by frame.
    rewrite Ed, O, Rc, Rr. split; [reflexivity|].
    rewrite diff_of_floor; rewrite Dc, (Ec i Hi), Rd;
      [|unfold in_int32; lia]. lia.
  - rewrite (main_scan_complete_plain e s Hcal).
    generalize dependent (main_read_counts e s). intros s1 Lr1 Ld1 R1 F1.
    eexists; split; [reflexivity|].
    pose proof (main_pipeline_outside s1) as Fp.
    split; [intros _; frame|]. intros i Hi.
    destruct (main_pipeline_spec s1 Ld1) as (_ & _ & Ep & _); [frame|].
    destruct (Ep i Hi) as [Ed _]. destruct (R1 i Hi) as [Rr Rd].
    assert (O : sensorEmptyOffset (main_pipeline s1) = sensorEmptyOffset s) by frame.
    assert (Rc : sensorRaw (main_pipeline s1) = sensorRaw s1) by frame.
    assert (Os : sensorEmptyOffset s1 = sensorEmptyOffset s) by frame.
    rewrite Ed, O, Rc, Rr. split; [reflexivity|].
    specialize (Hc i Hi). specialize (Hb i Hi). unfold in_uint16 in Hc.
    rewrite diff_of_floor; rewrite Rd, Os; [|unfold in_int32; lia]. lia.
Qed.

(** C6. After the normalisation loop the active count is the weighted sum
    of the submersion tests [processed[i] > threshold[i] / 2] over the
    twelve slots, with weight 1 for slots 0 and 11 and weight 2 between,
    and lies between 0 and [2 * (12 - 2) + 2 = 22]. *)
Theorem active_count_is_weighted_sum (s : state) :
  length (sensorDiff s) = NUMSENSORS ->
  length (sensorProcessed s) = NUMSENSORS ->
  sensorActiveCount (main_pipeline s)
  = weighted_sum (sensorProcessed (main_pipeline s)) NUMSENSORS
  /\ 0 <= sensorActiveCount (main_pipeline s)
       <= 2 * (Z.of_nat NUMSENSORS - 2) + 2
  /\ 2 * (Z.of_nat NUMSENSORS - 2) + 2 = 22.
Proof.
  intros Hd Hp.
  destruct (main_pipeline_spec s Hd Hp) as (_ & _ & _ & Ea).
  rewrite Ea.
  pose proof (weighted_sum_range (sensorProcessed (main_pipeline s)) NUMSENSORS) as Hr.
  (* the two end slots weigh 1, so the bound 2 * 12 improves to 22 *)
  assert (Hb : weighted_sum (sensorProcessed (main_pipeline s)) NUMSENSORS <= 22).
  { generalize (sensorProcessed (main_pipeline s)). intros l.
    pose proof (weighted_sum_step l 0) as H0.
    pose proof (weighted_sum_range_from l 1 10) as H1.
    pose proof (weighted_sum_step l 11) as H11.
    change (weight 0) with 1 in H0. change (weight 11) with 1 in H11.
    change (weighted_sum l 0) with 0 in H0.
    change (1 + 10)%nat with 11%nat in H1.
    change NUMSENSORS with 12%nat. lia. }
  change (Z.of_nat NUMSENSORS) with 12. lia.
Qed.

(** What a successful calibration save leaves behind, and the pipeline run
    on it: shared by the two calibration theorems. *)
Lemma scan_complete_after_save e s :
  well_formed s -> cal_flag s = TRUE -> eeprom_write_ok e = true ->
  exists c,
    main_scan_complete e s = Returns (main_pipeline c)
    /\ cal_flag c = FALSE
    /\ length (sensorDiff c) = NUMSENSORS
    /\ length (sensorProcessed c) = NUMSENSORS
    /\ eeprom c = take LOGICAL_EM_EEPROM_SIZE
                    (concat (map bytes_of_int32 (sensorEmptyOffset c)))
    /\ forall i, (i < NUMSENSORS)%nat ->
         sensorRaw c !!! i = raw_count e i
         /\ sensorDiff c !!! i = raw_count e i
         /\ sensorEmptyOffset c !!! i = raw_count e i.
Proof.
  intros [Lr Ld Lo Lp] Hcal Hw.
  destruct (main_read_counts_spec e s Lr Ld) as (Lr1 & Ld1 & R1).
  pose proof (main_read_counts_outside e s) as F1.
  rewrite (main_scan_complete_cal e s Hcal), Hw.
  generalize dependent (main_read_counts e s). intros s1 Lr1 Ld1 R1 F1.
  destruct (store_calibration_spec true (set_cal_flag FALSE s1))
    as (c & -> & Fc & Lc & Ec & Ee); [frame|].
  exists c. fields. split; [reflexivity|].
  split; [frame|]. split; [frame|]. split; [frame|]. split; [exact Ee|].
  intros i Hi. destruct (R1 i Hi) as [Rr Rd].
  assert (Rc : sensorRaw c = sensorRaw s1) by frame.
  assert (Dc : sensorDiff c = sensorDiff s1) by frame.
  rewrite (Ec i Hi), Rc, Dc. auto.
Qed.

Lemma diff_of_calibrated c i :
  sensorDiff c !!! i = sensorEmptyOffset c !!! i -> diff_of c i = 0.
Proof. intros H. unfold diff_of. rewrite H, Z.sub_diag. reflexivity. Qed.

Lemma processed_of_calibrated c i :
  sensorDiff c !!! i = sensorEmptyOffset c !!! i -> processed_of c i = 0.
Proof.
  intros H. unfold processed_of. rewrite diff_of_calibrated by exact H.
  reflexivity.
Qed.

(** C10. In a turn of the loop in which the calibration save is carried out
    (flag set, scan complete, write accepted), every baseline becomes the
    count just read, so that turn's diffs and processed values are all 0,
    the active count is 0 and height and percent are 0. *)
Theorem fresh_calibration_reads_empty (e : env) (s : state) :
  well_formed s -> cal_flag s = TRUE -> eeprom_write_ok e = true ->
  exists s',
    main_scan_complete e s = Returns s'
    /\ (forall i, (i < NUMSENSORS)%nat ->
          sensorEmptyOffset s' !!! i = raw_count e i
          /\ sensorDiff s' !!! i = 0
          /\ sensorProcessed s' !!! i = 0)
    /\ sensorActiveCount s' = 0
    /\ levelMm (main_level s') = 0
    /\ levelPercent (main_level s') = 0.
Proof.
  intros Hwf Hcal Hw.
  destruct (scan_complete_after_save e s Hwf Hcal Hw)
    as (c & -> & _ & Ld & Lp & _ & Ec).
  destruct (main_pipeline_spec c Ld Lp) as (_ & _ & Ep & Ea).
  pose proof (main_pipeline_outside c) as Fp.
  generalize dependent (main_pipeline c). intros s' Ep Ea Fp.
  assert (Hslots : forall i, (i < NUMSENSORS)%nat ->
            sensorEmptyOffset s' !!! i = raw_count e i
            /\ sensorDiff s' !!! i = 0 /\ sensorProcessed s' !!! i = 0).
  { intros i Hi. destruct (Ep i Hi) as [Ed Epr].
    destruct (Ec i Hi) as (_ & Dc & Oc).
    assert (O : sensorEmptyOffset s' = sensorEmptyOffset c) by frame.
    rewrite Ed, Epr, O, diff_of_calibrated, processed_of_calibrated
      by congruence. auto. }
  assert (Hac : sensorActiveCount s' = 0).
  { rewrite Ea. apply weighted_sum_dry. intros i Hi.
    destruct (Hslots i Hi) as (_ & _ & ->). lia. }
  exists s'. split; [reflexivity|]. split; [exact Hslots|]. split; [exact Hac|].
  assert (Hmm : levelMm (main_level s') = 0).
  { rewrite main_level_mm, Hac. reflexivity. }
  split; [exact Hmm|]. rewrite main_level_percent, Hmm. reflexivity.
Qed.

(** C7. In a turn of the loop with the calibration flag set, the save (copy
    into the baseline array, then the EEPROM write) is carried out before
    the normalisation loop. When the write is accepted, the diffs and
    processed values of that same turn are computed against the baselines
    just saved, which are that turn's counts and are what the EEPROM now
    holds. When it is refused, the program halts with the baselines copied
    but the diffs still the raw copies and the processed values and active
    count of the turn before: the recomputation had not begun. *)
Theorem calibration_save_precedes_pipeline (e : env) (s : state) :
  well_formed s -> cal_flag s = TRUE ->
  (eeprom_write_ok e = true ->
   exists c s',
     store_calibration true (set_cal_flag FALSE (main_read_counts e s))
       = Returns c
     /\ main_scan_complete e s = Returns s' /\ s' = main_pipeline c
     /\ cal_flag s' = FALSE
     /\ sensorEmptyOffset s' = sensorEmptyOffset c
     /\ eeprom s' = take LOGICAL_EM_EEPROM_SIZE
                      (concat (map bytes_of_int32 (sensorEmptyOffset s')))
     /\ (forall i, (i < NUMSENSORS)%nat ->
           sensorEmptyOffset s' !!! i = raw_count e i
           /\ sensorDiff s' !!! i
              = Z.max 0 (sensorRaw s' !!! i - sensorEmptyOffset s' !!! i)
           /\ sensorProcessed s' !!! i
              = Z.shiftr (wrap32 (sensorDiff s' !!! i * sensorScale !!! i)) 8)
     /\ sensorActiveCount s'
        = weighted_sum (sensorProcessed s') NUMSENSORS)
  /\ (eeprom_write_ok e = false ->
      exists h,
        main_scan_complete e s = Halted h
        /\ eeprom h = eeprom s
        /\ sensorProcessed h = sensorProcessed s
        /\ sensorActiveCount h = sensorActiveCount s
        /\ forall i, (i < NUMSENSORS)%nat ->
             sensorEmptyOffset h !!! i = raw_count e i
             /\ sensorDiff h !!! i = raw_count e i).
Proof.
  intros Hwf Hcal. split; intros Hw.
  - pose proof Hwf as [Lr Ld Lo Lp].
    destruct (main_read_counts_spec e s Lr Ld) as (Lr1 & Ld1 & R1).
    pose proof (main_read_counts_outside e s) as F1.
    rewrite (main_scan_complete_cal e s Hcal), Hw.
    generalize dependent (main_read_counts e s). intros s1 Lr1 Ld1 R1 F1.
    destruct (store_calibration_spec true (set_cal_flag FALSE s1))
      as (c & Hc & Fc & Lc & Ec & Ee); [frame|].
    rewrite Hc. fields.
    assert (Ldc : length (sensorDiff c) = NUMSENSORS) by frame.
    assert (Lpc : length (sensorProcessed c) = NUMSENSORS) by frame.
    destruct (main_pipeline_spec c Ldc Lpc) as (_ & _ & Ep & Ea).
    pose proof (main_pipeline_outside c) as Fp.
    exists c, (main_pipeline c).
    split; [reflexivity|]. split; [reflexivity|]. split; [reflexivity|].
    generalize dependent (main_pipeline c). intros s' Ep Ea Fp.
    assert (O : sensorEmptyOffset s' = sensorEmptyOffset c) by frame.
    assert (Rw : sensorRaw s' = sensorRaw s1) by frame.
    assert (Dc : sensorDiff c = sensorDiff s1) by frame.
    split; [frame|]. split; [exact O|].
    split; [rewrite O; frame|]. split; [|exact Ea].
    intros i Hi. destruct (Ep i Hi) as [Ed Epr]. destruct (R1 i Hi) as [Rr Rd].
    assert (Oi : sensorEmptyOffset c !!! i = raw_count e i).
    { rewrite (Ec i Hi). fields. exact Rd. }
    rewrite O, Rw, Rr, Oi. split; [reflexivity|].
    rewrite Epr, Ed. unfold processed_of.
    rewrite diff_of_calibrated by congruence.
    rewrite Z.sub_diag. split; reflexivity.
  - pose proof Hwf as [Lr Ld Lo Lp].
    destruct (main_read_counts_spec e s Lr Ld) as (Lr1 & Ld1 & R1).
    pose proof (main_read_counts_outside e s) as F1.
    rewrite (main_scan_complete_cal e s Hcal), Hw.
    generalize dependent (main_read_counts e s). intros s1 Lr1 Ld1 R1 F1.
    destruct (store_calibration_spec false (set_cal_flag FALSE s1))
      as (h & -> & Fh & Lh & Eh & Ee); [frame|].
    exists h. fields. split; [reflexivity|].
    split; [frame|]. split; [frame|]. split; [frame|].
    intros i Hi. destruct (R1 i Hi) as [Rr Rd].
    assert (Dh : sensorDiff h = sensorDiff s1) by frame.
    rewrite (Eh i Hi), Dh. fields. auto.
Qed.

(** The round-to-full test as the code makes it, for every value an
    [uint8_t] active count can hold. *)
Lemma main_level_mm_rule s :
  in_uint8 (sensorActiveCount s) ->
  levelMm (main_level s)
  = if Z.shiftl LEVELMM_MAX 8 - sensorHeight `quot` 4
       <? sensorActiveCount s * Z.shiftr sensorHeight 1
    then Z.shiftl LEVELMM_MAX 8
    else sensorActiveCount s * Z.shiftr sensorHeight 1.
Proof.
  intros H. rewrite main_level_mm. cbv zeta.
  change (Z.shiftr sensorHeight 1) with 1780.
  change (Z.shiftr sensorHeight 2) with 890.
  change (sensorHeight `quot` 4) with 890.
  rewrite wrap32_small; [reflexivity|].
  unfold in_uint8 in H. unfold in_int32. lia.
Qed.

(** C5. With [LEVELMM_MAX = 153] and [sensorHeight = (153 * 256) / (12 - 1)],
    for every active count the pipeline can produce (0 to 22): if
    [activeCount * (sensorHeight >> 1)] is within [sensorHeight / 4] of
    [LEVELMM_MAX << 8] the height becomes exactly [LEVELMM_MAX << 8], and
    otherwise it is that product unchanged. *)
Theorem snap_to_max (s : state) :
  0 <= sensorActiveCount s <= 22 ->
  LEVELMM_MAX = 153
  /\ sensorHeight = (153 * 256) `quot` (12 - 1)
  /\ (near_full (sensorActiveCount s * Z.shiftr sensorHeight 1) ->
      levelMm (main_level s) = Z.shiftl LEVELMM_MAX 8)
  /\ (~ near_full (sensorActiveCount s * Z.shiftr sensorHeight 1) ->
      levelMm (main_level s) = sensorActiveCount s * Z.shiftr sensorHeight 1).
Proof.
  intros H. split; [reflexivity|]. split; [reflexivity|].
  rewrite main_level_mm_rule by (unfold in_uint8; lia).
  unfold near_full.
  change (Z.shiftr sensorHeight 1) with 1780.
  change (sensorHeight `quot` 4) with 890.
  change (Z.shiftl LEVELMM_MAX 8) with 39168.
  split; intros Hn; case_match eqn:Ht;
    try reflexivity;
    [apply Z.ltb_ge in Ht|apply Z.ltb_lt in Ht]; lia.
Qed.

(** ** Concrete states *)

Lemma power_on_well_formed : well_formed power_on.
Proof. split; reflexivity. Qed.

Lemma power_on_baseline_ok : baseline_ok power_on.
Proof.
  intros i Hi. unfold power_on, LOGICAL_EM_EEPROM_SIZE, NUMSENSORS in *.
  cbn [sensorEmptyOffset]. rewrite lookup_total_replicate_2 by lia. lia.
Qed.

Lemma sample_scan_counts_ok : counts_ok sample_scan.
Proof. intros i _. unfold in_uint16. cbn. lia. Qed.

(** ** The pipeline theorems at concrete inputs *)

Lemma diff_is_floored_difference_witness :
  well_formed power_on /\ counts_ok sample_scan /\ baseline_ok power_on
  /\ (cal_flag power_on = TRUE -> eeprom_write_ok sample_scan = true)
  /\ exists s',
       main_scan_complete sample_scan power_on = Returns s'
       /\ sensorRaw s' !!! 3%nat = 1000
       /\ sensorDiff s' !!! 3%nat
          = Z.max 0 (sensorRaw s' !!! 3%nat - sensorEmptyOffset s' !!! 3%nat)
       /\ 0 <= sensorDiff s' !!! 3%nat.
Proof.
  assert (Hwf : well_formed power_on) by (split; reflexivity).
  assert (Hc : counts_ok sample_scan).
  { intros i _. unfold in_uint16. simpl. lia. }
  assert (Hb : baseline_ok power_on).
  { intros i Hi. unfold NUMSENSORS in Hi.
    do 12 (destruct i as [|i]; [vm_compute; split; [discriminate|reflexivity]|]).
    lia. }
  assert (Hw : cal_flag power_on = TRUE -> eeprom_write_ok sample_scan = true)
    by reflexivity.
  repeat (split; [assumption|]).
  destruct (diff_is_floored_difference sample_scan power_on Hwf Hc Hb Hw)
    as (s' & E & _ & H).
  exists s'. split; [exact E|]. apply (H 3%nat). unfold NUMSENSORS. lia.
Defined.

Lemma active_count_is_weighted_sum_witness :
  length (sensorDiff (main_read_counts sample_scan power_on)) = NUMSENSORS
  /\ length (sensorProcessed (main_read_counts sample_scan power_on))
     = NUMSENSORS
  /\ sensorActiveCount (main_pipeline (main_read_counts sample_scan power_on))
     = weighted_sum
         (sensorProcessed
            (main_pipeline (main_read_counts sample_scan power_on)))
         NUMSENSORS
  /\ 0 <= sensorActiveCount
            (main_pipeline (main_read_counts sample_scan power_on)) <= 22.
Proof.
  assert (Hd : length (sensorDiff (main_read_counts sample_scan power_on))
               = NUMSENSORS) by reflexivity.
  assert (Hp : length (sensorProcessed (main_read_counts sample_scan power_on))
               = NUMSENSORS) by reflexivity.
  repeat (split; [assumption|]).
  destruct (active_count_is_weighted_sum
              (main_read_counts sample_scan power_on) Hd Hp) as (E & B & _).
  split; [exact E|]. change (2 * (Z.of_nat NUMSENSORS - 2) + 2) with 22 in B.
  exact B.
Defined.

Lemma snap_to_max_witness :
  0 <= sensorActiveCount (set_sensorActiveCount 22 power_on) <= 22
  /\ levelMm (main_level (set_sensorActiveCount 22 power_on)) = 39168
  /\ 0 <= sensorActiveCount (set_sensorActiveCount 21 power_on) <= 22
  /\ levelMm (main_level (set_sensorActiveCount 21 power_on)) = 37380.
Proof.
  assert (H22 : 0 <= sensorActiveCount (set_sensorActiveCount 22 power_on) <= 22)
    by (simpl; lia).
  assert (H21 : 0 <= sensorActiveCount (set_sensorActiveCount 21 power_on) <= 22)
    by (simpl; lia).
  split; [exact H22|]. split.
  - destruct (snap_to_max _ H22) as (_ & _ & Hnear & _).
    apply Hnear. unfold near_full. vm_compute. discriminate.
  - split; [exact H21|].
    destruct (snap_to_max _ H21) as (_ & _ & _ & Hfar).
    apply Hfar. unfold near_full. vm_compute. intros H. apply H. reflexivity.
Defined.

Lemma fresh_calibration_reads_empty_witness :
  well_formed (set_cal_flag TRUE power_on)
  /\ cal_flag (set_cal_flag TRUE power_on) = TRUE
  /\ eeprom_write_ok sample_scan = true
  /\ exists s',
       main_scan_complete sample_scan (set_cal_flag TRUE power_on) = Returns s'
       /\ sensorEmptyOffset s' !!! 0%nat = 1000
       /\ sensorDiff s' !!! 0%nat = 0
       /\ sensorActiveCount s' = 0
       /\ levelMm (main_level s') = 0
       /\ levelPercent (main_level s') = 0.
Proof.
  assert (Hwf : well_formed (set_cal_flag TRUE power_on))
    by (split; reflexivity).
  split; [exact Hwf|]. split; [reflexivity|]. split; [reflexivity|].
  destruct (fresh_calibration_reads_empty sample_scan
              (set_cal_flag TRUE power_on) Hwf eq_refl eq_refl)
    as (s' & E & Hs & Ha & Hm & Hp).
  exists s'. split; [exact E|].
  destruct (Hs 0%nat) as (Ho & Hd & _); [unfold NUMSENSORS; lia|].
  auto.
Defined.

Lemma calibration_save_precedes_pipeline_witness :
  well_formed (set_cal_flag TRUE power_on)
  /\ cal_flag (set_cal_flag TRUE power_on) = TRUE
  /\ (exists s',
        main_scan_complete sample_scan (set_cal_flag TRUE power_on)
          = Returns s'
        /\ sensorEmptyOffset s' !!! 0%nat = 1000
        /\ sensorDiff s' !!! 0%nat
           = Z.max 0 (sensorRaw s' !!! 0%nat - sensorEmptyOffset s' !!! 0%nat))
  /\ (exists h,
        main_scan_complete sample_scan_refused (set_cal_flag TRUE power_on)
          = Halted h
        /\ sensorEmptyOffset h !!! 0%nat = 1000
        /\ sensorDiff h !!! 0%nat = 1000).
Proof.
  assert (Hwf : well_formed (set_cal_flag TRUE power_on))
    by (split; reflexivity).
  split; [exact Hwf|]. split; [reflexivity|].
  split.
  - destruct (calibration_save_precedes_pipeline sample_scan
                (set_cal_flag TRUE power_on) Hwf eq_refl) as [Hok _].
    destruct (Hok eq_refl) as (c & s' & _ & E & _ & _ & _ & _ & Hs & _).
    exists s'. split; [exact E|].
    destruct (Hs 0%nat) as (Ho & Hd & _); [unfold NUMSENSORS; lia|].
    split; [exact Ho|exact Hd].
  - destruct (calibration_save_precedes_pipeline sample_scan_refused
                (set_cal_flag TRUE power_on) Hwf eq_refl) as [_ Hno].
    destruct (Hno eq_refl) as (h & E & _ & _ & _ & Hs).
    exists h. split; [exact E|]. apply (Hs 0%nat). unfold NUMSENSORS. lia.
Defined.

(** ** The line accumulator *)

Lemma strcmp_eq_literal (lit line tail : list Z) :
  Forall (fun b => b <> 0) lit -> Forall (fun b => b <> 0) line ->
  strcmp_eq (lit ++ [0]) (line ++ 0 :: tail) = bool_decide (lit = line).
Proof.
  intros Hlit. revert line. induction Hlit as [|x lit Hx Hlit IH];
    intros line Hline.
  - destruct Hline as [|y line Hy Hline]; cbn [strcmp_eq app].
    + reflexivity.
    + rewrite (proj2 (Z.eqb_neq 0 y)) by lia.
      symmetry. apply bool_decide_eq_false_2. discriminate.
  - destruct Hline as [|y line Hy Hline]; cbn [strcmp_eq app].
    + rewrite (proj2 (Z.eqb_neq x 0)) by lia.
      symmetry. apply bool_decide_eq_false_2. discriminate.
    + destruct (x =? y) eqn:E.
      * apply Z.eqb_eq in E. subst y.
        rewrite (proj2 (Z.eqb_neq x 0)) by lia.
        rewrite IH by exact Hline.
        apply bool_decide_ext. split; [intros ->; reflexivity|].
        intros H; injection H; auto.
      * apply Z.eqb_neq in E. symmetry. apply bool_decide_eq_false_2.
        intros H; injection H; auto.
Qed.

Lemma strlen_line (line tail : list Z) :
  Forall (fun b => b <> 0) line -> strlen (line ++ 0 :: tail) = length line.
Proof.
  induction 1 as [|x line Hx Hline IH]; cbn [strlen app]; [reflexivity|].
  rewrite (proj2 (Z.eqb_neq x 0)) by lia. rewrite IH. reflexivity.
Qed.

Lemma replicate_room (n : nat) :
  (n < Z.to_nat RX_CAPACITY)%nat ->
  replicate (Z.to_nat RX_CAPACITY - n) 0
  = 0 :: replicate (Z.to_nat RX_CAPACITY - S n) 0.
Proof.
  intros H. replace (Z.to_nat RX_CAPACITY - n)%nat
    with (S (Z.to_nat RX_CAPACITY - S n)) by lia. reflexivity.
Qed.

Lemma match_command_effect line tail s :
  Forall (fun b => b <> 0) line ->
  rxBuffer s = line ++ 0 :: tail ->
  match_command s = command_effect line s.
Proof.
  intros Hline Hbuf. unfold match_command, command_effect, cstr.
  rewrite Hbuf.
  rewrite !strcmp_eq_literal
    by (exact Hline || (vm_compute; repeat constructor; discriminate)).
  change (text "") with (@nil Z).
  repeat match goal with
         | |- context [bool_decide (?a = line)] =>
             rewrite (bool_decide_ext (a = line) (line = a)) by (split; congruence)
         end.
  repeat (case_bool_decide; case_decide; try contradiction; try reflexivity).
Qed.

Lemma store_at_end (line : list Z) (x : Z) :
  (length line < Z.to_nat RX_CAPACITY)%nat ->
  <[Z.to_nat (Z.of_nat (length line)) := x]>
    (line ++ replicate (Z.to_nat RX_CAPACITY - length line) 0)
  = (line ++ [x])
    ++ replicate (Z.to_nat RX_CAPACITY - length (line ++ [x])) 0.
Proof.
  intros H. rewrite Nat2Z.id, replicate_room by exact H.
  rewrite <- (Nat.add_0_r (length line)) at 1.
  rewrite insert_app_r. cbn [list_insert insert].
  rewrite length_app, <- app_assoc. cbn [length app].
  rewrite Nat.add_1_r. reflexivity.
Qed.

Lemma store_nul_at_end (line : list Z) :
  (length line < Z.to_nat RX_CAPACITY)%nat ->
  <[Z.to_nat (Z.of_nat (length line)) := 0]>
    (line ++ replicate (Z.to_nat RX_CAPACITY - length line) 0)
  = line ++ replicate (Z.to_nat RX_CAPACITY - length line) 0.
Proof.
  intros H. rewrite Nat2Z.id. apply list_insert_id.
  rewrite lookup_app_r by lia. rewrite Nat.sub_diag.
  rewrite replicate_room by exact H. reflexivity.
Qed.

Ltac decide_tests :=
  repeat match goal with
         | |- context [?a <? ?b] =>
             first [rewrite (proj2 (Z.ltb_lt a b)) by lia
                   |rewrite (proj2 (Z.ltb_ge a b)) by lia]
         | |- context [?a <=? ?b] =>
             first [rewrite (proj2 (Z.leb_le a b)) by lia
                   |rewrite (proj2 (Z.leb_gt a b)) by lia]
         | |- context [?a =? ?b] =>
             first [rewrite (proj2 (Z.eqb_eq a b)) by lia
                   |rewrite (proj2 (Z.eqb_neq a b)) by lia]
         end; cbn [andb orb].

(** A stored byte: echoed, appended to the line, the index advanced. *)
Lemma receive_keep line tx b rest s :
  48 < b < 256 -> (length line < Z.to_nat RX_CAPACITY)%nat ->
  receive_uart_cmd (holding line tx (b :: rest) s)
  = Returns (holding (line ++ [b]) (tx ++ [b]) rest
               (set_uart_tx_full (after_put (uart_tx_full s)) s)).
Proof.
  intros Hb Hlen. unfold receive_uart_cmd, holding. fields.
  rewrite put_until_accepted_eq. unfold rx_store. fields.
  assert (Hcap : Z.of_nat (length line) < RX_CAPACITY)
    by (unfold RX_CAPACITY in *; lia).
  decide_tests. fields. decide_tests.
  rewrite store_at_end by exact Hlen.
  rewrite !(uint8_small b) by (unfold in_uint8; lia).
  unfold uint16. rewrite Z.mod_small by (unfold RX_CAPACITY in *; lia).
  rewrite length_app, Nat2Z.inj_add. cbn [length].
  destruct s; reflexivity.
Qed.

(** A byte that is neither stored nor a terminator changes nothing. *)
Lemma receive_drop line tx b rest s :
  b <= 48 -> b <> 13 -> b <> 10 ->
  receive_uart_cmd (holding line tx (b :: rest) s)
  = Returns (holding line tx rest s).
Proof.
  intros Hb H13 H10. unfold receive_uart_cmd, holding. fields.
  decide_tests. fields. decide_tests.
  destruct s; reflexivity.
Qed.

Lemma command_effect_buffer line s :
  rxBuffer (command_effect line s) = rxBuffer s
  /\ bufferIndex (command_effect line s) = bufferIndex s
  /\ uart_rx (command_effect line s) = uart_rx s.
Proof. unfold command_effect. repeat case_decide; repeat split; reflexivity. Qed.

(** A terminator: the line is looked up, then the buffer is cleared. *)
Lemma receive_end line tx b rest s :
  b = 13 \/ b = 10 ->
  (length line < Z.to_nat RX_CAPACITY)%nat ->
  Forall (fun c => c <> 0) line ->
  receive_uart_cmd (holding line tx (b :: rest) s)
  = Returns (holding [] (uart_tx (command_effect line (set_uart_tx tx s))) rest
               (command_effect line s)).
Proof.
  intros Hb Hlen Hline. unfold receive_uart_cmd, holding. fields.
  assert (Hcap : Z.of_nat (length line) < RX_CAPACITY)
    by (unfold RX_CAPACITY in *; lia).
  replace (48 <? b) with false by (destruct Hb; subst; reflexivity).
  replace ((b =? 13) || (b =? 10)) with true by (destruct Hb; subst; reflexivity).
  fields. unfold rx_store. fields. decide_tests. fields.
  rewrite !store_nul_at_end by exact Hlen.
  rewrite !replicate_room by exact Hlen.
  match goal with
  | |- context [match_command ?t] =>
      rewrite !(match_command_effect line
                  (replicate (Z.to_nat RX_CAPACITY - S (length line)) 0) t Hline)
        by reflexivity;
      destruct (command_effect_buffer line t) as (-> & _ & _)
  end.
  fields. rewrite strlen_line by exact Hline.
  unfold memset0. rewrite drop_app_length.
  change (0 :: replicate (Z.to_nat RX_CAPACITY - S (length line)) 0)
    with (replicate (S (Z.to_nat RX_CAPACITY - S (length line))) 0).
  rewrite <- replicate_add.
  replace (length line + S (Z.to_nat RX_CAPACITY - S (length line)))%nat
    with (Z.to_nat RX_CAPACITY) by lia.
  unfold command_effect. destruct s.
  repeat case_decide; reflexivity.
Qed.

Lemma receive_bytes_app n m s :
  receive_bytes (n + m) s = receive_bytes n s >>> receive_bytes m.
Proof.
  revert s. induction n as [|n IH]; intros s; [reflexivity|].
  cbn [receive_bytes Nat.add]. destruct (receive_uart_cmd s); cbn [and_then];
    [apply IH|reflexivity|reflexivity].
Qed.

Lemma kept_nonzero bytes : Forall (fun b => b <> 0) (kept bytes).
Proof.
  unfold kept. apply Forall_forall. intros b Hb.
  apply list_elem_of_filter in Hb. lia.
Qed.

(** A line that fits: every byte is consumed, the stored ones are echoed and
    lie in the buffer, and no store leaves the buffer. *)
Lemma set_uart_tx_full_same s : set_uart_tx_full (uart_tx_full s) s = s.
Proof. destruct s. reflexivity. Qed.

Lemma holding_answers line tx rx l l' s :
  holding line tx rx (set_uart_tx_full l (set_uart_tx_full l' s))
  = holding line tx rx (set_uart_tx_full l s).
Proof. destruct s. reflexivity. Qed.

Lemma receive_line bytes : forall line tx rest s,
  Forall line_byte bytes ->
  (length line + length (kept bytes) <= Z.to_nat RX_CAPACITY)%nat ->
  receive_bytes (length bytes) (holding line tx (bytes ++ rest) s)
  = Returns (holding (line ++ kept bytes) (tx ++ kept bytes) rest
               (set_uart_tx_full
                  (after_puts (length (kept bytes)) (uart_tx_full s)) s)).
Proof.
  induction bytes as [|b bytes IH]; intros line tx rest s Hbytes Hfit.
  - cbn. rewrite !app_nil_r, set_uart_tx_full_same. reflexivity.
  - inversion Hbytes as [|? ? (Hb & H13 & H10) Hbytes']; subst.
    cbn [receive_bytes length app]. unfold kept in *.
    rewrite filter_cons in *. destruct (decide (48 < b)) as [Hk|Hk].
    + cbn [length] in Hfit. rewrite receive_keep by lia. cbn [and_then].
      rewrite IH; [|exact Hbytes'|rewrite length_app; cbn [length]; lia].
      rewrite <- !app_assoc, holding_answers. cbn [length uart_tx_full
        set_uart_tx_full]. unfold after_puts. rewrite Nat.iter_succ_r.
      reflexivity.
    + rewrite receive_drop by lia. cbn [and_then].
      apply IH; assumption.
Qed.

Lemma holding_clean s :
  bufferIndex s = 0 -> rxBuffer s = replicate (Z.to_nat RX_CAPACITY) 0 ->
  s = holding [] (uart_tx s) (uart_rx s) s.
Proof. destruct s. cbn. intros -> ->. reflexivity. Qed.

(** A completed line whose stored bytes fit the buffer and are none of
    [cal], [stop], [csv], [basic], the empty line and [reset]: the calls
    return (no halt), the stored bytes are echoed, [Command Error] and a
    line end are transmitted, and nothing else changes. Display mode,
    calibration flag, both one-shot flags, buffer index and buffer are what
    they were before the line was typed. *)
Lemma unknown_command_is_reported
  (s : state) (bytes rest : list Z) (t : Z) :
  bufferIndex s = 0 ->
  rxBuffer s = replicate (Z.to_nat RX_CAPACITY) 0 ->
  uart_rx s = bytes ++ t :: rest ->
  Forall line_byte bytes -> t = 13 \/ t = 10 ->
  (length (kept bytes) < Z.to_nat RX_CAPACITY)%nat ->
  ~ In (kept bytes) known_commands ->
  receive_bytes (S (length bytes)) s
  = Returns
      (set_uart_tx_full (after_puts (length (kept bytes)) (uart_tx_full s))
         (set_uart_tx
            (uart_tx s ++ kept bytes ++ text "Command Error" ++ CRLF)
            (set_uart_rx rest s))).
Proof.
  intros Hidx Hbuf Hrx Hbytes Ht Hfit Hunknown.
  rewrite (holding_clean s Hidx Hbuf) at 1. rewrite Hrx.
  replace (S (length bytes)) with (length bytes + 1)%nat by lia.
  rewrite receive_bytes_app, receive_line;
    [|exact Hbytes|cbn [length]; lia].
  cbn [and_then receive_bytes app].
  rewrite receive_end; [|exact Ht|exact Hfit|apply kept_nonzero].
  cbn [and_then]. f_equal.
  unfold command_effect, known_commands in *. cbn [In] in Hunknown.
  repeat (case_decide; [exfalso; apply Hunknown; auto 10|]).
  destruct s. cbn in Hidx, Hbuf |- *. subst.
  rewrite <- !app_assoc. reflexivity.
Qed.

(** ** The program refines its console *)

Lemma refines_then o co k ck :
  refines o co -> (forall s, refines (k s) (ck (console_of s))) ->
  refines (o >>> k) (con_then co ck).
Proof.
  intros H Hk. destruct o, co; cbn in *; try contradiction; try exact I.
  subst. apply Hk.
Qed.

Lemma rx_store_refines i v t :
  refines (rx_store i v t) (console_store i v (console_of t)).
Proof. unfold rx_store, console_store. case_match; reflexivity. Qed.

Lemma match_command_console t :
  console_of (match_command t) = console_command (console_of t).
Proof.
  unfold match_command, console_command. cbn [con_buffer console_of].
  repeat case_match; reflexivity.
Qed.

Lemma receive_refines t :
  refines (receive_uart_cmd t) (console_receive (console_of t)).
Proof.
  unfold receive_uart_cmd, console_receive. cbn [con_rx console_of].
  destruct (uart_rx t) as [|b rest]; [reflexivity|]. cbv zeta.
  apply refines_then.
  - destruct (48 <? b); [|reflexivity]. rewrite put_until_accepted_eq.
    apply refines_then; [apply rx_store_refines|]. intros u. reflexivity.
  - intros u. destruct ((b =? 13) || (b =? 10)); [|reflexivity].
    apply refines_then; [apply rx_store_refines|]. intros w.
    cbn [refines]. rewrite <- match_command_console. reflexivity.
Qed.

Lemma display_basic_outside t : outside_tx (display_basic t) = outside_tx t.
Proof.
  destruct display_basic_thin as (offered & H).
  exact (sends_any_outside thin _ _ t H).
Qed.

Lemma display_csv_row_outside t :
  outside_tx (display_csv_row t) = outside_tx t.
Proof. exact (sends_any_outside thin _ _ t display_csv_row_sends). Qed.

Lemma display_csv_header_outside t :
  outside_tx (display_csv_header t) = outside_tx (set_uartTxMode UART_CSV t).
Proof.
  destruct (display_csv_header_emit t) as (left & -> & _). reflexivity.
Qed.

Lemma console_of_outside_tx a b :
  outside_tx a = outside_tx b -> console_of a = console_of b.
Proof. unfold outside_tx, console_of. intros H. congruence. Qed.

Lemma display_mode_console t :
  console_of (display_mode t) = console_display_mode (console_of t).
Proof.
  unfold display_mode, console_display_mode. cbn [con_mode console_of].
  destruct (uartTxMode t =? UART_BASIC).
  { rewrite (console_of_outside_tx _ _ (display_basic_outside t)).
    reflexivity. }
  destruct ((uartTxMode t =? UART_CSVINIT) || (uartTxMode t =? UART_CSV));
    [|reflexivity].
  destruct (uartTxMode t =? UART_CSVINIT).
  - rewrite (console_of_outside_tx _ _ (display_csv_header_outside t)).
    reflexivity.
  - rewrite (console_of_outside_tx _ _ (display_csv_row_outside t)).
    reflexivity.
Qed.

Lemma display_sample_header_outside t :
  outside_tx (display_sample_header t) = outside_tx t.
Proof. exact (sends_any_outside eq _ _ t display_sample_header_all). Qed.

Lemma display_sample_row_outside t :
  outside_tx (display_sample_row t) = outside_tx t.
Proof. exact (sends_any_outside thin _ _ t display_sample_row_sends). Qed.

Lemma display_next_level_val_console t :
  console_of (display_next_level_val t) = console_next_level (console_of t).
Proof.
  unfold display_next_level_val, console_next_level.
  cbn [con_store console_of].
  destruct (storeSampleFlag t =? TRUE).
  - cbv zeta.
    set (t0 := set_uartTxMode UART_NONE t).
    assert (H1 : outside_tx (if sampleIndex t0 =? 0
                             then display_sample_header t0 else t0)
                 = outside_tx t0).
    { destruct (sampleIndex t0 =? 0);
        [apply display_sample_header_outside|reflexivity]. }
    revert H1.
    generalize (if sampleIndex t0 =? 0 then display_sample_header t0 else t0).
    intros t1 H1.
    pose proof (display_sample_row_outside t1) as H2. revert H2.
    generalize (display_sample_row t1). intros t2 H2.
    assert (H : console_of t2 = console_of t0).
    { apply console_of_outside_tx. congruence. }
    subst t0. revert H. clear. intros H.
    destruct t2, t. unfold console_of in H. cbn in H.
    injection H as -> -> -> -> -> -> -> ->.
    cbn. destruct (NUM_SAMPLES <=? uint16 (sampleIndex1 + 1)); cbn;
      destruct (resetSampleFlag1 =? TRUE); reflexivity.
  - destruct t. cbn. destruct (resetSampleFlag0 =? TRUE); reflexivity.
Qed.

Lemma display_cur_liquid_level_refines t :
  refines (display_cur_liquid_level t) (console_render (console_of t)).
Proof.
  unfold display_cur_liquid_level, console_render. apply refines_then.
  - rewrite <- display_mode_console. apply receive_refines.
  - intros u. cbn [refines]. apply display_next_level_val_console.
Qed.

Lemma store_calibration_outcome ok s :
  exists c,
    store_calibration ok s = (if ok then Returns c else Halted c)
    /\ outside_calibration c = outside_calibration s.
Proof.
  unfold store_calibration.
  assert (H : outside_calibration (for_range 0 NUMSENSORS copy_offset s)
              = outside_calibration s).
  { apply (for_range_keeps
             (fun u => outside_calibration u = outside_calibration s)).
    - intros i u Hu. rewrite <- Hu. reflexivity.
    - reflexivity. }
  revert H. generalize (for_range 0 NUMSENSORS copy_offset s). intros s1 H.
  pose proof (display_current_cal_val_outside s1) as D. revert D.
  generalize (display_current_cal_val s1). intros s2 D.
  destruct ok; cbn; eexists; (split; [reflexivity|]); frame.
Qed.

Lemma console_of_main_level u : console_of (main_level u) = console_of u.
Proof.
  pose proof (main_level_outside u) as H. revert H.
  generalize (main_level u). intros v H.
  unfold outside_level, console_of in *. congruence.
Qed.

Lemma console_of_sensing e s :
  console_of (main_pipeline (main_read_counts e s)) = console_of s.
Proof.
  pose proof (main_read_counts_outside e s) as H1. revert H1.
  generalize (main_read_counts e s). intros s1 H1.
  pose proof (main_pipeline_outside s1) as H2. revert H2.
  generalize (main_pipeline s1). intros s2 H2.
  unfold outside_counts, outside_pipeline, console_of in *. congruence.
Qed.

Lemma main_loop_body_refines e s :
  refines (main_loop_body e s) (console_cycle e (console_of s)).
Proof.
  unfold main_loop_body, console_cycle. apply refines_then.
  - unfold console_scan. cbn [con_cal console_of].
    destruct (capsense_busy e);
      [destruct (cal_flag s =? TRUE); reflexivity|].
    destruct (cal_flag s =? TRUE) eqn:Hcal.
    + apply Z.eqb_eq in Hcal. rewrite (main_scan_complete_cal e s Hcal).
      pose proof (main_read_counts_outside e s) as H1. revert H1.
      generalize (main_read_counts e s). intros s1 H1.
      destruct (store_calibration_outcome (eeprom_write_ok e)
                  (set_cal_flag FALSE s1)) as (c & -> & Hc).
      destruct (eeprom_write_ok e); cbn [and_then refines]; [|exact I].
      pose proof (main_pipeline_outside c) as H2. revert H2.
      generalize (main_pipeline c). intros s2 H2.
      unfold outside_counts, outside_pipeline, outside_calibration,
        console_of, set_con_cal in *. cbn in *. congruence.
    + apply Z.eqb_neq in Hcal. rewrite (main_scan_complete_plain e s Hcal).
      cbn [refines]. apply console_of_sensing.
  - intros u. rewrite <- console_of_main_level.
    apply display_cur_liquid_level_refines.
Qed.

Lemma main_loop_refines es : forall s,
  refines (main_loop es s) (console_loop es (console_of s)).
Proof.
  induction es as [|e es IH]; intros s; [reflexivity|].
  cbn [main_loop console_loop]. apply refines_then.
  - apply main_loop_body_refines.
  - exact IH.
Qed.

Lemma refines_returns o c :
  refines o (ConReturns c) -> exists s, o = Returns s /\ console_of s = c.
Proof.
  destruct o as [s|s|i s]; cbn; intros H; try contradiction.
  exists s. split; [reflexivity|exact H].
Qed.

(** The console after the first turns of the loop, when the console alone
    says that they all return. *)
Lemma main_loop_console es s c :
  console_loop es (console_of s) = ConReturns c ->
  exists s', main_loop es s = Returns s' /\ console_of s' = c.
Proof.
  intros H. apply refines_returns. rewrite <- H. apply main_loop_refines.
Qed.

(** ** The sample cursor *)

Lemma console_of_idle s :
  idle_console s ->
  console_of s
  = mkConsole (uartTxMode s) FALSE FALSE FALSE 0
      (replicate (Z.to_nat RX_CAPACITY) 0) (sampleIndex s) (uart_rx s).
Proof.
  intros (Hc & Hs & Hr & Hi & Hb). unfold console_of.
  rewrite Hc, Hs, Hr, Hi, Hb. reflexivity.
Qed.

Lemma idle_of_console s m k r :
  console_of s
  = mkConsole m FALSE FALSE FALSE 0 (replicate (Z.to_nat RX_CAPACITY) 0) k r ->
  idle_console s /\ uartTxMode s = m /\ sampleIndex s = k /\ uart_rx s = r.
Proof.
  unfold console_of, idle_console. intros H.
  injection H as -> -> -> -> -> -> -> ->. repeat split; reflexivity.
Qed.

(** One turn of the console with an empty line waiting. *)
Lemma console_cycle_empty_line e m k rest t :
  t = 13 \/ t = 10 -> 0 <= k <= 19 ->
  console_cycle e
    (mkConsole m FALSE FALSE FALSE 0 (replicate (Z.to_nat RX_CAPACITY) 0) k
       (t :: rest))
  = ConReturns
      (mkConsole UART_NONE FALSE FALSE FALSE 0
         (replicate (Z.to_nat RX_CAPACITY) 0) (Z.min (k + 1) 19) rest).
Proof.
  intros Ht Hk.
  assert (Hcases : In k (map Z.of_nat (seq 0 20))).
  { replace k with (Z.of_nat (Z.to_nat k)) by lia.
    apply in_map, in_seq. lia. }
  cbv [map seq In Z.of_nat Pos.of_succ_nat Pos.succ] in Hcases.
  destruct Ht; subst t;
    repeat (destruct Hcases as [<-|Hcases]; [vm_compute; reflexivity|]);
    contradiction.
Qed.

Lemma console_loop_empty_lines es : forall m k rest,
  0 <= k <= 19 ->
  console_loop es
    (mkConsole m FALSE FALSE FALSE 0 (replicate (Z.to_nat RX_CAPACITY) 0) k
       (replicate (length es) 13 ++ rest))
  = ConReturns
      (mkConsole (match es with [] => m | _ => UART_NONE end)
         FALSE FALSE FALSE 0 (replicate (Z.to_nat RX_CAPACITY) 0)
         (Z.min (k + Z.of_nat (length es)) 19) rest).
Proof.
  induction es as [|e es IH]; intros m k rest Hk.
  - cbn [console_loop length replicate app]. do 2 f_equal. lia.
  - cbn [console_loop length replicate app].
    rewrite console_cycle_empty_line by (auto; lia). cbn [con_then].
    rewrite IH by lia. do 2 f_equal; [destruct es; reflexivity|lia].
Qed.

(** [n] empty lines move the cursor [n] slots up, but not past slot 19. *)
Lemma empty_lines_advance_cursor (es : list env) (s : state) (rest : list Z) :
  idle_console s -> 0 <= sampleIndex s <= NUM_SAMPLES - 1 ->
  uart_rx s = replicate (length es) 13 ++ rest ->
  exists s',
    main_loop es s = Returns s'
    /\ idle_console s'
    /\ sampleIndex s'
       = Z.min (sampleIndex s + Z.of_nat (length es)) (NUM_SAMPLES - 1)
    /\ uart_rx s' = rest.
Proof.
  intros Hidle Hk Hrx. unfold NUM_SAMPLES in *.
  destruct (main_loop_console es s
              (mkConsole (match es with [] => uartTxMode s | _ => UART_NONE end)
                 FALSE FALSE FALSE 0 (replicate (Z.to_nat RX_CAPACITY) 0)
                 (Z.min (sampleIndex s + Z.of_nat (length es)) 19) rest))
    as (s' & Hrun & Hcon).
  { rewrite (console_of_idle s Hidle), Hrx.
    apply console_loop_empty_lines. lia. }
  exists s'. split; [exact Hrun|].
  destruct (idle_of_console _ _ _ _ Hcon) as (Hi & _ & Hc & Hr).
  change (20 - 1) with 19. split; [exact Hi|]. split; [exact Hc|exact Hr].
Qed.

Lemma display_next_level_val_cursor t :
  sampleIndex (display_next_level_val t)
  = con_cursor (console_next_level (console_of t)).
Proof. rewrite <- display_next_level_val_console. reflexivity. Qed.

(** [display_next_level_val] keeps the cursor inside the axis-label table
    and, unless a reset is pending, moves it one slot up for a store
    request, stopping at the last slot. *)
Lemma cursor_in_range t :
  0 <= sampleIndex t <= NUM_SAMPLES - 1 ->
  0 <= sampleIndex (display_next_level_val t) <= NUM_SAMPLES - 1
  /\ (resetSampleFlag t <> TRUE ->
      sampleIndex (display_next_level_val t)
      = if storeSampleFlag t =? TRUE
        then Z.min (sampleIndex t + 1) (NUM_SAMPLES - 1)
        else sampleIndex t).
Proof.
  intros Hk. rewrite display_next_level_val_cursor.
  unfold console_next_level, NUM_SAMPLES, uint16 in *.
  cbn [con_store con_reset con_cursor console_of].
  destruct (storeSampleFlag t =? TRUE) eqn:Hs; cbn.
  - rewrite Z.mod_small by lia.
    destruct (20 <=? sampleIndex t + 1) eqn:Hsat; cbn;
      [apply Z.leb_le in Hsat|apply Z.leb_gt in Hsat];
      (destruct (resetSampleFlag t =? TRUE) eqn:Hr; cbn;
       [apply Z.eqb_eq in Hr|]; split; try lia; intros; try contradiction;
       lia).
  - destruct (resetSampleFlag t =? TRUE) eqn:Hr; cbn;
      [apply Z.eqb_eq in Hr|]; split; try lia; intros; try contradiction;
      reflexivity.
Qed.

(** C8. The cursor of the sample sequence stays in [0, NUM_SAMPLES - 1]:
    [display_next_level_val] keeps it there and, unless a reset is pending,
    moves it one slot up for a store request, stopping at the last slot.
    Typing 20 empty lines into an idle console with the cursor at 0 leaves
    it at 19. Typing [reset] and a carriage return puts the cursor at 0 and
    leaves both one-shot flags cleared. *)
Theorem sample_cursor_saturates :
  (forall t, 0 <= sampleIndex t <= NUM_SAMPLES - 1 ->
     0 <= sampleIndex (display_next_level_val t) <= NUM_SAMPLES - 1
     /\ (resetSampleFlag t <> TRUE ->
         sampleIndex (display_next_level_val t)
         = if storeSampleFlag t =? TRUE
           then Z.min (sampleIndex t + 1) (NUM_SAMPLES - 1)
           else sampleIndex t))
  /\ (forall es s,
        length es = 20%nat -> idle_console s -> sampleIndex s = 0 ->
        uart_rx s = replicate 20 13 ->
        exists s', main_loop es s = Returns s'
                   /\ sampleIndex s' = NUM_SAMPLES - 1)
  /\ (forall es s,
        length es = 6%nat -> idle_console s ->
        uart_rx s = text "reset" ++ [13] ->
        exists s', main_loop es s = Returns s'
                   /\ sampleIndex s' = 0
                   /\ storeSampleFlag s' = FALSE
                   /\ resetSampleFlag s' = FALSE).
Proof.
  split; [|split].
  - exact cursor_in_range.
  - intros es s Hlen Hidle Hk Hrx.
    destruct (empty_lines_advance_cursor es s [] Hidle) as (s' & Hrun & _ & Hc & _).
    + rewrite Hk. unfold NUM_SAMPLES. lia.
    + rewrite Hlen, app_nil_r. exact Hrx.
    + exists s'. split; [exact Hrun|]. rewrite Hc, Hk, Hlen. reflexivity.
  - intros es s Hlen Hidle Hrx.
    do 6 (destruct es as [|? es]; [discriminate|]).
    destruct es; [|discriminate].
    match goal with
    | |- context [main_loop ?l s] =>
        destruct (main_loop_console l s
                    (mkConsole UART_NONE FALSE FALSE FALSE 0
                       (replicate (Z.to_nat RX_CAPACITY) 0) 0 []))
          as (s' & Hrun & Hcon)
    end.
    { rewrite (console_of_idle s Hidle), Hrx. vm_compute. reflexivity. }
    exists s'. split; [exact Hrun|].
    destruct (idle_of_console _ _ _ _ Hcon) as ((_ & Hs & Hr & _) & _ & Hc & _).
    auto.
Qed.

Lemma sample_cursor_saturates_witness :
  length (replicate 20 sample_scan) = 20%nat
  /\ idle_console (typed (replicate 20 13) power_on)
  /\ sampleIndex (typed (replicate 20 13) power_on) = 0
  /\ uart_rx (typed (replicate 20 13) power_on) = replicate 20 13
  /\ exists s',
       main_loop (replicate 20 sample_scan) (typed (replicate 20 13) power_on)
         = Returns s'
       /\ sampleIndex s' = NUM_SAMPLES - 1.
Proof.
  assert (Hidle : idle_console (typed (replicate 20 13) power_on))
    by (repeat split; reflexivity).
  split; [reflexivity|]. split; [exact Hidle|].
  split; [reflexivity|]. split; [reflexivity|].
  destruct sample_cursor_saturates as (_ & H20 & _).
  apply H20; [reflexivity|exact Hidle|reflexivity|reflexivity].
Defined.

Lemma unknown_command_is_reported_example :
  bufferIndex (typed (text "xyz" ++ [13]) power_on) = 0
  /\ rxBuffer (typed (text "xyz" ++ [13]) power_on)
     = replicate (Z.to_nat RX_CAPACITY) 0
  /\ uart_rx (typed (text "xyz" ++ [13]) power_on) = text "xyz" ++ 13 :: []
  /\ Forall line_byte (text "xyz")
  /\ (13 = 13 \/ 13 = 10)
  /\ (length (kept (text "xyz")) < Z.to_nat RX_CAPACITY)%nat
  /\ ~ In (kept (text "xyz")) known_commands
  /\ receive_bytes 4 (typed (text "xyz" ++ [13]) power_on)
     = Returns
         (set_uart_tx
            (uart_tx (typed (text "xyz" ++ [13]) power_on)
             ++ kept (text "xyz") ++ text "Command Error" ++ CRLF)
            (set_uart_rx [] (typed (text "xyz" ++ [13]) power_on))).
Proof.
  assert (Hbytes : Forall line_byte (text "xyz")).
  { vm_compute. repeat constructor; discriminate. }
  assert (Hfit : (length (kept (text "xyz")) < Z.to_nat RX_CAPACITY)%nat).
  { vm_compute. lia. }
  assert (Hunknown : ~ In (kept (text "xyz")) known_commands).
  { vm_compute. intros H. repeat (destruct H as [H|H]; [discriminate H|]).
    exact H. }
  split; [reflexivity|]. split; [reflexivity|]. split; [reflexivity|].
  split; [exact Hbytes|]. split; [left; reflexivity|].
  split; [exact Hfit|]. split; [exact Hunknown|].
  apply (unknown_command_is_reported
           (typed (text "xyz" ++ [13]) power_on) (text "xyz") [] 13);
    [reflexivity|reflexivity|reflexivity|exact Hbytes|left; reflexivity
    |exact Hfit|exact Hunknown].
Qed.

(** ** The capacity of the line buffer *)

(** C1, at the failing inputs. From power-on, with 33 letters [a] in the
    receive queue, the first 32 calls fill cells 0 to 31 and the 33rd call
    of [receive_uart_cmd] stores the letter to [rxBuffer[32]], one past the
    32 cells; with 32 letters and a carriage return it is the terminating
    NUL that is stored to [rxBuffer[32]]. Nothing in the function compares
    [bufferIndex] with the capacity. *)
Theorem line_buffer_overflows :
  (exists s, receive_bytes 32 (typed (replicate 33 97) power_on) = Returns s
             /\ bufferIndex s = RX_CAPACITY)
  /\ (exists s, receive_bytes 33 (typed (replicate 33 97) power_on)
                = OutOfBounds 32 s)
  /\ (exists s, receive_bytes 33 (typed (replicate 32 97 ++ [13]) power_on)
                = OutOfBounds 32 s)
  /\ ~ 32 < RX_CAPACITY.
Proof.
  split; [|split; [|split]].
  - eexists. split; vm_compute; reflexivity.
  - eexists. vm_compute. reflexivity.
  - eexists. vm_compute. reflexivity.
  - vm_compute. discriminate.
Qed.

(** C9, at the failing input. The line of 32 letters [a] is none of the six
    commands. Its letters are echoed and fill the 32 cells; on the carriage
    return the terminating NUL is stored to [rxBuffer[32]], outside the
    buffer, before any comparison is made and before any [Command Error] is
    transmitted. For lines that fit, [unknown_command_is_reported] shows
    the behaviour the specification describes. *)
Theorem unknown_long_line_leaves_buffer :
  ~ In (replicate 32 97) known_commands
  /\ kept (replicate 32 97) = replicate 32 97
  /\ exists s,
       receive_bytes 33 (typed (replicate 32 97 ++ [13]) power_on)
         = OutOfBounds 32 s
       /\ uart_tx s = replicate 32 97.
Proof.
  split; [|split].
  - vm_compute. intros H. repeat (destruct H as [H|H]; [discriminate H|]).
    exact H.
  - vm_compute. reflexivity.
  - eexists. split; vm_compute; reflexivity.
Qed.

(** A line of at most 31 stored bytes is accumulated without leaving the
    buffer. *)
Lemma line_within_capacity (s : state) (bytes rest : list Z) :
  bufferIndex s = 0 ->
  rxBuffer s = replicate (Z.to_nat RX_CAPACITY) 0 ->
  uart_rx s = bytes ++ rest -> Forall line_byte bytes ->
  (length (kept bytes) < Z.to_nat RX_CAPACITY)%nat ->
  receive_bytes (length bytes) s
  = Returns (holding (kept bytes) (uart_tx s ++ kept bytes) rest
               (set_uart_tx_full
                  (after_puts (length (kept bytes)) (uart_tx_full s)) s)).
Proof.
  intros Hidx Hbuf Hrx Hbytes Hfit.
  rewrite (holding_clean s Hidx Hbuf) at 1. rewrite Hrx.
  rewrite receive_line; [reflexivity|exact Hbytes|cbn [length]; lia].
Qed.

(** ** The fraction digits of the fixed-point renderer *)

(** C2, at the failing input. For [fixed_shift = 8] the mask
    [0xFFFFFFFF >> (31 - fixed_shift)] is [0x1FF], nine bits and not eight,
    so the lowest bit of the whole part is taken into the fraction. At
    39168, which is 153.0 and the height of a full container, the renderer
    computes the fraction 10 and transmits [153.10], where masking the low 8
    bits gives 0; the BASIC line of [display_cur_liquid_level], which masks
    with [0x000000FF], transmits [153.0] for the same value. *)
Theorem fraction_mask_is_nine_bits :
  Z.shiftr 0xFFFFFFFF (31 - 8) = 0x1FF
  /\ levelMm full_container = 39168
  /\ fraction_of 39168 8 1 = 10
  /\ fraction_by_low_byte 39168 1 = 0
  /\ decimal_fixed_val_text 39168 8 1 = text "153.10"
  /\ uart_tx (display_decimal_fixed_val (levelMm full_container) 8 1
                full_container)
     = text "153.10"
  /\ uart_tx (display_basic full_container)
     = text "%=100.0   mm=153.0" ++ CRLF.
Proof. repeat split; vm_compute; reflexivity. Qed.

(** Where bit 8 of the value is clear and at most seven digits are asked
    for, the renderer does compute the fraction from the low byte. *)
Lemma fraction_of_low_byte (v n : Z) :
  in_int32 v -> 0 <= n <= 7 -> Z.testbit v 8 = false ->
  fraction_of v 8 n = fraction_by_low_byte v n.
Proof.
  intros Hv Hn Hbit. unfold fraction_of, fraction_by_low_byte.
  replace (31 <? 8) with false by reflexivity.
  replace (9 <? n) with false by (symmetry; apply Z.ltb_ge; lia).
  change (Z.shiftr 0xFFFFFFFF (31 - 8)) with (Z.ones 9).
  change 0xFF with (Z.ones 8).
  rewrite !Z.land_ones by lia.
  replace (Z.min (Z.max n 0) 9) with n by lia.
  assert (Hdec : dec_digits_loop n = 10 ^ n).
  { assert (Hcases : In n (map Z.of_nat (seq 0 8))).
    { replace n with (Z.of_nat (Z.to_nat n)) by lia. apply in_map, in_seq. lia. }
    cbv [map seq In Z.of_nat Pos.of_succ_nat Pos.succ] in Hcases.
    repeat (destruct Hcases as [<-|Hcases]; [vm_compute; reflexivity|]).
    contradiction. }
  rewrite Hdec.
  assert (Hpow : 1 <= 10 ^ n <= 10 ^ 7).
  { pose proof (Z.pow_pos_nonneg 10 n ltac:(lia) ltac:(lia)).
    pose proof (Z.pow_le_mono_r 10 n 7 ltac:(lia) ltac:(lia)). lia. }
  assert (Hlow : uint32 v mod 2 ^ 9 = v mod 2 ^ 8).
  { unfold uint32.
    rewrite Z.mod_mod_divide by (exists (2 ^ 23); reflexivity).
    apply Z.testbit_false in Hbit; [|lia].
    pose proof (Z.div_mod v (2 ^ 8) ltac:(lia)) as Hdm.
    pose proof (Z.mod_pos_bound v (2 ^ 8) ltac:(lia)) as Hr.
    pose proof (Z.div_mod (v / 2 ^ 8) 2 ltac:(lia)) as Hq.
    symmetry. apply (Z.mod_unique_pos v (2 ^ 9) (v / 2 ^ 8 / 2)); lia. }
  rewrite Hlow.
  pose proof (Z.mod_pos_bound v (2 ^ 8) ltac:(lia)) as Hr.
  unfold uint32. rewrite (Z.mod_small (10 ^ n)) by lia.
  rewrite Z.mod_small by nia. reflexivity.
Qed.

(** ** What a render transmits *)

(** *** No data row can be taken for a header *)

Lemma digit_loop_digit fuel : forall d number digit zero_flag,
  0 <= digit -> digit + Z.of_nat fuel <= 255 ->
  digit <= snd (fst (digit_loop fuel d number digit zero_flag))
        <= digit + Z.of_nat fuel.
Proof.
  induction fuel as [|fuel IH]; intros d number digit zero_flag H0 H255.
  - cbn. lia.
  - cbn [digit_loop]. destruct (d <=? number); [|cbn; lia].
    assert (Hu : uint8 (digit + 1) = digit + 1)
      by (apply uint8_small; unfold in_uint8; lia).
    rewrite Hu.
    specialize (IH d (number - d) (digit + 1) 1 ltac:(lia) ltac:(lia)). lia.
Qed.

(** The bytes of a rendered number are digits, [:] at worst. *)
Lemma digit_row_bytes ds : forall i leading_zeros number zero_flag,
  Forall (fun b => 48 <= b <= 58)
    (digit_row ds i leading_zeros number zero_flag).
Proof.
  induction ds as [|d ds IH]; intros i leading_zeros number zero_flag.
  - constructor.
  - cbn [digit_row].
    pose proof (digit_loop_digit 10 d number 0 zero_flag ltac:(lia) ltac:(lia))
      as Hd.
    destruct (digit_loop 10 d number 0 zero_flag) as [[number' digit] zf].
    cbn [fst snd] in Hd. apply Forall_app. split; [|apply IH].
    case_match; [|constructor].
    repeat constructor; rewrite uint8_small; unfold in_uint8; cbn; lia.
Qed.

Lemma decimal_val_text_bytes number leading_zeros :
  Forall (fun b => b <= 58) (decimal_val_text number leading_zeros).
Proof.
  unfold decimal_val_text. apply Forall_app. split.
  - case_match; repeat constructor. lia.
  - eapply Forall_impl; [apply digit_row_bytes|]. cbn. intros; lia.
Qed.

Lemma decimal_fixed_val_text_bytes number fixed_shift num_decimal :
  Forall (fun b => b <= 58)
    (decimal_fixed_val_text number fixed_shift num_decimal).
Proof.
  unfold decimal_fixed_val_text. apply Forall_app. split.
  - apply decimal_val_text_bytes.
  - case_match; [|constructor]. apply Forall_app. split.
    + repeat constructor. lia.
    + apply decimal_val_text_bytes.
Qed.

Ltac row_bytes :=
  repeat match goal with
         | |- Forall _ (decimal_val_text _ _) => apply decimal_val_text_bytes
         | |- Forall _ (decimal_fixed_val_text _ _ _) =>
             apply decimal_fixed_val_text_bytes
         | |- Forall _ (text ",") => assumption
         | |- Forall _ CRLF => assumption
         | |- Forall _ (_ ++ _) => apply Forall_app; split
         end.

Lemma csv_row_text_bytes t : Forall (fun b => b <= 58) (csv_row_text t).
Proof.
  assert (Hcomma : Forall (fun b => b <= 58) (text ","))
    by (vm_compute; repeat constructor; discriminate).
  assert (Hcrlf : Forall (fun b => b <= 58) CRLF)
    by (vm_compute; repeat constructor; discriminate).
  unfold csv_row_text. row_bytes.
  apply Forall_concat, Forall_forall. intros r Hr.
  apply list_elem_of_fmap in Hr. destruct Hr as (i & -> & _).
  unfold csv_slot_text. row_bytes.
Qed.

Lemma csv_header_has_letter : In 82 csv_header_text.
Proof. vm_compute. left. reflexivity. Qed.

(** ** CSV sessions *)

Lemma main_loop_body_no_cal e s :
  cal_flag s <> TRUE ->
  main_loop_body e s = display_cur_liquid_level (sensed e s).
Proof.
  intros Hcal. unfold main_loop_body, sensed.
  destruct (capsense_busy e); [reflexivity|].
  rewrite (main_scan_complete_plain e s Hcal). reflexivity.
Qed.

Lemma sensed_console e s :
  console_of (sensed e s) = console_of s /\ uart_tx (sensed e s) = uart_tx s.
Proof.
  (* neither the scan block without calibration nor the level computation
     transmits *)
  unfold sensed.
  assert (H : console_of (if capsense_busy e then s
                          else main_pipeline (main_read_counts e s))
              = console_of s
              /\ uart_tx (if capsense_busy e then s
                          else main_pipeline (main_read_counts e s))
                 = uart_tx s).
  { destruct (capsense_busy e); [split; reflexivity|].
    split; [apply console_of_sensing|].
    pose proof (main_read_counts_outside e s) as H1. revert H1.
    generalize (main_read_counts e s). intros s1 H1.
    pose proof (main_pipeline_outside s1) as H2. revert H2.
    generalize (main_pipeline s1). intros s2 H2.
    unfold outside_counts, outside_pipeline in *. congruence. }
  revert H.
  generalize (if capsense_busy e then s
              else main_pipeline (main_read_counts e s)).
  intros u [Hc Ht]. rewrite console_of_main_level.
  split; [exact Hc|].
  pose proof (main_level_outside u) as H. revert H.
  generalize (main_level u). intros v H.
  unfold outside_level in *. congruence.
Qed.

(** With nothing typed and no flag set, a render is the mode-dependent
    line and nothing else. *)
Lemma quiet_render t :
  uart_rx t = [] -> storeSampleFlag t = FALSE -> resetSampleFlag t = FALSE ->
  display_cur_liquid_level t = Returns (display_mode t).
Proof.
  intros Hrx Hs Hr. unfold display_cur_liquid_level.
  pose proof (display_mode_console t) as H. revert H.
  generalize (display_mode t). intros u H.
  assert (Hu : uart_rx u = [] /\ storeSampleFlag u = FALSE
               /\ resetSampleFlag u = FALSE).
  { unfold console_of, console_display_mode, set_con_mode in H. cbn in H.
    injection H as _ -> -> _ _ _ _ ->. auto. }
  destruct Hu as (Hurx & Hus & Hur).
  unfold receive_uart_cmd. rewrite Hurx. cbn [and_then].
  unfold display_next_level_val. rewrite Hus.
  change (FALSE =? TRUE) with false. cbv iota zeta. rewrite Hur. reflexivity.
Qed.

Lemma console_of_put x t :
  console_of (Cy_SCB_UART_PutString x t) = console_of t.
Proof. reflexivity. Qed.

(** The first render of a session: the header row, and the mode moves on. *)
Lemma csv_first_render e s :
  idle_console s -> uartTxMode s = UART_CSVINIT -> uart_rx s = [] ->
  exists s',
    main_loop_body e s = Returns s'
    /\ csv_running s'
    /\ uart_tx s' = uart_tx s ++ csv_header_text.
Proof.
  intros Hidle Hmode Hrx.
  pose proof Hidle as (Hcal & Hs & Hr & Hi & Hb).
  rewrite main_loop_body_no_cal by (rewrite Hcal; discriminate).
  destruct (sensed_console e s) as [Hc Ht]. revert Hc Ht.
  generalize (sensed e s). intros u Hc Ht.
  assert (Hu : idle_console u /\ uartTxMode u = UART_CSVINIT /\ uart_rx u = []).
  { unfold idle_console, console_of in *.
    injection Hc as -> -> -> -> -> -> _ ->. auto 10. }
  destruct Hu as ((Hucal & Hus & Hur & Hui & Hub) & Humode & Hurx).
  rewrite quiet_render by assumption.
  unfold display_mode. rewrite Humode.
  change (UART_CSVINIT =? UART_BASIC) with false.
  change ((UART_CSVINIT =? UART_CSVINIT) || (UART_CSVINIT =? UART_CSV))
    with true.
  change (UART_CSVINIT =? UART_CSVINIT) with true. cbv iota.
  destruct (display_csv_header_emit u) as (left & -> & _).
  eexists. split; [reflexivity|]. split.
  - unfold csv_running, idle_console. cbn. auto 10.
  - cbn. rewrite Ht. reflexivity.
Qed.

(** Every later render: one data row, less the signs and points the FIFO
    has refused, and the session goes on. *)
Lemma csv_later_render e s :
  csv_running s ->
  exists s' row,
    main_loop_body e s = Returns s'
    /\ csv_running s'
    /\ uart_tx s' = uart_tx s ++ row
    /\ thin (csv_row_text (sensed e s)) row.
Proof.
  intros (Hidle & Hmode & Hrx).
  pose proof Hidle as (Hcal & Hs & Hr & Hi & Hb).
  rewrite main_loop_body_no_cal by (rewrite Hcal; discriminate).
  destruct (sensed_console e s) as [Hc Ht]. revert Hc Ht.
  generalize (sensed e s). intros u Hc Ht.
  assert (Hu : idle_console u /\ uartTxMode u = UART_CSV /\ uart_rx u = []).
  { unfold idle_console, console_of in *.
    injection Hc as -> -> -> -> -> -> _ ->. auto 10. }
  destruct Hu as ((Hucal & Hus & Hur & Hui & Hub) & Humode & Hurx).
  rewrite quiet_render by assumption.
  unfold display_mode. rewrite Humode.
  change (UART_CSV =? UART_BASIC) with false.
  change ((UART_CSV =? UART_CSVINIT) || (UART_CSV =? UART_CSV)) with true.
  change (UART_CSV =? UART_CSVINIT) with false. cbv iota.
  destruct (display_csv_row_sends u I) as (row & left & -> & Hthin & _).
  exists (emit row left u), row. split; [reflexivity|]. split.
  { unfold csv_running, idle_console. cbn. auto 10. }
  split; [cbn; rewrite Ht; reflexivity|exact Hthin].
Qed.

Lemma csv_later_renders es : forall s,
  csv_running s ->
  exists s' rows,
    main_loop es s = Returns s'
    /\ csv_running s'
    /\ uart_tx s' = uart_tx s ++ concat rows
    /\ length rows = length es
    /\ Forall is_csv_data_row rows.
Proof.
  induction es as [|e es IH]; intros s Hrun.
  - exists s, []. cbn. rewrite app_nil_r. auto.
  - destruct (csv_later_render e s Hrun) as (s1 & row & E1 & Hrun1 & T1 & H1).
    destruct (IH s1 Hrun1) as (s' & rows & E & Hrun' & T & L & R).
    exists s', (row :: rows).
    cbn [main_loop]. rewrite E1. cbn [and_then].
    split; [exact E|]. split; [exact Hrun'|].
    split; [rewrite T, T1; cbn [concat]; rewrite <- app_assoc; reflexivity|].
    split; [cbn; congruence|].
    constructor; [exists (sensed e s); exact H1|exact R].
Qed.

Lemma data_rows_have_no_letter rows :
  Forall is_csv_data_row rows -> ~ In 82 (concat rows).
Proof.
  intros Hrows Hin. apply in_concat in Hin. destruct Hin as (row & Hrow & Hin).
  rewrite Forall_forall in Hrows.
  destruct (Hrows row) as (t & Ht); [apply list_elem_of_In; exact Hrow|].
  pose proof (thin_Forall _ _ _ Ht (csv_row_text_bytes t)) as Hb.
  rewrite Forall_forall in Hb.
  specialize (Hb 82 ltac:(apply list_elem_of_In; exact Hin)). lia.
Qed.

Lemma typed_idle bytes : idle_console (typed bytes power_on).
Proof. repeat split; reflexivity. Qed.

(** Typing [csv] and one line terminator: four turns of the loop read the
    four bytes and leave the console idle in mode [UART_CSVINIT]. *)
Lemma csv_command_read (t : Z) (s : state) (es : list env) :
  t = 13 \/ t = 10 ->
  idle_console s -> uart_rx s = text "csv" ++ [t] -> length es = 4%nat ->
  exists s1,
    main_loop es s = Returns s1
    /\ idle_console s1 /\ uartTxMode s1 = UART_CSVINIT /\ uart_rx s1 = [].
Proof.
  intros Ht Hidle Hrx Hlen.
  do 4 (destruct es as [|? es]; [discriminate|]).
  destruct es; [|discriminate].
  match goal with
  | |- context [main_loop ?l s] =>
      destruct (main_loop_console l s
                  (mkConsole UART_CSVINIT FALSE FALSE FALSE 0
                     (replicate (Z.to_nat RX_CAPACITY) 0) (sampleIndex s) []))
        as (s1 & Hrun & Hcon)
  end.
  { rewrite (console_of_idle s Hidle), Hrx.
    destruct Ht; subst t; vm_compute; reflexivity. }
  exists s1. split; [exact Hrun|].
  destruct (idle_of_console _ _ _ _ Hcon) as (Hi & Hm & _ & Hr). auto.
Qed.

Lemma csv_session_one_terminator (t : Z) :
  t = 13 \/ t = 10 -> csv_session (text "csv" ++ [t]) 4.
Proof.
  intros Ht s es e es' Hidle Hrx Hlen.
  destruct (csv_command_read t s es Ht Hidle Hrx Hlen)
    as (s1 & E1 & Hidle1 & Hmode1 & Hrx1).
  destruct (csv_first_render e s1 Hidle1 Hmode1 Hrx1)
    as (s2 & E2 & Hrun2 & T2).
  destruct (csv_later_renders es' s2 Hrun2)
    as (s3 & rows & E3 & Hrun3 & T3 & L3 & R3).
  exists s1, s2, s3, rows.
  destruct Hrun2 as (_ & Hmode2 & _). destruct Hrun3 as (_ & Hmode3 & _).
  repeat (split; [assumption|]).
  apply data_rows_have_no_letter. exact R3.
Qed.

(** C3, amended. [csv] followed by ONE line terminator (a carriage return
    or a line feed), typed into an idle console: once the four bytes are
    read the mode is [UART_CSVINIT]; the next render transmits the header
    row and only that, and the mode becomes [UART_CSV]; every later render
    transmits one data row, with no header, for as long as nothing else is
    typed. *)
Theorem csv_command_starts_session :
  csv_session (text "csv" ++ [13]) 4 /\ csv_session (text "csv" ++ [10]) 4.
Proof.
  split; apply csv_session_one_terminator; [left|right]; reflexivity.
Qed.

Lemma csv_command_starts_session_witness :
  idle_console (typed (text "csv" ++ [13]) power_on)
  /\ uart_rx (typed (text "csv" ++ [13]) power_on) = text "csv" ++ [13]
  /\ length (replicate 4 sample_scan) = 4%nat
  /\ exists s1 s2 s3 rows,
       main_loop (replicate 4 sample_scan)
         (typed (text "csv" ++ [13]) power_on) = Returns s1
       /\ main_loop_body sample_scan s1 = Returns s2
       /\ uart_tx s2 = uart_tx s1 ++ csv_header_text
       /\ uartTxMode s2 = UART_CSV
       /\ main_loop (replicate 3 sample_scan) s2 = Returns s3
       /\ uartTxMode s3 = UART_CSV
       /\ uart_tx s3 = uart_tx s2 ++ concat rows
       /\ length rows = length (replicate 3 sample_scan)
       /\ Forall is_csv_data_row rows
       /\ ~ In 82 (concat rows).
Proof.
  assert (Hidle : idle_console (typed (text "csv" ++ [13]) power_on))
    by (repeat split; reflexivity).
  split; [exact Hidle|]. split; [reflexivity|]. split; [reflexivity|].
  destruct csv_command_starts_session as [Hcr _].
  exact (Hcr (typed (text "csv" ++ [13]) power_on) (replicate 4 sample_scan)
           sample_scan (replicate 3 sample_scan) Hidle eq_refl eq_refl).
Defined.

(** C3 as stated, refuted. With [csv], carriage return AND line feed typed,
    the line feed is read as an empty line: it sets the store-sample flag
    and the mode [UART_NONE]. Whether the render after the typing is taken
    to be the turn after all five bytes are read or the turn after the
    first four, it does not leave the mode at [UART_CSV], and no data row
    follows. *)
Lemma csv_crlf_ends_session :
  ~ csv_session (text "csv" ++ CRLF) 5 /\ ~ csv_session (text "csv" ++ CRLF) 4.
Proof.
  split; intros H.
  - destruct (H (typed (text "csv" ++ CRLF) power_on) (replicate 5 sample_scan)
                sample_scan [sample_scan])
      as (s1 & s2 & s3 & rows & E1 & E2 & _ & M2 & _);
      [apply typed_idle|reflexivity|reflexivity|].
    vm_compute in E1. injection E1 as <-.
    vm_compute in E2. injection E2 as <-.
    vm_compute in M2. discriminate M2.
  - destruct (H (typed (text "csv" ++ CRLF) power_on) (replicate 4 sample_scan)
                sample_scan [sample_scan])
      as (s1 & s2 & s3 & rows & E1 & E2 & _ & M2 & _);
      [apply typed_idle|reflexivity|reflexivity|].
    vm_compute in E1. injection E1 as <-.
    vm_compute in E2. injection E2 as <-.
    vm_compute in M2. discriminate M2.
Qed.

(** ** The digit loop never runs out of fuel *)

Lemma digit_loop_exact fuel : forall d number digit zero_flag,
  0 < d -> 0 <= number < Z.of_nat fuel * d ->
  0 <= digit -> digit + Z.of_nat fuel <= 255 ->
  digit_loop fuel d number digit zero_flag
  = (number mod d, digit + number / d,
     if d <=? number then 1 else zero_flag).
Proof.
  induction fuel as [|fuel IH]; intros d number digit zero_flag Hd Hn H0 H256.
  - lia.
  - rewrite Nat2Z.inj_succ in Hn, H256. rewrite Z.mul_succ_l in Hn.
    cbn [digit_loop]. destruct (d <=? number) eqn:Hle.
    + apply Z.leb_le in Hle.
      rewrite uint8_small by (unfold in_uint8; lia).
      rewrite IH by lia.
      assert (Hm : (number - d) mod d = number mod d).
      { replace number with (number - d + 1 * d) at 2 by lia.
        rewrite Z.mod_add by lia. reflexivity. }
      assert (Hq : (number - d) / d = number / d - 1).
      { replace number with (number - d + 1 * d) at 2 by lia.
        rewrite Z.div_add by lia. lia. }
      rewrite Hm, Hq.
      f_equal; [f_equal; lia|]. case_match; reflexivity.
    + apply Z.leb_gt in Hle.
      rewrite Z.mod_small, Z.div_small by lia. f_equal. f_equal. lia.
Qed.

Lemma digit_row_exact ds : forall i leading_zeros number zero_flag,
  decades ds ->
  0 <= number -> match ds with [] => True | d :: _ => number < 10 * d end ->
  digit_row ds i leading_zeros number zero_flag
  = digit_row_div ds i leading_zeros number zero_flag.
Proof.
  induction ds as [|d ds IH];
    intros i leading_zeros number zero_flag Hdec Hn Hlt; [reflexivity|].
  destruct Hdec as (Hd & Hnext & Hdec). cbv iota in Hlt.
  cbn [digit_row digit_row_div].
  rewrite digit_loop_exact by lia. cbv zeta. rewrite Z.add_0_l.
  rewrite IH; [reflexivity|exact Hdec| |].
  - apply Z.mod_pos_bound. lia.
  - destruct ds as [|d' ds]; [exact I|].
    pose proof (Z.mod_pos_bound number d Hd). lia.
Qed.

(** For every [int32_t] that is not negative the ten turns of the loop in
    [display_decimal_val] produce the decimal digits, whatever the fuel. *)
Lemma decimal_val_text_exact number leading_zeros :
  0 <= number < 2 ^ 31 ->
  decimal_val_text number leading_zeros
  = digit_row_div decimal 0
      (if 10 <? leading_zeros then 10 else leading_zeros) number 0.
Proof.
  intros Hn. unfold decimal_val_text.
  replace (number <? 0) with false by (symmetry; apply Z.ltb_ge; lia).
  cbn [app]. apply digit_row_exact.
  - cbn. repeat split; lia.
  - lia.
  - cbn. lia.
Qed.

(** ** The baselines stay in range *)

Lemma sensors_outside_tx a b :
  outside_tx a = outside_tx b -> sensors a = sensors b.
Proof. unfold outside_tx, sensors. congruence. Qed.

Lemma receive_uart_cmd_sensors t u :
  receive_uart_cmd t = Returns u -> sensors u = sensors t.
Proof.
  unfold receive_uart_cmd, rx_store, match_command.
  destruct (uart_rx t) as [|b rest].
  - intros H. injection H as <-. reflexivity.
  - cbv zeta. rewrite put_until_accepted_eq.
    repeat (case_match; cbn [and_then]);
      intros Hret; try discriminate Hret; injection Hret as <-; reflexivity.
Qed.

Lemma display_mode_sensors t : sensors (display_mode t) = sensors t.
Proof.
  unfold display_mode. repeat case_match.
  - apply sensors_outside_tx, display_basic_outside.
  - rewrite (sensors_outside_tx _ _ (display_csv_header_outside t)).
    reflexivity.
  - apply sensors_outside_tx, display_csv_row_outside.
  - reflexivity.
Qed.

Lemma display_next_level_val_sensors t :
  sensors (display_next_level_val t) = sensors t.
Proof.
  unfold display_next_level_val.
  destruct (storeSampleFlag t =? TRUE).
  - cbv zeta.
    set (t0 := set_uartTxMode UART_NONE t).
    assert (H1 : outside_tx (if sampleIndex t0 =? 0
                             then display_sample_header t0 else t0)
                 = outside_tx t0).
    { destruct (sampleIndex t0 =? 0);
        [apply display_sample_header_outside|reflexivity]. }
    revert H1.
    generalize (if sampleIndex t0 =? 0 then display_sample_header t0 else t0).
    intros t1 H1.
    pose proof (display_sample_row_outside t1) as H2. revert H2.
    generalize (display_sample_row t1). intros t2 H2.
    assert (H : sensors t2 = sensors t).
    { transitivity (sensors t0); [|reflexivity].
      apply sensors_outside_tx. congruence. }
    subst t0. revert H. clear. intros H.
    destruct t2, t. unfold sensors in H. cbn in H.
    injection H as -> -> -> -> -> -> -> ->.
    cbn. repeat case_match; reflexivity.
  - destruct t. cbn. case_match; reflexivity.
Qed.

Lemma display_cur_liquid_level_sensors t u :
  display_cur_liquid_level t = Returns u -> sensors u = sensors t.
Proof.
  unfold display_cur_liquid_level. intros H.
  destruct (receive_uart_cmd (display_mode t)) as [v|v|i v] eqn:Hrecv;
    cbn [and_then] in H; try discriminate H.
  injection H as <-. rewrite display_next_level_val_sensors.
  rewrite (receive_uart_cmd_sensors _ _ Hrecv). apply display_mode_sensors.
Qed.

Lemma load_prefix flash k s :
  length (sensorEmptyOffset s) = LOGICAL_EM_EEPROM_SIZE ->
  (k <= NUMSENSORS)%nat ->
  length (sensorEmptyOffset (for_range 0 k (load_offset flash) s))
  = LOGICAL_EM_EEPROM_SIZE
  /\ forall i, (i < k)%nat ->
       sensorEmptyOffset (for_range 0 k (load_offset flash) s) !!! i
       = int16 (flash i).
Proof.
  intros Ho. induction k as [|k IH]; intros Hk.
  - cbn. split; [assumption|lia].
  - destruct IH as (L & E); [lia|].
    rewrite for_range_S. cbn [Nat.add].
    generalize dependent (for_range 0 k (load_offset flash) s). intros u L E.
    unfold load_offset. cbn. rewrite length_insert. split; [exact L|].
    intros i Hi. rewrite list_lookup_total_insert.
    unfold NUMSENSORS, LOGICAL_EM_EEPROM_SIZE in *.
    case_decide as Hc; [destruct Hc; subst; reflexivity|]. apply E. lia.
Qed.

(** The baselines loaded at start-up are half-words. *)
Lemma baseline_ok_load flash s :
  length (sensorEmptyOffset s) = LOGICAL_EM_EEPROM_SIZE ->
  baseline_ok (main_load_offsets flash s).
Proof.
  intros Ho i Hi. unfold main_load_offsets.
  destruct (load_prefix flash NUMSENSORS s Ho (Nat.le_refl _)) as (_ & E).
  rewrite (E i Hi). unfold int16.
  pose proof (Z.mod_pos_bound (flash i + 2 ^ 15) (2 ^ 16) ltac:(lia)). lia.
Qed.

(** A turn of the loop keeps the arrays at their sizes and the baselines in
    range. *)
Lemma baseline_ok_loop e s s' :
  well_formed s -> counts_ok e -> baseline_ok s ->
  main_loop_body e s = Returns s' ->
  well_formed s' /\ baseline_ok s'.
Proof.
  intros Hwf Hc Hb. unfold main_loop_body.
  assert (Hscan : forall u,
            (if capsense_busy e then Returns s else main_scan_complete e s)
            = Returns u -> well_formed u /\ baseline_ok u).
  { intros u. destruct (capsense_busy e).
    { intros H. injection H as <-. auto. }
    pose proof Hwf as [Lr Ld Lo Lp].
    destruct (main_read_counts_spec e s Lr Ld) as (Lr1 & Ld1 & R1).
    pose proof (main_read_counts_outside e s) as F1.
    destruct (decide (cal_flag s = TRUE)) as [Hcal|Hcal].
    - rewrite (main_scan_complete_cal e s Hcal).
      generalize dependent (main_read_counts e s). intros s1 Lr1 Ld1 R1 F1.
      destruct (store_calibration_spec (eeprom_write_ok e)
                  (set_cal_flag FALSE s1)) as (c & -> & Fc & Lc & Ec & _);
        [frame|].
      destruct (eeprom_write_ok e); cbn [and_then]; [|discriminate].
      intros H. injection H as <-.
      destruct (main_pipeline_spec c) as (Ldp & Lpp & _); [frame|frame|].
      pose proof (main_pipeline_outside c) as Fp.
      generalize dependent (main_pipeline c). intros v Ldp Lpp Fp.
      split; [split; frame|].
      intros i Hi. replace (sensorEmptyOffset v) with (sensorEmptyOffset c)
        by frame.
      rewrite (Ec i Hi). fields. destruct (R1 i Hi) as [_ ->].
      specialize (Hc i Hi). unfold in_uint16 in Hc. lia.
    - rewrite (main_scan_complete_plain e s Hcal).
      generalize dependent (main_read_counts e s). intros s1 Lr1 Ld1 R1 F1.
      intros H. injection H as <-.
      destruct (main_pipeline_spec s1 Ld1) as (Ldp & Lpp & _); [frame|].
      pose proof (main_pipeline_outside s1) as Fp.
      generalize dependent (main_pipeline s1). intros v Ldp Lpp Fp.
      split; [split; frame|].
      intros i Hi. replace (sensorEmptyOffset v) with (sensorEmptyOffset s)
        by frame. apply Hb. exact Hi. }
  destruct (if capsense_busy e then Returns s else main_scan_complete e s)
    as [u|u|i u]; cbn [and_then]; try discriminate.
  destruct (Hscan u eq_refl) as ([Lr Ld Lo Lp] & Hbu). clear Hscan.
  intros H. apply display_cur_liquid_level_sensors in H.
  pose proof (main_level_outside u) as Fl.
  generalize dependent (main_level u). intros v H Fl.
  assert (Hr : sensorRaw s' = sensorRaw u
               /\ sensorDiff s' = sensorDiff u
               /\ sensorEmptyOffset s' = sensorEmptyOffset u
               /\ sensorProcessed s' = sensorProcessed u).
  { unfold sensors, outside_level in *. repeat split; congruence. }
  destruct Hr as (Er & Ed & Eo & Ep).
  split; [split; congruence|].
  intros i Hi. rewrite Eo. apply Hbu. exact Hi.
Qed.

(** ** The decimal renderer *)

Lemma powers_of_ten_pos ds : powers_of_ten ds -> Forall (fun d => 0 < d) ds.
Proof.
  induction ds as [|d ds IH]; intros H; [constructor|].
  destruct H as (Hd & Hds). specialize (IH Hds).
  constructor; [|exact IH].
  destruct ds as [|d' ds]; [lia|]. inversion IH; subst. lia.
Qed.

Lemma powers_of_ten_decades ds : powers_of_ten ds -> decades ds.
Proof.
  induction ds as [|d ds IH]; intros H; [exact I|].
  pose proof (powers_of_ten_pos _ H) as Hpos. inversion Hpos; subst.
  destruct H as (Hd & Hds). cbn [decades].
  split; [assumption|]. split; [|apply IH, Hds].
  destruct ds; [exact I|exact Hd].
Qed.

Lemma powers_of_ten_decimal : powers_of_ten decimal.
Proof. cbn. repeat split. Qed.

(** Once a digit has been sent, every later digit is sent, whatever the
    forced width. *)
Lemma digit_row_div_started ds : forall i lz number acc,
  powers_of_ten ds ->
  0 <= number < match ds with [] => 1 | d :: _ => 10 * d end ->
  let out := digit_row_div ds i lz number 1 in
  length out = length ds
  /\ Forall is_digit out
  /\ foldl (fun acc b => acc * 10 + (b - 48)) acc out
     = acc * match ds with [] => 1 | d :: _ => 10 * d end + number
  /\ out = digit_row_div ds i 0 number 1.
Proof.
  induction ds as [|d ds IH]; intros i lz number acc Hp Hn; cbv zeta.
  - cbn. repeat split; [constructor|lia].
  - pose proof (powers_of_ten_pos _ Hp) as Hpos. inversion Hpos; subst.
    destruct Hp as (Hd & Hp).
    assert (Hq : 0 <= number / d < 10).
    { split; [apply Z.div_pos; lia|apply Z.div_lt_upper_bound; lia]. }
    pose proof (Z.mod_pos_bound number d ltac:(lia)) as Hr.
    pose proof (Z.div_mod number d ltac:(lia)) as Hdm.
    cbn [digit_row_div].
    replace (if d <=? number then 1 else 1) with 1
      by (destruct (d <=? number); reflexivity).
    cbn [Z.eqb Pos.eqb orb app].
    assert (Hr' : 0 <= number mod d
                  < match ds with [] => 1 | d' :: _ => 10 * d' end).
    { rewrite <- Hd. exact Hr. }
    destruct (IH (i + 1) lz (number mod d) (acc * 10 + number / d) Hp Hr')
      as (Hlen & Hdig & Hval & Hlz).
    unfold uint8. rewrite Z.mod_small by lia.
    cbn [length foldl]. split; [lia|]. split.
    { constructor; [unfold is_digit; lia|exact Hdig]. }
    split.
    { replace (number / d + 48 - 48) with (number / d) by lia.
      rewrite Hval, <- Hd. lia. }
    rewrite Hlz. reflexivity.
Qed.

(** With no digit sent yet and no forced width, the loop sends the digits
    of the number without leading zeros, and one zero for 0. *)
Lemma digit_row_div_plain ds : forall i number,
  powers_of_ten ds -> ds <> [] -> i + Z.of_nat (length ds) = 10 ->
  0 <= number < match ds with [] => 1 | d :: _ => 10 * d end ->
  let out := digit_row_div ds i 0 number 0 in
  Forall is_digit out
  /\ decimal_value out = number
  /\ (1 <= length out <= length ds)%nat
  /\ (number = 0 -> out = [48])
  /\ (0 < number -> head out <> Some 48).
Proof.
  induction ds as [|d ds IH]; intros i number Hp Hne Hi Hn; cbv zeta;
    [contradiction|].
  pose proof (powers_of_ten_pos _ Hp) as Hpos. inversion Hpos; subst.
  destruct Hp as (Hd & Hp).
  cbn [length] in Hi. cbn [digit_row_div].
  destruct (d <=? number) eqn:Hle.
  - (* the first digit that is not 0 *)
    apply Z.leb_le in Hle. cbn [Z.eqb Pos.eqb orb app].
    assert (Hq : 1 <= number / d < 10).
    { split; [apply Z.div_le_lower_bound; lia
             |apply Z.div_lt_upper_bound; lia]. }
    pose proof (Z.mod_pos_bound number d ltac:(lia)) as Hr.
    pose proof (Z.div_mod number d ltac:(lia)) as Hdm.
    assert (Hr' : 0 <= number mod d
                  < match ds with [] => 1 | d' :: _ => 10 * d' end).
    { rewrite <- Hd. exact Hr. }
    destruct (digit_row_div_started ds (i + 1) 0 (number mod d) (number / d)
                Hp Hr') as (Hlen & Hdig & Hval & _).
    unfold uint8. rewrite Z.mod_small by lia.
    split; [constructor; [unfold is_digit; lia|exact Hdig]|].
    split.
    { unfold decimal_value. cbn [foldl].
      replace (0 * 10 + (number / d + 48 - 48)) with (number / d) by lia.
      rewrite Hval, <- Hd. lia. }
    split; [cbn [length]; lia|].
    split; [lia|]. intros _. cbn [head]. intros E. injection E as E. lia.
  - apply Z.leb_gt in Hle.
    rewrite Z.mod_small, Z.div_small by lia.
    destruct (i =? 9) eqn:H9.
    + (* the last turn: the number is 0 *)
      apply Z.eqb_eq in H9. destruct ds as [|d' ds]; [|cbn [length] in Hi; lia].
      cbn [Z.eqb orb app digit_row_div]. assert (number = 0) as -> by lia.
      change (uint8 (0 + 48)) with 48.
      split; [constructor; [unfold is_digit; lia|constructor]|].
      split; [reflexivity|]. split; [cbn [length]; lia|].
      split; [reflexivity|lia].
    + apply Z.eqb_neq in H9.
      replace (10 - 0 <=? i) with false by (symmetry; apply Z.leb_gt; lia).
      cbn [Z.eqb orb app].
      destruct ds as [|d' ds]; [cbn [length] in Hi; lia|].
      destruct (IH (i + 1) number Hp ltac:(discriminate)) as
        (Hdig & Hval & Hlen & Hz & Hnz).
      { cbn [length] in *. lia. }
      { lia. }
      repeat split; try assumption; cbn [length] in *; lia.
Qed.

(** A forced width pads the digits on the left with zeros. *)
Lemma digit_row_div_padded ds : forall i lz number,
  powers_of_ten ds -> ds <> [] -> i + Z.of_nat (length ds) = 10 ->
  0 <= number < match ds with [] => 1 | d :: _ => 10 * d end ->
  digit_row_div ds i lz number 0
  = replicate (Nat.min (length ds) (Z.to_nat lz)
               - length (digit_row_div ds i 0 number 0)) 48
    ++ digit_row_div ds i 0 number 0.
Proof.
  induction ds as [|d ds IH]; intros i lz number Hp Hne Hi Hn;
    [contradiction|].
  pose proof (digit_row_div_plain (d :: ds) i number Hp Hne Hi Hn)
    as (_ & _ & Hlen0 & _).
  revert Hlen0.
  pose proof (powers_of_ten_pos _ Hp) as Hpos. inversion Hpos; subst.
  destruct Hp as (Hd & Hp).
  cbn [length] in Hi. cbn [digit_row_div].
  destruct (d <=? number) eqn:Hle.
  - apply Z.leb_le in Hle. cbn [Z.eqb Pos.eqb orb app].
    pose proof (Z.mod_pos_bound number d ltac:(lia)) as Hr.
    assert (Hr' : 0 <= number mod d
                  < match ds with [] => 1 | d' :: _ => 10 * d' end).
    { rewrite <- Hd. exact Hr. }
    destruct (digit_row_div_started ds (i + 1) lz (number mod d) 0 Hp Hr')
      as (Hlen & _ & _ & ->).
    destruct (digit_row_div_started ds (i + 1) 0 (number mod d) 0 Hp Hr')
      as (Hlen' & _ & _ & _).
    intros _. cbn [length]. rewrite Hlen'.
    replace (Nat.min (S (length ds)) (Z.to_nat lz) - S (length ds))%nat
      with 0%nat by lia.
    reflexivity.
  - apply Z.leb_gt in Hle.
    rewrite Z.mod_small, Z.div_small by lia.
    destruct (i =? 9) eqn:H9.
    + apply Z.eqb_eq in H9. destruct ds as [|d' ds]; [|cbn [length] in Hi; lia].
      cbn [Z.eqb orb app digit_row_div length]. intros _.
      replace (Nat.min 1 (Z.to_nat lz) - 1)%nat with 0%nat by lia.
      reflexivity.
    + apply Z.eqb_neq in H9.
      replace (10 - 0 <=? i) with false by (symmetry; apply Z.leb_gt; lia).
      cbn [Z.eqb orb app].
      destruct ds as [|d' ds]; [cbn [length] in Hi; lia|].
      assert (Hi' : i + 1 + Z.of_nat (length (d' :: ds)) = 10)
        by (cbn [length] in *; lia).
      assert (Hn' : 0 <= number < 10 * d') by lia.
      rewrite (IH (i + 1) lz number Hp ltac:(discriminate) Hi' Hn').
      pose proof (digit_row_div_plain (d' :: ds) (i + 1) number Hp
                    ltac:(discriminate) Hi' Hn') as (_ & _ & Hlen & _).
      cbv zeta in Hlen. revert Hlen.
      generalize (digit_row_div (d' :: ds) (i + 1) 0 number 0). intros out Hlen _.
      cbn [length] in *.
      destruct (10 - lz <=? i) eqn:Hf; cbn [app].
      * apply Z.leb_le in Hf. unfold uint8.
        change ((0 + 48) mod 2 ^ 8) with 48.
        replace (Nat.min (S (length ds)) (Z.to_nat lz)) with (S (length ds))
          by lia.
        replace (Nat.min (S (S (length ds))) (Z.to_nat lz))
          with (S (S (length ds))) by lia.
        replace (S (S (length ds)) - length out)%nat
          with (S (S (length ds) - length out)) by lia.
        reflexivity.
      * apply Z.leb_gt in Hf.
        replace (Nat.min (S (S (length ds))) (Z.to_nat lz))
          with (Nat.min (S (length ds)) (Z.to_nat lz)) by lia.
        reflexivity.
Qed.

Lemma decimal_val_text_sign number leading_zeros :
  - 2 ^ 31 < number < 2 ^ 31 ->
  decimal_val_text number leading_zeros
  = (if number <? 0 then [45] else [])
    ++ decimal_val_text (Z.abs number) leading_zeros.
Proof.
  intros Hn. destruct (number <? 0) eqn:Hneg.
  - apply Z.ltb_lt in Hneg. unfold decimal_val_text.
    replace (number <? 0) with true by (symmetry; apply Z.ltb_lt; lia).
    replace (Z.abs number <? 0) with false by (symmetry; apply Z.ltb_ge; lia).
    rewrite wrap32_small by (unfold in_int32; lia).
    replace (number * -1) with (Z.abs number) by lia. reflexivity.
  - apply Z.ltb_ge in Hneg. rewrite Z.abs_eq by lia. reflexivity.
Qed.

(** What [display_decimal_val] transmits: the sign if the number is
    negative and the FIFO has room when the sign is offered, and the digits
    of the absolute value. *)
Lemma display_decimal_val_digits number leading_zeros s :
  - 2 ^ 31 < number < 2 ^ 31 ->
  exists left,
    display_decimal_val number leading_zeros s
    = emit ((if (number <? 0) && negb (tx_fifo_full s) then [45] else [])
            ++ decimal_val_text (Z.abs number) leading_zeros) left s.
Proof.
  intros Hn. pose proof (decimal_val_text_sign number leading_zeros Hn) as H.
  unfold decimal_val_text at 1 in H. cbv zeta in H. apply app_inv_head in H.
  pose proof (display_decimal_val_emit number leading_zeros s) as E.
  cbv zeta in E. rewrite H in E. eexists. exact E.
Qed.

Lemma decimal_val_text_pads number leading_zeros :
  0 <= number < 2 ^ 31 ->
  decimal_val_text number leading_zeros
  = replicate (Z.to_nat (Z.min leading_zeros 10)
               - length (decimal_val_text number 0)) 48
    ++ decimal_val_text number 0.
Proof.
  intros Hn. rewrite !decimal_val_text_exact by lia.
  change (if 10 <? 0 then 10 else 0) with 0.
  rewrite (digit_row_div_padded decimal 0 _ number powers_of_ten_decimal
             ltac:(discriminate) eq_refl) by (cbn; lia).
  f_equal. f_equal. f_equal. change (length decimal) with 10%nat.
  destruct (10 <? leading_zeros) eqn:H10;
    [apply Z.ltb_lt in H10|apply Z.ltb_ge in H10]; lia.
Qed.

(** X1. For every [int32_t] but the most negative one,
    [display_decimal_val(number, 0)] only transmits: a minus sign, if the
    number is negative and the transmit FIFO has room at the one moment
    the sign is offered, and then between one and ten ASCII digits that
    denote the absolute value, with no leading zero except for the single
    digit of 0. The digits are offered until they are taken and arrive
    whatever the FIFO does. *)
Theorem decimal_val_round_trip (number : Z) (s : state) :
  - 2 ^ 31 < number < 2 ^ 31 ->
  exists digits left,
    display_decimal_val number 0 s
    = emit ((if (number <? 0) && negb (tx_fifo_full s) then [45] else [])
            ++ digits) left s
    /\ Forall is_digit digits
    /\ decimal_value digits = Z.abs number
    /\ (1 <= length digits <= 10)%nat
    /\ (head digits = Some 48 -> digits = [48]).
Proof.
  intros Hn. destruct (display_decimal_val_digits number 0 s Hn) as (left & E).
  exists (decimal_val_text (Z.abs number) 0), left.
  split; [exact E|].
  rewrite decimal_val_text_exact by lia.
  change (if 10 <? 0 then 10 else 0) with 0.
  destruct (digit_row_div_plain decimal 0 (Z.abs number) powers_of_ten_decimal
              ltac:(discriminate) eq_refl)
    as (Hdig & Hval & Hlen & Hzero & Hpos).
  { cbn. lia. }
  split; [exact Hdig|]. split; [exact Hval|]. split; [exact Hlen|].
  intros Hhead. destruct (Z.eq_dec (Z.abs number) 0) as [E0|E0].
  - apply Hzero, E0.
  - exfalso. apply Hpos; [lia|exact Hhead].
Qed.

Lemma decimal_val_round_trip_witness :
  - 2 ^ 31 < -153 < 2 ^ 31
  /\ (exists digits left,
        display_decimal_val (-153) 0 power_on
        = emit ([45] ++ digits) left power_on
        /\ Forall is_digit digits
        /\ decimal_value digits = 153
        /\ (1 <= length digits <= 10)%nat
        /\ (head digits = Some 48 -> digits = [48]))
  /\ (exists digits left,
        display_decimal_val (-153) 0 (set_uart_tx_full [true] power_on)
        = emit digits left (set_uart_tx_full [true] power_on)
        /\ Forall is_digit digits
        /\ decimal_value digits = 153
        /\ (1 <= length digits <= 10)%nat
        /\ (head digits = Some 48 -> digits = [48]))
  /\ uart_tx (display_decimal_val (-153) 0 power_on) = text "-153"
  /\ uart_tx (display_decimal_val (-153) 0 (set_uart_tx_full [true] power_on))
     = text "153".
Proof.
  split; [lia|].
  split; [exact (decimal_val_round_trip (-153) power_on ltac:(lia))|].
  split; [exact (decimal_val_round_trip (-153)
                   (set_uart_tx_full [true] power_on) ltac:(lia))|].
  split; reflexivity.
Defined.

(** X2. A forced width pads on the left: [display_decimal_val(number,
    leading_zeros)] transmits the sign, if the number is negative and the
    transmit FIFO has room when the sign is offered, then as many zeros as
    the digits of the absolute value fall short of [min(leading_zeros,
    10)], then those digits, which are what the function transmits for the
    absolute value and a width of 0. A width of 0 or less, or one the
    number already fills, changes nothing. *)
Theorem decimal_val_pads (number leading_zeros : Z) (s : state) :
  - 2 ^ 31 < number < 2 ^ 31 ->
  exists digits left left',
    display_decimal_val (Z.abs number) 0 s = emit digits left s
    /\ display_decimal_val number leading_zeros s
       = emit ((if (number <? 0) && negb (tx_fifo_full s) then [45] else [])
               ++ replicate (Z.to_nat (Z.min leading_zeros 10)
                             - length digits) 48
               ++ digits) left' s.
Proof.
  intros Hn.
  destruct (display_decimal_val_digits (Z.abs number) 0 s ltac:(lia))
    as (left & E).
  destruct (display_decimal_val_digits number leading_zeros s Hn)
    as (left' & E').
  rewrite Z.abs_idemp in E.
  replace (Z.abs number <? 0) with false in E
    by (symmetry; apply Z.ltb_ge; lia).
  cbn [andb app] in E.
  rewrite (decimal_val_text_pads (Z.abs number) leading_zeros) in E' by lia.
  exists (decimal_val_text (Z.abs number) 0), left, left'.
  split; [exact E|exact E'].
Qed.

Lemma decimal_val_pads_witness :
  - 2 ^ 31 < -5 < 2 ^ 31
  /\ (exists digits left left',
        display_decimal_val 5 0 (set_uart_tx_full [true] power_on)
        = emit digits left (set_uart_tx_full [true] power_on)
        /\ display_decimal_val (-5) 3 (set_uart_tx_full [true] power_on)
           = emit (replicate (3 - length digits) 48 ++ digits) left'
               (set_uart_tx_full [true] power_on))
  /\ uart_tx (display_decimal_val (-5) 3 (set_uart_tx_full [true] power_on))
     = text "005"
  /\ uart_tx (display_decimal_val (-5) 3 power_on) = text "-005"
  /\ uart_tx (display_decimal_val 5 0 power_on) = text "5".
Proof.
  split; [lia|].
  split; [exact (decimal_val_pads (-5) 3 (set_uart_tx_full [true] power_on)
                   ltac:(lia))|].
  repeat split; reflexivity.
Defined.

(** ** Start-up *)

(** X3. The calibration line of start-up is sent before the baselines are
    loaded: whatever the flash holds, and whether or not the EEPROM
    initialisation succeeds, the banner and the command list are followed
    by [EmptyCal=0,0,0,0,0,0,0,0,0,0,0,0,] and a line end; after a failed
    initialisation the error message follows. *)
Theorem startup_shows_zero_calibration (b : boot) (bytes : list Z) :
  exists s,
    main_startup b (typed bytes power_on)
    = (if eeprom_init_ok b then Returns s else Halted s)
    /\ uart_tx s
       = uart_tx (display_uart_commands (main_banner power_on))
         ++ text "EmptyCal=0,0,0,0,0,0,0,0,0,0,0,0," ++ CRLF
         ++ (if eeprom_init_ok b then []
             else text "Emulated EEPROM Initialization Error " ++ CRLF).
Proof.
  destruct b as [ok fl]. unfold main_startup. cbn [eeprom_init_ok boot_flash].
  destruct ok; cbn [handle_error and_then]; eexists;
    (split; [reflexivity|]); vm_compute; reflexivity.
Qed.

(** After start-up the program halts or is at the head of its loop. *)
Lemma main_startup_cases (b : boot) (s : state) :
  let s0 := display_current_cal_val (display_uart_commands (main_banner s)) in
  main_startup b s
  = if eeprom_init_ok b
    then Returns (main_load_offsets (boot_flash b) s0)
    else Halted (Cy_SCB_UART_PutString
                   (text "Emulated EEPROM Initialization Error " ++ CRLF) s0).
Proof.
  cbv zeta. unfold main_startup, handle_error.
  destruct (eeprom_init_ok b); reflexivity.
Qed.

(** Banner, command list and calibration line only transmit. *)
Lemma before_load_outside s :
  outside_tx (display_current_cal_val (display_uart_commands (main_banner s)))
  = outside_tx s.
Proof. rewrite display_current_cal_val_outside. reflexivity. Qed.

(** X4. When [Cy_Em_EEPROM_Init] fails, [handle_error] never returns: no
    turn of the loop runs, however many are asked for, the baselines are
    still all zero, the EEPROM and the receive FIFO are untouched, and the
    last thing transmitted is the initialisation error message. *)
Theorem startup_init_failure_halts (b : boot) (bytes : list Z) :
  eeprom_init_ok b = false ->
  exists h,
    (forall es, main b bytes es = Halted h)
    /\ sensorEmptyOffset h = replicate LOGICAL_EM_EEPROM_SIZE 0
    /\ eeprom h = eeprom power_on
    /\ uart_rx h = bytes
    /\ exists sent,
         uart_tx h
         = sent ++ text "Emulated EEPROM Initialization Error " ++ CRLF.
Proof.
  intros Hb. unfold main. rewrite main_startup_cases, Hb. cbv zeta.
  pose proof (before_load_outside
                (set_uart_tx_full (boot_tx_full b) (typed bytes power_on)))
    as F.
  revert F.
  generalize (display_current_cal_val
                (display_uart_commands
                   (main_banner
                      (set_uart_tx_full (boot_tx_full b)
                         (typed bytes power_on))))).
  intros s0 F. unfold outside_tx in F.
  injection F as E1 E2 E3 E4 E5 E6 E7 E8 E9 E10 E11 E12 E13 E14 E15 E16.
  eexists. split; [intros es; reflexivity|]. fields.
  split; [exact E7|]. split; [exact E16|]. split; [exact E15|].
  eexists. reflexivity.
Qed.

Lemma startup_init_failure_halts_witness :
  eeprom_init_ok (mkBoot false (fun _ => 0) []) = false
  /\ exists h,
       (forall es, main (mkBoot false (fun _ => 0) []) [] es = Halted h)
       /\ sensorEmptyOffset h = replicate LOGICAL_EM_EEPROM_SIZE 0
       /\ eeprom h = eeprom power_on
       /\ uart_rx h = []
       /\ exists sent,
            uart_tx h
            = sent ++ text "Emulated EEPROM Initialization Error " ++ CRLF.
Proof.
  split; [reflexivity|].
  exact (startup_init_failure_halts (mkBoot false (fun _ => 0) []) [] eq_refl).
Defined.

(** The loading loop assigns the first [NUMSENSORS] baselines and nothing
    else. *)
Lemma load_offsets_prefix fl k s :
  (k <= length (sensorEmptyOffset s))%nat ->
  sensorEmptyOffset (for_range 0 k (load_offset fl) s)
  = map (fun index => int16 (fl index)) (seq 0 k)
    ++ drop k (sensorEmptyOffset s)
  /\ outside_baselines (for_range 0 k (load_offset fl) s)
     = outside_baselines s.
Proof.
  induction k as [|k IH]; intros Hk.
  - split; reflexivity.
  - destruct IH as (Ho & Hf); [lia|].
    rewrite for_range_S. cbn [Nat.add].
    generalize dependent (for_range 0 k (load_offset fl) s). intros u Ho Hf.
    unfold load_offset. split; [|rewrite <- Hf; reflexivity].
    cbn [sensorEmptyOffset set_sensorEmptyOffset]. rewrite Ho.
    rewrite seq_S, map_app, <- app_assoc. cbn [Nat.add map app].
    rewrite insert_app_r_alt by (rewrite length_map, length_seq; lia).
    rewrite length_map, length_seq, Nat.sub_diag.
    destruct (lookup_lt_is_Some_2 (sensorEmptyOffset s) k ltac:(lia))
      as (x & Hx).
    rewrite (drop_S _ _ _ Hx). reflexivity.
Qed.

(** Start-up with a successful EEPROM initialisation returns, having
    loaded the baselines and transmitted; every other variable is as the
    initialisers left it. *)
Lemma main_startup_returns (b : boot) (bytes : list Z) (answers : list bool) :
  eeprom_init_ok b = true ->
  exists s,
    main_startup b (set_uart_tx_full answers (typed bytes power_on))
    = Returns s
    /\ sensorEmptyOffset s
       = map (fun index => int16 (boot_flash b index)) (seq 0 NUMSENSORS)
         ++ replicate (LOGICAL_EM_EEPROM_SIZE - NUMSENSORS) 0
    /\ baseline_ok s
    /\ outside_startup s = outside_startup (typed bytes power_on).
Proof.
  intros Hb. rewrite main_startup_cases, Hb. cbv zeta.
  pose proof (before_load_outside
                (set_uart_tx_full answers (typed bytes power_on))) as F0.
  generalize dependent
    (display_current_cal_val
       (display_uart_commands
          (main_banner (set_uart_tx_full answers (typed bytes power_on))))).
  intros s0 F0. unfold outside_tx in F0.
  injection F0 as E1 E2 E3 E4 E5 E6 E7 E8 E9 E10 E11 E12 E13 E14 E15 E16.
  change (sensorEmptyOffset s0 = replicate LOGICAL_EM_EEPROM_SIZE 0) in E7.
  destruct (load_offsets_prefix (boot_flash b) NUMSENSORS s0) as (Ho & Hf).
  { rewrite E7, length_replicate. unfold NUMSENSORS, LOGICAL_EM_EEPROM_SIZE. lia. }
  pose proof (baseline_ok_load (boot_flash b) s0) as Hbase.
  rewrite E7 in Hbase, Ho. specialize (Hbase eq_refl).
  unfold main_load_offsets in *.
  generalize dependent (for_range 0 NUMSENSORS (load_offset (boot_flash b)) s0).
  intros s Ho Hf Hbase. exists s. split; [reflexivity|].
  split; [exact Ho|]. split; [exact Hbase|].
  unfold outside_baselines in Hf.
  injection Hf as G1 G2 G3 G4 G5 G6 G7 G8 G9 G10 G11 G12 G13 G14 G15 G16.
  unfold outside_startup.
  rewrite G1, G2, G3, G4, G5, G6, G7, G8, G9, G10, G11, G12, G13, G14, G16.
  rewrite E1, E2, E3, E4, E5, E6, E8, E9, E10, E11, E12, E13, E14, E15, E16.
  reflexivity.
Qed.

(** The arrays and the level values when the loop is entered. *)
Lemma loop_entry_settled s bytes :
  length (sensorEmptyOffset s) = LOGICAL_EM_EEPROM_SIZE ->
  outside_startup s = outside_startup (typed bytes power_on) ->
  well_formed s /\ level_settled s.
Proof.
  intros Lo H. unfold outside_startup in H.
  injection H as K1 K2 K3 K4 K5 K6 K7 K8 K9 K10 K11 K12 K13 K14 K15.
  split.
  - split; [rewrite K5|rewrite K6|exact Lo|rewrite K7]; reflexivity.
  - unfold level_settled. rewrite main_level_percent, !main_level_mm.
    rewrite K1, K2, K3, K7. repeat split; reflexivity.
Qed.

(** X5. When [Cy_Em_EEPROM_Init] succeeds, the loop is entered with the
    first [NUMSENSORS] baselines equal to the sign-extended half-words of
    the flash array and the other twenty zero, with arrays of their
    declared lengths, baselines in range, level values that agree with the
    active count, an idle console in BASIC mode with the cursor at 0, and
    the receive FIFO and the EEPROM untouched. *)
Theorem startup_enters_loop (b : boot) (bytes : list Z) :
  eeprom_init_ok b = true ->
  exists s,
    main_startup b (typed bytes power_on) = Returns s
    /\ sensorEmptyOffset s
       = map (fun index => int16 (boot_flash b index)) (seq 0 NUMSENSORS)
         ++ replicate (LOGICAL_EM_EEPROM_SIZE - NUMSENSORS) 0
    /\ well_formed s /\ baseline_ok s /\ level_settled s
    /\ idle_console s /\ uartTxMode s = UART_BASIC /\ sampleIndex s = 0
    /\ uart_rx s = bytes /\ eeprom s = eeprom power_on.
Proof.
  intros Hb.
  destruct (main_startup_returns b bytes [] Hb) as (s & Hrun & Ho & Hbase & Hf).
  exists s. split; [exact Hrun|]. split; [exact Ho|].
  destruct (loop_entry_settled s bytes) as (Hwf & Hl);
    [rewrite Ho; reflexivity|exact Hf|].
  split; [exact Hwf|]. split; [exact Hbase|]. split; [exact Hl|].
  unfold outside_startup in Hf.
  injection Hf as K1 K2 K3 K4 K5 K6 K7 K8 K9 K10 K11 K12 K13 K14 K15.
  split.
  { unfold idle_console. rewrite K4, K9, K10, K11, K12.
    repeat split; reflexivity. }
  rewrite K8, K13, K14, K15. repeat split; reflexivity.
Qed.

Lemma startup_enters_loop_witness :
  eeprom_init_ok (mkBoot true (fun index => 65000 + Z.of_nat index) []) = true
  /\ exists s,
       main_startup (mkBoot true (fun index => 65000 + Z.of_nat index) [])
         (typed [] power_on) = Returns s
       /\ sensorEmptyOffset s !!! 0%nat = -536
       /\ sensorEmptyOffset s !!! 12%nat = 0
       /\ well_formed s /\ baseline_ok s /\ idle_console s.
Proof.
  split; [reflexivity|].
  destruct (startup_enters_loop
              (mkBoot true (fun index => 65000 + Z.of_nat index) []) [] eq_refl)
    as (s & Hrun & Ho & Hwf & Hbase & _ & Hidle & _).
  exists s. split; [exact Hrun|]. rewrite Ho.
  split; [reflexivity|]. split; [reflexivity|]. auto.
Defined.

(** ** The level from turn to turn *)

Lemma weighted_sum_at_most_22 processed :
  0 <= weighted_sum processed NUMSENSORS <= 22.
Proof.
  pose proof (weighted_sum_range processed NUMSENSORS) as Hr.
  pose proof (weighted_sum_step processed 0) as H0.
  pose proof (weighted_sum_range_from processed 1 10) as H1.
  pose proof (weighted_sum_step processed 11) as H11.
  change (weight 0) with 1 in H0. change (weight 11) with 1 in H11.
  change (weighted_sum processed 0) with 0 in H0.
  change (1 + 10)%nat with 11%nat in H1.
  change NUMSENSORS with 12%nat in *. lia.
Qed.

(** The two level values, for a count that fits its [uint8_t]. *)
Lemma main_level_values s :
  in_uint8 (sensorActiveCount s) ->
  levelMm (main_level s)
  = (if 21 <? sensorActiveCount s then 39168 else sensorActiveCount s * 1780)
  /\ levelPercent (main_level s) = levelMm (main_level s) * 100 / 153.
Proof.
  intros Hc. unfold in_uint8 in Hc.
  assert (Hmm : levelMm (main_level s)
                = if 21 <? sensorActiveCount s then 39168
                  else sensorActiveCount s * 1780).
  { rewrite main_level_mm_rule by exact Hc.
    change (Z.shiftl LEVELMM_MAX 8) with 39168.
    change (sensorHeight `quot` 4) with 890.
    change (Z.shiftr sensorHeight 1) with 1780.
    destruct (21 <? sensorActiveCount s) eqn:H21;
      [apply Z.ltb_lt in H21|apply Z.ltb_ge in H21];
      destruct (39168 - 890 <? sensorActiveCount s * 1780) eqn:Hs;
      [apply Z.ltb_lt in Hs|apply Z.ltb_ge in Hs
      |apply Z.ltb_lt in Hs|apply Z.ltb_ge in Hs]; lia. }
  split; [exact Hmm|].
  rewrite main_level_percent. revert Hmm.
  generalize (levelMm (main_level s)). intros mm Hmm.
  assert (Hr : 0 <= mm <= 39168).
  { rewrite Hmm. destruct (21 <? sensorActiveCount s) eqn:H21;
      [|apply Z.ltb_ge in H21]; lia. }
  rewrite (wrap32_small (mm * 100)) by (unfold in_int32; lia).
  unfold uint32. rewrite Z.mod_small by lia.
  change LEVELMM_MAX with 153. rewrite Z.quot_div_nonneg by lia.
  apply wrap32_small. unfold in_int32.
  pose proof (Z.div_le_upper_bound (mm * 100) 153 25600 ltac:(lia) ltac:(lia)).
  pose proof (Z.div_pos (mm * 100) 153 ltac:(lia) ltac:(lia)). lia.
Qed.

Lemma well_formed_pipeline c : well_formed c -> well_formed (main_pipeline c).
Proof.
  intros [Lr Ld Lo Lp].
  destruct (main_pipeline_spec c Ld Lp) as (Ld' & Lp' & _).
  pose proof (main_pipeline_outside c) as F. revert Ld' Lp' F.
  generalize (main_pipeline c). intros u Ld' Lp' F.
  split; [|exact Ld'| |exact Lp'].
  - replace (sensorRaw u) with (sensorRaw c) by frame. exact Lr.
  - replace (sensorEmptyOffset u) with (sensorEmptyOffset c) by frame.
    exact Lo.
Qed.

(** What the block run on a complete scan has done when it returns: the
    counts are read, a requested calibration is saved, and the
    normalisation loop has run on the result. *)
Lemma scan_complete_shape e s u :
  well_formed s -> main_scan_complete e s = Returns u ->
  exists c,
    u = main_pipeline c /\ well_formed c
    /\ (forall i, (i < NUMSENSORS)%nat ->
          sensorRaw c !!! i = raw_count e i
          /\ sensorDiff c !!! i = raw_count e i)
    /\ (cal_flag s <> TRUE ->
        sensorEmptyOffset c = sensorEmptyOffset s /\ eeprom c = eeprom s
        /\ uart_tx c = uart_tx s)
    /\ (cal_flag s = TRUE ->
        eeprom_write_ok e = true
        /\ (forall i, (i < NUMSENSORS)%nat ->
              sensorEmptyOffset c !!! i = raw_count e i)
        /\ eeprom c = take LOGICAL_EM_EEPROM_SIZE
                        (concat (map bytes_of_int32 (sensorEmptyOffset c)))).
Proof.
  intros [Lr Ld Lo Lp].
  destruct (main_read_counts_spec e s Lr Ld) as (Lr1 & Ld1 & R1).
  pose proof (main_read_counts_outside e s) as F1.
  destruct (decide (cal_flag s = TRUE)) as [Hcal|Hcal].
  - rewrite (main_scan_complete_cal e s Hcal).
    generalize dependent (main_read_counts e s). intros s1 Lr1 Ld1 R1 F1.
    destruct (store_calibration_spec (eeprom_write_ok e)
                (set_cal_flag FALSE s1)) as (c & -> & Fc & Lc & Ec & Ee);
      [frame|].
    destruct (eeprom_write_ok e); cbn [and_then]; [|discriminate].
    intros H. injection H as <-. exists c.
    split; [reflexivity|].
    split; [split; [frame|frame|exact Lc|frame]|].
    assert (Rc : sensorRaw c = sensorRaw s1) by frame.
    assert (Dc : sensorDiff c = sensorDiff s1) by frame.
    split; [intros i Hi; rewrite Rc, Dc; apply R1, Hi|].
    split; [intros Hn; contradiction|]. intros _.
    split; [reflexivity|]. split; [|exact Ee].
    intros i Hi. rewrite (Ec i Hi). fields. apply R1, Hi.
  - rewrite (main_scan_complete_plain e s Hcal).
    generalize dependent (main_read_counts e s). intros s1 Lr1 Ld1 R1 F1.
    intros H. injection H as <-. exists s1.
    split; [reflexivity|].
    split; [split; [exact Lr1|exact Ld1|frame|frame]|].
    split; [exact R1|].
    split; [intros _; repeat split; frame|]. intros Hc. contradiction.
Qed.

(** A turn of the loop that returns went through [main_level] and the
    console, which leaves the sensor side alone. *)
Lemma turn_sensing e s s' :
  main_loop_body e s = Returns s' ->
  exists u,
    (if capsense_busy e then Returns s else main_scan_complete e s) = Returns u
    /\ sensors s' = sensors (main_level u).
Proof.
  unfold main_loop_body.
  destruct (if capsense_busy e then Returns s else main_scan_complete e s)
    as [u|u|i u]; cbn [and_then]; try discriminate.
  intros H. exists u. split; [reflexivity|].
  apply display_cur_liquid_level_sensors, H.
Qed.

Lemma level_settled_turn e s s' :
  well_formed s -> level_settled s -> main_loop_body e s = Returns s' ->
  well_formed s' /\ level_settled s'.
Proof.
  intros Hwf (Hcount & _) Hrun.
  destruct (turn_sensing e s s' Hrun) as (u & Hu & Hs).
  assert (Hu' : well_formed u
                /\ sensorActiveCount u
                   = weighted_sum (sensorProcessed u) NUMSENSORS).
  { destruct (capsense_busy e).
    - injection Hu as <-. split; assumption.
    - destruct (scan_complete_shape e s u Hwf Hu) as (c & -> & Hc & _).
      split; [apply well_formed_pipeline, Hc|].
      destruct Hc as [_ Ld _ Lp].
      destruct (main_pipeline_spec c Ld Lp) as (_ & _ & _ & Ea). exact Ea. }
  clear Hu Hrun Hwf Hcount. destruct Hu' as ([Lr Ld Lo Lp] & Hc).
  pose proof (main_level_outside u) as Fl.
  pose proof (main_level_mm u) as Hmm. pose proof (main_level_percent u) as Hpc.
  cbv zeta in Hmm.
  pose proof (main_level_mm s') as Hmm'.
  pose proof (main_level_percent s') as Hpc'. rewrite Hmm' in Hpc'.
  cbv zeta in Hmm', Hpc'.
  rewrite Hmm in Hpc.
  generalize dependent (main_level u). intros v Hs Fl Hmm Hpc.
  unfold sensors, outside_level in *.
  injection Hs as S1 S2 S3 S4 S5 S6 S7 S8.
  injection Fl as F1 F2 F3 F4 F5 F6 F7 F8 F9 F10 F11 F12 F13 F14 F15.
  split.
  - split; congruence.
  - unfold level_settled. rewrite Hmm', Hpc', S1, S2, S3, S7, F1, F6.
    split; [exact Hc|]. split; [exact Hmm|exact Hpc].
Qed.

Lemma level_settled_loop es : forall s s',
  well_formed s -> level_settled s -> main_loop es s = Returns s' ->
  well_formed s' /\ level_settled s'.
Proof.
  induction es as [|e es IH]; intros s s' Hwf Hl Hrun.
  - injection Hrun as <-. split; assumption.
  - cbn [main_loop] in Hrun.
    destruct (main_loop_body e s) as [t|t|i t] eqn:Ht; cbn [and_then] in Hrun;
      try discriminate.
    destruct (level_settled_turn e s t Hwf Hl Ht) as (Hwf' & Hl').
    exact (IH t s' Hwf' Hl' Hrun).
Qed.

(** X6. At the head of every turn of the loop, from reset on and whatever
    is typed and sensed, the active count is between 0 and 22, the height
    is the count times half a slot height, or the maximum when the count is
    22, the percentage is the height times 100 over [LEVELMM_MAX], and both
    stay within 0 to 153.0 mm and 0 to 100.0 percent. *)
Theorem level_in_range_every_turn
  (b : boot) (bytes : list Z) (es : list env) (s : state) :
  main b bytes es = Returns s ->
  0 <= sensorActiveCount s <= 22
  /\ levelMm s
     = (if sensorActiveCount s =? 22 then Z.shiftl LEVELMM_MAX 8
        else sensorActiveCount s * Z.shiftr sensorHeight 1)
  /\ levelPercent s = levelMm s * 100 / LEVELMM_MAX
  /\ 0 <= levelMm s <= Z.shiftl LEVELMM_MAX 8
  /\ 0 <= levelPercent s <= Z.shiftl 100 8.
Proof.
  unfold main. intros Hrun.
  destruct (eeprom_init_ok b) eqn:Hb.
  - destruct (main_startup_returns b bytes (boot_tx_full b) Hb)
      as (s0 & Hs0 & Ho & _ & Hf).
    destruct (loop_entry_settled s0 bytes) as (Hwf & Hl);
      [rewrite Ho; reflexivity|exact Hf|].
    rewrite Hs0 in Hrun. cbn [and_then] in Hrun.
    destruct (level_settled_loop es s0 s Hwf Hl Hrun)
      as (_ & Hc & Hmm & Hpc).
    pose proof (weighted_sum_at_most_22 (sensorProcessed s)) as Hr.
    rewrite <- Hc in Hr.
    destruct (main_level_values s) as (Vmm & Vpc); [unfold in_uint8; lia|].
    rewrite <- Hmm in Vmm, Vpc. rewrite <- Hpc in Vpc.
    change (Z.shiftl LEVELMM_MAX 8) with 39168.
    change (Z.shiftr sensorHeight 1) with 1780.
    change (Z.shiftl 100 8) with 25600. change LEVELMM_MAX with 153.
    split; [exact Hr|].
    assert (Hmm2 : levelMm s = if sensorActiveCount s =? 22 then 39168
                               else sensorActiveCount s * 1780).
    { rewrite Vmm. destruct (21 <? sensorActiveCount s) eqn:H21;
        [apply Z.ltb_lt in H21|apply Z.ltb_ge in H21];
        destruct (sensorActiveCount s =? 22) eqn:H22;
        [apply Z.eqb_eq in H22|apply Z.eqb_neq in H22
        |apply Z.eqb_eq in H22|apply Z.eqb_neq in H22]; lia. }
    split; [exact Hmm2|]. split; [exact Vpc|].
    assert (Hrange : 0 <= levelMm s <= 39168).
    { rewrite Hmm2. destruct (sensorActiveCount s =? 22) eqn:H22;
        [|apply Z.eqb_neq in H22]; lia. }
    split; [exact Hrange|]. rewrite Vpc.
    pose proof (Z.div_le_upper_bound (levelMm s * 100) 153 25600
                  ltac:(lia) ltac:(lia)).
    pose proof (Z.div_pos (levelMm s * 100) 153 ltac:(lia) ltac:(lia)). lia.
  - exfalso. rewrite main_startup_cases, Hb in Hrun. discriminate Hrun.
Qed.

Lemma level_in_range_every_turn_witness :
  exists s,
    main (mkBoot true (fun _ => 0) [true; false]) [] [sample_scan] = Returns s
    /\ 0 <= sensorActiveCount s <= 22
    /\ levelMm s
       = (if sensorActiveCount s =? 22 then Z.shiftl LEVELMM_MAX 8
          else sensorActiveCount s * Z.shiftr sensorHeight 1)
    /\ levelPercent s = levelMm s * 100 / LEVELMM_MAX
    /\ 0 <= levelMm s <= Z.shiftl LEVELMM_MAX 8
    /\ 0 <= levelPercent s <= Z.shiftl 100 8.
Proof.
  destruct (main (mkBoot true (fun _ => 0) [true; false]) [] [sample_scan])
    as [s|s|i s] eqn:E;
    [|vm_compute in E; discriminate E|vm_compute in E; discriminate E].
  exists s. split; [reflexivity|].
  exact (level_in_range_every_turn _ _ _ _ E).
Defined.

(** X7. For every count that fits its [uint8_t], the level computation
    yields a height between 0 and 153.0 mm and a percentage between 0 and
    100.0, neither of which decreases when the count grows, and the
    percentage is 100.0 exactly for counts of 22 and more. *)
Theorem main_level_bounded_monotone (s t : state) :
  in_uint8 (sensorActiveCount s) -> in_uint8 (sensorActiveCount t) ->
  sensorActiveCount s <= sensorActiveCount t ->
  0 <= levelMm (main_level s) <= levelMm (main_level t)
  /\ levelMm (main_level t) <= Z.shiftl LEVELMM_MAX 8
  /\ 0 <= levelPercent (main_level s) <= levelPercent (main_level t)
  /\ levelPercent (main_level t) <= Z.shiftl 100 8
  /\ (levelPercent (main_level t) = Z.shiftl 100 8
      <-> 22 <= sensorActiveCount t).
Proof.
  intros Hs Ht Hle.
  destruct (main_level_values s Hs) as (Ms & Ps).
  destruct (main_level_values t Ht) as (Mt & Pt).
  unfold in_uint8 in *.
  change (Z.shiftl LEVELMM_MAX 8) with 39168.
  change (Z.shiftl 100 8) with 25600.
  assert (Hmm : 0 <= levelMm (main_level s) <= levelMm (main_level t)
                /\ levelMm (main_level t) <= 39168
                /\ (22 <= sensorActiveCount t -> levelMm (main_level t) = 39168)
                /\ (sensorActiveCount t < 22 -> levelMm (main_level t) <= 37380)).
  { rewrite Ms, Mt.
    destruct (21 <? sensorActiveCount s) eqn:H1;
      [apply Z.ltb_lt in H1|apply Z.ltb_ge in H1];
      destruct (21 <? sensorActiveCount t) eqn:H2;
      [apply Z.ltb_lt in H2|apply Z.ltb_ge in H2
      |apply Z.ltb_lt in H2|apply Z.ltb_ge in H2]; lia. }
  destruct Hmm as (Hm1 & Hm2 & Hm3 & Hm4).
  split; [exact Hm1|]. split; [exact Hm2|].
  rewrite Ps, Pt. revert Hm1 Hm2 Hm3 Hm4.
  generalize (levelMm (main_level s)) (levelMm (main_level t)).
  intros a c Hm1 Hm2 Hm3 Hm4.
  pose proof (Z.div_pos (a * 100) 153 ltac:(lia) ltac:(lia)).
  pose proof (Z.div_le_mono (a * 100) (c * 100) 153 ltac:(lia) ltac:(lia)).
  pose proof (Z.div_le_upper_bound (c * 100) 153 25600 ltac:(lia) ltac:(lia)).
  split; [lia|]. split; [lia|]. split.
  - intros E. destruct (Z_lt_le_dec (sensorActiveCount t) 22) as [Hlt|Hge];
      [|exact Hge].
    exfalso. specialize (Hm4 Hlt).
    pose proof (Z.div_le_mono (c * 100) 3738000 153 ltac:(lia) ltac:(lia))
      as Hd.
    change (3738000 / 153) with 24431 in Hd. lia.
  - intros Hge. rewrite (Hm3 Hge). reflexivity.
Qed.

Lemma main_level_bounded_monotone_witness :
  in_uint8 (sensorActiveCount (set_sensorActiveCount 7 power_on))
  /\ in_uint8 (sensorActiveCount (set_sensorActiveCount 200 power_on))
  /\ 0 <= levelMm (main_level (set_sensorActiveCount 7 power_on))
       <= levelMm (main_level (set_sensorActiveCount 200 power_on))
  /\ levelPercent (main_level (set_sensorActiveCount 200 power_on))
     = Z.shiftl 100 8.
Proof.
  assert (H7 : in_uint8 (sensorActiveCount (set_sensorActiveCount 7 power_on)))
    by (unfold in_uint8; cbn; lia).
  assert (H200 : in_uint8
                   (sensorActiveCount (set_sensorActiveCount 200 power_on)))
    by (unfold in_uint8; cbn; lia).
  destruct (main_level_bounded_monotone
              (set_sensorActiveCount 7 power_on)
              (set_sensorActiveCount 200 power_on) H7 H200)
    as (Hmm & _ & _ & _ & Hfull); [cbn; lia|].
  split; [exact H7|]. split; [exact H200|]. split; [exact Hmm|].
  apply Hfull. cbn. lia.
Defined.

(** ** The processed values *)

Lemma middle_scale_is_one i :
  (1 <= i <= 10)%nat -> sensorScale !!! i = 256.
Proof.
  intros Hi. do 11 (destruct i as [|i]; [first [lia|reflexivity]|]). lia.
Qed.

(** X8. With 16-bit counts and baselines in range, neither the subtraction
    nor the scaling of the normalisation loop overflows: when the block run
    on a complete scan returns, every processed value is the difference
    count times the scale factor of its sensor divided by 256, rounded
    down; both are non-negative, the difference is below [2 ^ 17], and for
    sensors 1 to 10, whose scale is 1.0, the processed value is the
    difference count itself. *)
Theorem processed_is_scaled_diff (e : env) (s s' : state) :
  well_formed s -> counts_ok e -> baseline_ok s ->
  main_scan_complete e s = Returns s' ->
  forall i, (i < NUMSENSORS)%nat ->
    sensorProcessed s' !!! i
    = sensorDiff s' !!! i * sensorScale !!! i / 256
    /\ 0 <= sensorProcessed s' !!! i
    /\ 0 <= sensorDiff s' !!! i < 2 ^ 17
    /\ ((1 <= i <= 10)%nat -> sensorProcessed s' !!! i = sensorDiff s' !!! i).
Proof.
  intros Hwf Hc Hb Hrun i Hi.
  destruct (scan_complete_shape e s s' Hwf Hrun)
    as (c & -> & [_ Ld _ Lp] & Hraw & Hplain & Hcal).
  destruct (main_pipeline_spec c Ld Lp) as (_ & _ & Ep & _).
  destruct (Ep i Hi) as (-> & ->). clear Ep.
  destruct (Hraw i Hi) as (_ & Hd).
  specialize (Hc i Hi). unfold in_uint16 in Hc.
  assert (Ho : - 2 ^ 15 <= sensorEmptyOffset c !!! i < 2 ^ 16).
  { destruct (decide (cal_flag s = TRUE)) as [Hf|Hf].
    - destruct (Hcal Hf) as (_ & Eo & _). rewrite (Eo i Hi). lia.
    - destruct (Hplain Hf) as (-> & _). apply Hb, Hi. }
  assert (Hdiff : diff_of c i
                  = Z.max 0 (sensorDiff c !!! i - sensorEmptyOffset c !!! i)).
  { apply diff_of_floor. unfold in_int32. lia. }
  unfold processed_of. rewrite Hdiff, Hd.
  generalize dependent (sensorEmptyOffset c !!! i). intros o Ho.
  generalize dependent (raw_count e i). intros r Hr _.
  pose proof (scale_range i) as Hs.
  assert (Hm : 0 <= Z.max 0 (r - o) < 2 ^ 17) by lia.
  generalize dependent (Z.max 0 (r - o)). intros d Hm.
  rewrite wrap32_small by (unfold in_int32; nia).
  rewrite Z.shiftr_div_pow2 by lia. change (2 ^ 8) with 256.
  split; [reflexivity|]. split; [apply Z.div_pos; nia|].
  split; [exact Hm|]. intros Hmid.
  rewrite (middle_scale_is_one i Hmid). apply Z.div_mul. lia.
Qed.

Lemma processed_is_scaled_diff_witness :
  well_formed power_on /\ counts_ok sample_scan /\ baseline_ok power_on
  /\ exists s',
       main_scan_complete sample_scan power_on = Returns s'
       /\ sensorProcessed s' !!! 0%nat
          = sensorDiff s' !!! 0%nat * sensorScale !!! 0%nat / 256
       /\ sensorProcessed s' !!! 5%nat = sensorDiff s' !!! 5%nat.
Proof.
  split; [exact power_on_well_formed|]. split; [exact sample_scan_counts_ok|].
  split; [exact power_on_baseline_ok|].
  destruct (main_scan_complete sample_scan power_on) as [s'|s'|i s'] eqn:E;
    [|vm_compute in E; discriminate E|vm_compute in E; discriminate E].
  exists s'. split; [reflexivity|].
  pose proof (processed_is_scaled_diff sample_scan power_on s'
                power_on_well_formed sample_scan_counts_ok
                power_on_baseline_ok E) as H.
  split.
  - apply (H 0%nat). unfold NUMSENSORS. lia.
  - apply (H 5%nat); [unfold NUMSENSORS; lia|lia].
Defined.

(** ** The EEPROM image *)

Lemma take_words k : forall l,
  take (4 * k) (concat (map bytes_of_int32 l))
  = concat (map bytes_of_int32 (take k l)).
Proof.
  induction k as [|k IH]; intros l; [reflexivity|].
  destruct l as [|w l]; [reflexivity|].
  replace (4 * S k)%nat with (S (S (S (S (4 * k))))) by lia.
  cbn [map concat take]. unfold bytes_of_int32 at 1 3. cbn [app take].
  rewrite IH. reflexivity.
Qed.

Lemma length_words l :
  length (concat (map bytes_of_int32 l)) = (4 * length l)%nat.
Proof.
  induction l as [|w l IH]; [reflexivity|].
  cbn [map concat]. rewrite length_app, IH. cbn [length bytes_of_int32]. lia.
Qed.

(** X9. [store_calibration] copies the readings of all twelve sensors
    into [sensorEmptyOffset], but the [LOGICAL_EM_EEPROM_SIZE = 32] bytes it
    hands to [Cy_Em_EEPROM_Write] are the little-endian bytes of the first
    eight only: the baselines of sensors 8 to 11 are not part of the
    image. *)
Theorem calibration_image_is_first_eight (s c : state) :
  well_formed s -> store_calibration true s = Returns c ->
  (forall i, (i < NUMSENSORS)%nat ->
     sensorEmptyOffset c !!! i = sensorDiff s !!! i)
  /\ eeprom c = concat (map bytes_of_int32 (take 8 (sensorDiff s)))
  /\ length (eeprom c) = LOGICAL_EM_EEPROM_SIZE.
Proof.
  intros [_ Ld Lo _] Hrun.
  destruct (store_calibration_spec true s Lo) as (c' & Hc & _ & Lc & Ec & Ee).
  rewrite Hrun in Hc. injection Hc as <-.
  split; [exact Ec|].
  assert (Himage : eeprom c
                   = concat (map bytes_of_int32 (take 8 (sensorDiff s)))).
  { rewrite Ee. change LOGICAL_EM_EEPROM_SIZE with (4 * 8)%nat.
    rewrite take_words. f_equal. f_equal.
    unfold NUMSENSORS, LOGICAL_EM_EEPROM_SIZE in *.
    apply list_eq. intros i. destruct (decide (i < 8)%nat) as [Hi|Hi].
    - rewrite !lookup_take_lt by lia.
      rewrite (list_lookup_lookup_total_lt (sensorEmptyOffset c) i) by lia.
      rewrite (list_lookup_lookup_total_lt (sensorDiff s) i) by lia.
      f_equal. apply Ec. lia.
    - rewrite !lookup_take_ge by lia. reflexivity. }
  split; [exact Himage|].
  rewrite Himage, length_words, length_take. unfold NUMSENSORS in Ld.
  rewrite Ld. reflexivity.
Qed.

Lemma calibration_image_is_first_eight_witness :
  well_formed (main_read_counts sample_scan power_on)
  /\ exists c,
       store_calibration true (main_read_counts sample_scan power_on)
       = Returns c
       /\ sensorEmptyOffset c !!! 11%nat = 1000
       /\ eeprom c = concat (replicate 8 [232; 3; 0; 0])
       /\ length (eeprom c) = 32%nat.
Proof.
  assert (Hwf : well_formed (main_read_counts sample_scan power_on))
    by (split; reflexivity).
  split; [exact Hwf|].
  destruct (store_calibration true (main_read_counts sample_scan power_on))
    as [c|c|i c] eqn:E;
    [|vm_compute in E; discriminate E|vm_compute in E; discriminate E].
  exists c. split; [reflexivity|].
  destruct (calibration_image_is_first_eight _ c Hwf E) as (Ho & Hi & Hl).
  split; [rewrite Ho by (unfold NUMSENSORS; lia); reflexivity|].
  split; [rewrite Hi; reflexivity|exact Hl].
Defined.

(** ** One turn, seen at the console *)

Lemma console_store_keeps i v c c' :
  console_store i v c = ConReturns c' ->
  c' = set_con_buffer (<[Z.to_nat i := v]> (con_buffer c)) c
  /\ 0 <= i < RX_CAPACITY.
Proof.
  unfold console_store.
  destruct ((0 <=? i) && (i <? RX_CAPACITY)) eqn:Hi; [|discriminate].
  intros H. injection H as <-. split; [reflexivity|].
  apply andb_true_iff in Hi. destruct Hi as [H0 H1].
  apply Z.leb_le in H0. apply Z.ltb_lt in H1. lia.
Qed.

(** A command changes one of four fields, to one of a few values. *)
Lemma console_command_cases c :
  let c' := console_command c in
  con_index c' = con_index c /\ con_buffer c' = con_buffer c
  /\ con_cursor c' = con_cursor c /\ con_rx c' = con_rx c
  /\ (con_cal c' = con_cal c \/ con_cal c' = TRUE)
  /\ (con_store c' = con_store c \/ con_store c' = TRUE)
  /\ (con_reset c' = con_reset c \/ con_reset c' = TRUE)
  /\ (con_mode c' = con_mode c \/ con_mode c' = UART_NONE
      \/ con_mode c' = UART_CSVINIT \/ con_mode c' = UART_BASIC).
Proof.
  cbv zeta. unfold console_command.
  repeat match goal with
         | |- context [strcmp_eq ?a ?b] => destruct (strcmp_eq a b)
         end; cbn; tauto.
Qed.

(** What a call of [receive_uart_cmd] that returns has done, seen at the
    console: nothing, or one byte taken and dropped, kept, or read as the
    end of a line. *)
Lemma console_receive_cases c c' :
  console_receive c = ConReturns c' ->
  con_cursor c' = con_cursor c
  /\ con_rx c' = tail (con_rx c)
  /\ (con_cal c' = con_cal c \/ con_cal c' = TRUE)
  /\ (con_store c' = con_store c \/ con_store c' = TRUE)
  /\ (con_reset c' = con_reset c \/ con_reset c' = TRUE)
  /\ (con_mode c' = con_mode c \/ con_mode c' = UART_NONE
      \/ con_mode c' = UART_CSVINIT \/ con_mode c' = UART_BASIC).
Proof.
  assert (Hend : forall b c1 c2,
            (if (b =? 13) || (b =? 10)
             then con_then (console_store (con_index c1) 0 c1)
                    (fun c =>
                       let c := console_command c in
                       let c := set_con_index 0 c in
                       ConReturns
                         (set_con_buffer
                            (memset0 (con_buffer c) (strlen (con_buffer c))) c))
             else ConReturns c1) = ConReturns c2 ->
            con_cursor c2 = con_cursor c1 /\ con_rx c2 = con_rx c1
            /\ (con_cal c2 = con_cal c1 \/ con_cal c2 = TRUE)
            /\ (con_store c2 = con_store c1 \/ con_store c2 = TRUE)
            /\ (con_reset c2 = con_reset c1 \/ con_reset c2 = TRUE)
            /\ (con_mode c2 = con_mode c1 \/ con_mode c2 = UART_NONE
                \/ con_mode c2 = UART_CSVINIT \/ con_mode c2 = UART_BASIC)).
  { intros b c1 c2. destruct ((b =? 13) || (b =? 10)).
    - destruct (console_store (con_index c1) 0 c1) as [c3| |] eqn:E;
        cbn [con_then]; try discriminate.
      apply console_store_keeps in E. destruct E as (-> & _).
      cbv zeta. intros H. injection H as <-.
      match goal with
      | |- context [console_command ?x] =>
          pose proof (console_command_cases x) as Hcmd;
          cbv zeta in Hcmd; revert Hcmd;
          generalize (console_command x)
      end.
      intros c3 (_ & _ & K3 & X3 & C3 & S3 & R3 & M3). cbn in *. tauto.
    - intros H. injection H as <-. tauto. }
  unfold console_receive. destruct (con_rx c) as [|b rest] eqn:Hrx.
  { intros H. injection H as <-. cbn. tauto. }
  cbv zeta. cbn [tail]. destruct (48 <? b).
  - destruct (console_store (con_index (set_con_rx rest c)) (uint8 b)
                (set_con_rx rest c)) as [c1| |] eqn:E;
      cbn [con_then]; try discriminate.
    apply console_store_keeps in E. destruct E as (-> & _).
    intros H. apply Hend in H. cbn in H. exact H.
  - cbn [con_then]. intros H. apply Hend in H. cbn in H. exact H.
Qed.

Lemma console_next_level_cases c :
  let c' := console_next_level c in
  con_cal c' = con_cal c /\ con_rx c' = con_rx c
  /\ con_index c' = con_index c /\ con_buffer c' = con_buffer c
  /\ (con_mode c' = con_mode c \/ con_mode c' = UART_NONE)
  /\ (con_store c = FALSE \/ con_store c = TRUE ->
      con_reset c = FALSE \/ con_reset c = TRUE ->
      con_store c' = FALSE /\ con_reset c' = FALSE)
  /\ (0 <= con_cursor c <= NUM_SAMPLES - 1 ->
      0 <= con_cursor c' <= NUM_SAMPLES - 1).
Proof.
  cbv zeta. unfold console_next_level, NUM_SAMPLES, uint16.
  destruct c as [m st rs cl ix buf cur rx]. cbn [con_store con_reset].
  destruct (st =? TRUE) eqn:Hs; cbn;
    [destruct (20 <=? (cur + 1) mod 2 ^ 16) eqn:Hk; cbn|];
    destruct (rs =? TRUE) eqn:Hr; cbn;
    repeat match goal with
           | H : (_ =? _) = true |- _ => apply Z.eqb_eq in H
           | H : (_ =? _) = false |- _ => apply Z.eqb_neq in H
           | H : (_ <=? _) = true |- _ => apply Z.leb_le in H
           | H : (_ <=? _) = false |- _ => apply Z.leb_gt in H
           end;
    unfold TRUE, FALSE in *;
    (repeat split; try tauto; try lia;
     try (intros; rewrite Z.mod_small in * by lia; lia)).
Qed.

Lemma console_display_mode_cases c :
  let c' := console_display_mode c in
  con_cal c' = con_cal c /\ con_rx c' = con_rx c
  /\ con_index c' = con_index c /\ con_buffer c' = con_buffer c
  /\ con_store c' = con_store c /\ con_reset c' = con_reset c
  /\ con_cursor c' = con_cursor c
  /\ (con_mode c' = con_mode c \/ con_mode c' = UART_CSV).
Proof.
  cbv zeta. unfold console_display_mode. destruct c as [m st rs cl ix buf cur rx].
  cbn. repeat split.
  destruct (m =? UART_BASIC); [tauto|].
  destruct ((m =? UART_CSVINIT) || (m =? UART_CSV)); [|tauto].
  destruct (m =? UART_CSVINIT); tauto.
Qed.

Lemma console_scan_cases e c c' :
  console_scan e c = ConReturns c' ->
  c' = c
  \/ (c' = set_con_cal FALSE c /\ con_cal c = TRUE /\ capsense_busy e = false).
Proof.
  unfold console_scan. destruct (con_cal c =? TRUE) eqn:Hc.
  - apply Z.eqb_eq in Hc. destruct (capsense_busy e).
    + intros H. injection H as <-. tauto.
    + destruct (eeprom_write_ok e); [|discriminate].
      intros H. injection H as <-. tauto.
  - intros H. injection H as <-. tauto.
Qed.

Lemma refines_of_returns s' co :
  refines (Returns s') co -> co = ConReturns (console_of s').
Proof.
  destruct co as [c| |]; cbn; [intros ->; reflexivity|contradiction..].
Qed.

(** One turn of the loop, seen at the console. *)
Lemma console_cycle_cases e c c' :
  console_cycle e c = ConReturns c' ->
  con_rx c' = tail (con_rx c)
  /\ (con_cal c = TRUE -> capsense_busy e = true -> con_cal c' = TRUE)
  /\ (con_cal c = FALSE \/ con_cal c = TRUE ->
      con_cal c' = FALSE \/ con_cal c' = TRUE)
  /\ (con_store c = FALSE -> con_reset c = FALSE ->
      con_store c' = FALSE /\ con_reset c' = FALSE)
  /\ (0 <= con_cursor c <= NUM_SAMPLES - 1 ->
      0 <= con_cursor c' <= NUM_SAMPLES - 1)
  /\ (con_mode c' = con_mode c \/ con_mode c' = UART_NONE
      \/ con_mode c' = UART_BASIC \/ con_mode c' = UART_CSVINIT
      \/ con_mode c' = UART_CSV).
Proof.
  unfold console_cycle, console_render.
  destruct (console_scan e c) as [c1| |] eqn:E1; cbn [con_then];
    try discriminate.
  apply console_scan_cases in E1.
  pose proof (console_display_mode_cases c1) as E2. cbv zeta in E2.
  revert E2. generalize (console_display_mode c1). intros c2 E2.
  destruct (console_receive c2) as [c3| |] eqn:E3; cbn [con_then];
    try discriminate.
  apply console_receive_cases in E3.
  pose proof (console_next_level_cases c3) as E4. cbv zeta in E4.
  intros H. injection H as <-.
  revert E4. generalize (console_next_level c3). intros c4 E4.
  destruct E2 as (A1 & A2 & A3 & A4 & A5 & A6 & A7 & A8).
  destruct E3 as (B1 & B2 & B3 & B4 & B5 & B6).
  destruct E4 as (C1 & C2 & C3 & C4 & C5 & C6 & C7).
  assert (H1 : con_rx c1 = con_rx c /\ con_store c1 = con_store c
               /\ con_reset c1 = con_reset c /\ con_cursor c1 = con_cursor c
               /\ con_mode c1 = con_mode c
               /\ (con_cal c1 = con_cal c \/ con_cal c1 = FALSE)
               /\ (capsense_busy e = true -> con_cal c1 = con_cal c)).
  { destruct E1 as [->|(-> & _ & Hb)]; cbn; repeat split; auto.
    rewrite Hb. discriminate. }
  destruct H1 as (D1 & D2 & D3 & D4 & D5 & D6 & D7).
  split; [rewrite C2, B2, A2, D1; reflexivity|].
  split.
  { intros Hc Hb. specialize (D7 Hb). rewrite C1.
    destruct B3 as [B3|B3]; [|exact B3]. rewrite B3, A1, D7. exact Hc. }
  split.
  { intros Hc. rewrite C1.
    destruct B3 as [B3|B3]; [|right; exact B3]. rewrite B3, A1.
    destruct D6 as [D6|D6]; [rewrite D6; exact Hc|left; exact D6]. }
  split.
  { intros Hs Hr. apply C6.
    - destruct B4 as [B4|B4]; [left; rewrite B4, A5, D2; exact Hs
                              |right; exact B4].
    - destruct B5 as [B5|B5]; [left; rewrite B5, A6, D3; exact Hr
                              |right; exact B5]. }
  split; [intros Hk; apply C7; rewrite B1, A7, D4; exact Hk|].
  destruct C5 as [C5|C5]; [|right; left; exact C5]. rewrite C5.
  destruct B6 as [B6|[B6|[B6|B6]]];
    [|right; left; exact B6|right; right; right; left; exact B6
     |right; right; left; exact B6].
  rewrite B6.
  destruct A8 as [A8|A8]; [left; rewrite A8; exact D5
                          |right; right; right; right; exact A8].
Qed.

Lemma turn_console e s s' :
  main_loop_body e s = Returns s' ->
  console_cycle e (console_of s) = ConReturns (console_of s').
Proof.
  intros H. apply refines_of_returns. rewrite <- H.
  apply main_loop_body_refines.
Qed.

(** X10. Every turn of the loop that returns takes exactly one byte from
    the receive FIFO when there is one: after [n] turns the first [n] bytes
    are gone and the rest is untouched. *)
Theorem one_byte_per_turn (es : list env) : forall (s s' : state),
  main_loop es s = Returns s' ->
  uart_rx s' = drop (length es) (uart_rx s).
Proof.
  induction es as [|e es IH]; intros s s' Hrun.
  - injection Hrun as <-. reflexivity.
  - cbn [main_loop] in Hrun.
    destruct (main_loop_body e s) as [t|t|i t] eqn:Ht; cbn [and_then] in Hrun;
      try discriminate.
    apply turn_console, console_cycle_cases in Ht. destruct Ht as (Hrx & _).
    cbn [console_of con_rx] in Hrx.
    rewrite (IH t s' Hrun), Hrx. cbn [length].
    destruct (uart_rx s) as [|b rest]; [cbn [tail]; rewrite drop_nil|];
      reflexivity.
Qed.

Lemma one_byte_per_turn_witness :
  exists s',
    main_loop [sample_scan; sample_busy] (typed (text "csv") power_on)
    = Returns s'
    /\ uart_rx s' = text "v".
Proof.
  destruct (main_loop [sample_scan; sample_busy] (typed (text "csv") power_on))
    as [s'|s'|i s'] eqn:E;
    [|vm_compute in E; discriminate E|vm_compute in E; discriminate E].
  exists s'. split; [reflexivity|].
  exact (one_byte_per_turn _ _ _ E).
Defined.

(** ** Calibration happens on request only *)

(** X11. A turn that starts without a calibration request, or that finds
    the scan still running, leaves the baselines and the EEPROM as they
    were; a request that meets a running scan is still pending after the
    turn. *)
Theorem calibration_only_on_request (e : env) (s s' : state) :
  main_loop_body e s = Returns s' ->
  cal_flag s <> TRUE \/ capsense_busy e = true ->
  sensorEmptyOffset s' = sensorEmptyOffset s
  /\ eeprom s' = eeprom s
  /\ (cal_flag s = TRUE -> cal_flag s' = TRUE).
Proof.
  intros Hrun Hcase.
  destruct (turn_sensing e s s' Hrun) as (u & Hu & Hs).
  pose proof (turn_console e s s' Hrun) as Hcon.
  apply console_cycle_cases in Hcon. destruct Hcon as (_ & Hpending & _).
  cbn [console_of con_cal] in Hpending.
  assert (Hsame : sensorEmptyOffset u = sensorEmptyOffset s
                  /\ eeprom u = eeprom s).
  { destruct (capsense_busy e) eqn:Hb.
    - injection Hu as <-. split; reflexivity.
    - destruct Hcase as [Hc|Hc]; [|discriminate].
      rewrite (main_scan_complete_plain e s Hc) in Hu. injection Hu as <-.
      pose proof (main_read_counts_outside e s) as F1. revert F1.
      generalize (main_read_counts e s). intros s1 F1.
      pose proof (main_pipeline_outside s1) as F2. revert F2.
      generalize (main_pipeline s1). intros s2 F2. split; frame. }
  pose proof (main_level_outside u) as Fl. revert Hs Fl.
  generalize (main_level u). intros v Hs Fl.
  unfold sensors, outside_level in *.
  injection Hs as S1 S2 S3 S4 S5 S6 S7 S8.
  injection Fl as F1 F2 F3 F4 F5 F6 F7 F8 F9 F10 F11 F12 F13 F14 F15.
  destruct Hsame as (Ho & He).
  split; [congruence|]. split; [congruence|].
  intros Hc. apply Hpending; [exact Hc|]. destruct Hcase; [contradiction|assumption].
Qed.

Lemma calibration_only_on_request_witness :
  exists s',
    main_loop_body sample_busy (set_cal_flag TRUE power_on) = Returns s'
    /\ sensorEmptyOffset s' = sensorEmptyOffset (set_cal_flag TRUE power_on)
    /\ eeprom s' = eeprom (set_cal_flag TRUE power_on)
    /\ cal_flag s' = TRUE.
Proof.
  destruct (main_loop_body sample_busy (set_cal_flag TRUE power_on))
    as [s'|s'|i s'] eqn:E;
    [|vm_compute in E; discriminate E|vm_compute in E; discriminate E].
  exists s'. split; [reflexivity|].
  destruct (calibration_only_on_request _ _ _ E (or_intror eq_refl))
    as (Ho & He & Hc).
  split; [exact Ho|]. split; [exact He|]. apply Hc. reflexivity.
Defined.

(** ** The console from turn to turn *)

Lemma holding_self line t :
  bufferIndex t = Z.of_nat (length line) ->
  rxBuffer t = line ++ replicate (Z.to_nat RX_CAPACITY - length line) 0 ->
  t = holding line (uart_tx t) (uart_rx t) t.
Proof. destruct t. cbn. intros -> ->. reflexivity. Qed.

(** A call that stores, and returns, found the index inside the buffer. *)
Lemma receive_needs_room t t' b rest :
  receive_uart_cmd t = Returns t' -> uart_rx t = b :: rest ->
  48 < b \/ b = 13 \/ b = 10 ->
  0 <= bufferIndex t < RX_CAPACITY.
Proof.
  unfold receive_uart_cmd, rx_store. intros Hrun Hrx Hb. rewrite Hrx in Hrun.
  cbv zeta in Hrun. fields.
  destruct ((0 <=? bufferIndex t) && (bufferIndex t <? RX_CAPACITY)) eqn:Hroom.
  - apply andb_true_iff in Hroom. destruct Hroom as [H0 H1].
    apply Z.leb_le in H0. apply Z.ltb_lt in H1. lia.
  - exfalso. destruct (48 <? b) eqn:Hk; fields; [discriminate|].
    apply Z.ltb_ge in Hk.
    replace ((b =? 13) || (b =? 10)) with true in Hrun.
    + rewrite Hroom in Hrun. discriminate.
    + symmetry. apply orb_true_iff.
      destruct Hb as [Hb|[->| ->]]; [lia|left|right]; reflexivity.
Qed.

(** The line buffer stays a line followed by zeros. *)
Lemma receive_uart_cmd_holding t t' line :
  (length line <= Z.to_nat RX_CAPACITY)%nat -> Forall kept_byte line ->
  bufferIndex t = Z.of_nat (length line) ->
  rxBuffer t = line ++ replicate (Z.to_nat RX_CAPACITY - length line) 0 ->
  Forall (fun b => 0 <= b < 256) (uart_rx t) ->
  receive_uart_cmd t = Returns t' ->
  exists line',
    (length line' <= Z.to_nat RX_CAPACITY)%nat /\ Forall kept_byte line'
    /\ bufferIndex t' = Z.of_nat (length line')
    /\ rxBuffer t'
       = line' ++ replicate (Z.to_nat RX_CAPACITY - length line') 0.
Proof.
  intros Hlen Hline Hix Hbuf Hbytes Hrun.
  destruct (uart_rx t) as [|b rest] eqn:Hrx.
  { unfold receive_uart_cmd in Hrun. rewrite Hrx in Hrun.
    injection Hrun as <-. exists line. auto. }
  inversion Hbytes as [|? ? Hb _]; subst.
  assert (Hnz : Forall (fun c => c <> 0) line).
  { eapply Forall_impl; [exact Hline|]. unfold kept_byte. intros; lia. }
  pose proof (receive_needs_room t t' b rest Hrun Hrx) as Hroom.
  rewrite (holding_self line t Hix Hbuf), Hrx in Hrun.
  change (Z.to_nat RX_CAPACITY) with 32%nat in *.
  change RX_CAPACITY with 32 in Hroom.
  destruct (Z_lt_le_dec 48 b) as [Hk|Hk].
  - rewrite receive_keep in Hrun by (change (Z.to_nat RX_CAPACITY) with 32%nat; lia).
    injection Hrun as <-. exists (line ++ [b]).
    rewrite length_app. cbn [length].
    split; [lia|]. split.
    { apply Forall_app. split; [exact Hline|].
      constructor; [unfold kept_byte; lia|constructor]. }
    split; [cbn; rewrite length_app; reflexivity|].
    cbn. rewrite length_app. reflexivity.
  - destruct (decide (b = 13 \/ b = 10)) as [Ht|Ht].
    + rewrite receive_end in Hrun;
        [|exact Ht|change (Z.to_nat RX_CAPACITY) with 32%nat; lia|exact Hnz].
      injection Hrun as <-. exists []. cbn [length].
      split; [lia|]. split; [constructor|]. split; reflexivity.
    + rewrite receive_drop in Hrun by lia.
      injection Hrun as <-. exists line. auto.
Qed.

Lemma scan_complete_console e s u :
  (if capsense_busy e then Returns s else main_scan_complete e s) = Returns u ->
  bufferIndex u = bufferIndex s /\ rxBuffer u = rxBuffer s
  /\ uart_rx u = uart_rx s.
Proof.
  destruct (capsense_busy e).
  { intros H. injection H as <-. auto. }
  pose proof (main_read_counts_outside e s) as F1.
  destruct (decide (cal_flag s = TRUE)) as [Hc|Hc].
  - rewrite (main_scan_complete_cal e s Hc). revert F1.
    generalize (main_read_counts e s). intros s1 F1.
    destruct (store_calibration_outcome (eeprom_write_ok e)
                (set_cal_flag FALSE s1)) as (c & -> & Fc).
    destruct (eeprom_write_ok e); cbn [and_then]; [|discriminate].
    intros H. injection H as <-.
    pose proof (main_pipeline_outside c) as F2. revert F2.
    generalize (main_pipeline c). intros s2 F2. repeat split; frame.
  - rewrite (main_scan_complete_plain e s Hc). revert F1.
    generalize (main_read_counts e s). intros s1 F1.
    intros H. injection H as <-.
    pose proof (main_pipeline_outside s1) as F2. revert F2.
    generalize (main_pipeline s1). intros s2 F2. repeat split; frame.
Qed.

(** The call of [receive_uart_cmd] inside a turn of the loop. *)
Lemma turn_receive e s s' :
  main_loop_body e s = Returns s' ->
  exists t t',
    receive_uart_cmd t = Returns t'
    /\ bufferIndex t = bufferIndex s /\ rxBuffer t = rxBuffer s
    /\ uart_rx t = uart_rx s
    /\ bufferIndex s' = bufferIndex t' /\ rxBuffer s' = rxBuffer t'.
Proof.
  unfold main_loop_body.
  destruct (if capsense_busy e then Returns s else main_scan_complete e s)
    as [u|u|i u] eqn:Hu; cbn [and_then]; try discriminate.
  apply scan_complete_console in Hu. destruct Hu as (U1 & U2 & U3).
  unfold display_cur_liquid_level.
  pose proof (display_mode_console (main_level u)) as Hm.
  rewrite console_of_main_level in Hm.
  pose proof (console_display_mode_cases (console_of u)) as Hd.
  cbv zeta in Hd. rewrite <- Hm in Hd. clear Hm. revert Hd.
  generalize (display_mode (main_level u)). intros t Hd.
  destruct (receive_uart_cmd t) as [t'|t'|i t'] eqn:Ht; cbn [and_then];
    try discriminate.
  intros H. injection H as <-. exists t, t'.
  pose proof (display_next_level_val_console t') as Hn.
  pose proof (console_next_level_cases (console_of t')) as Hc.
  cbv zeta in Hc. rewrite <- Hn in Hc. clear Hn. revert Hc.
  generalize (display_next_level_val t'). intros s' Hc.
  cbn [console_of con_rx con_index con_buffer] in *.
  split; [exact Ht|]. repeat split; try tauto; intuition congruence.
Qed.

Lemma console_settled_turn e s s' :
  console_settled s -> Forall (fun b => 0 <= b < 256) (uart_rx s) ->
  main_loop_body e s = Returns s' ->
  console_settled s' /\ Forall (fun b => 0 <= b < 256) (uart_rx s').
Proof.
  intros (Hm & Hc & Hst & Hrs & Hk & line & Hlen & Hline & Hix & Hbuf)
    Hbytes Hrun.
  pose proof (turn_console e s s' Hrun) as Hcon.
  apply console_cycle_cases in Hcon.
  cbn [console_of con_rx con_cal con_store con_reset con_cursor con_mode]
    in Hcon.
  destruct Hcon as (Hrx & _ & Hcal & Hflags & Hcur & Hmode).
  destruct (Hflags Hst Hrs) as (Hst' & Hrs').
  destruct (turn_receive e s s' Hrun)
    as (t & t' & Ht & T1 & T2 & T3 & T4 & T5).
  destruct (receive_uart_cmd_holding t t' line Hlen Hline)
    as (line' & L1 & L2 & L3 & L4); try congruence.
  split.
  - split; [intuition congruence|]. split; [exact (Hcal Hc)|].
    split; [exact Hst'|]. split; [exact Hrs'|]. split; [exact (Hcur Hk)|].
    exists line'. rewrite T4, T5. auto.
  - rewrite Hrx. destruct (uart_rx s) as [|b rest]; [constructor|].
    inversion Hbytes; assumption.
Qed.

(** [lines_fit] line by line: the bytes fit when the kept bytes of the
    first line are fewer than the cells of the buffer and the lines after
    it fit. *)
Lemma lines_fit_in_line bytes : forall room rest,
  Forall line_byte bytes ->
  lines_fit_in room (bytes ++ rest)
  = (length (kept bytes) <=? room)%nat
    && lines_fit_in (room - length (kept bytes)) rest.
Proof.
  unfold kept.
  induction bytes as [|b bytes IH]; intros room rest Hbytes.
  - cbn. rewrite Nat.sub_0_r. reflexivity.
  - inversion Hbytes as [|? ? (_ & H13 & H10) Hrest]; subst.
    cbn [app lines_fit_in]. rewrite filter_cons.
    destruct (Z_lt_le_dec 48 b) as [Hk|Hk].
    + replace (48 <? b) with true by (symmetry; apply Z.ltb_lt; lia).
      rewrite decide_True by exact Hk. cbn [length].
      destruct room as [|room]; [reflexivity|].
      rewrite IH by exact Hrest. reflexivity.
    + replace (48 <? b) with false by (symmetry; apply Z.ltb_ge; lia).
      replace ((b =? 13) || (b =? 10)) with false
        by (symmetry; apply orb_false_iff; split; apply Z.eqb_neq; assumption).
      rewrite decide_False by lia. apply IH, Hrest.
Qed.

Lemma lines_fit_line bytes t rest :
  Forall line_byte bytes -> t = 13 \/ t = 10 ->
  lines_fit (bytes ++ t :: rest)
  = (length (kept bytes) <? Z.to_nat RX_CAPACITY)%nat && lines_fit rest.
Proof.
  intros Hbytes Ht. unfold lines_fit.
  rewrite lines_fit_in_line by exact Hbytes. cbn [lines_fit_in].
  replace (48 <? t) with false by (destruct Ht; subst; reflexivity).
  replace ((t =? 13) || (t =? 10)) with true
    by (destruct Ht; subst; reflexivity).
  reflexivity.
Qed.

(** [receive_uart_cmd] has no call of [handle_error]. *)
Lemma receive_uart_cmd_no_halt t h : receive_uart_cmd t <> Halted h.
Proof.
  unfold receive_uart_cmd, rx_store.
  destruct (uart_rx t) as [|b rest]; [discriminate|]. cbv zeta.
  repeat (case_match; cbn [and_then]); discriminate.
Qed.

(** A byte of a line that fits is read without leaving the buffer. *)
Lemma receive_uart_cmd_fits t :
  line_fits t -> Forall (fun b => 0 <= b < 256) (uart_rx t) ->
  exists t',
    receive_uart_cmd t = Returns t' /\ line_fits t'
    /\ uart_rx t' = tail (uart_rx t).
Proof.
  intros (line & Hlen & Hline & Hix & Hbuf & Hfit) Hbytes.
  destruct (uart_rx t) as [|b rest] eqn:Hrx.
  { exists t. unfold receive_uart_cmd. rewrite Hrx.
    split; [reflexivity|]. split; [|reflexivity].
    exists line. rewrite Hrx. auto. }
  inversion Hbytes as [|? ? Hb _]; subst.
  assert (Hnz : Forall (fun c => c <> 0) line).
  { eapply Forall_impl; [exact Hline|]. unfold kept_byte. intros; lia. }
  assert (E : receive_uart_cmd t
              = receive_uart_cmd (holding line (uart_tx t) (b :: rest) t)).
  { rewrite <- Hrx. f_equal. apply holding_self; assumption. }
  rewrite E. clear E. cbn [tail].
  change (Z.to_nat RX_CAPACITY) with 32%nat in *.
  cbn [lines_fit_in] in Hfit.
  destruct (Z_lt_le_dec 48 b) as [Hk|Hk].
  - replace (48 <? b) with true in Hfit by (symmetry; apply Z.ltb_lt; lia).
    destruct (32 - 1 - length line)%nat as [|room] eqn:Hroom; [discriminate|].
    rewrite receive_keep
      by (change (Z.to_nat RX_CAPACITY) with 32%nat; lia).
    eexists. split; [reflexivity|]. split; [|reflexivity].
    exists (line ++ [b]). change (Z.to_nat RX_CAPACITY) with 32%nat.
    rewrite length_app. cbn [length].
    split; [lia|]. split.
    { apply Forall_app. split; [exact Hline|].
      constructor; [unfold kept_byte; lia|constructor]. }
    split; [cbn; rewrite length_app; reflexivity|].
    split; [cbn; rewrite length_app; reflexivity|].
    replace (32 - 1 - (length line + 1))%nat with room by lia. exact Hfit.
  - replace (48 <? b) with false in Hfit by (symmetry; apply Z.ltb_ge; lia).
    destruct (decide (b = 13 \/ b = 10)) as [Ht|Ht].
    + replace ((b =? 13) || (b =? 10)) with true in Hfit
        by (destruct Ht; subst; reflexivity).
      rewrite receive_end;
        [|exact Ht|change (Z.to_nat RX_CAPACITY) with 32%nat; lia|exact Hnz].
      eexists. split; [reflexivity|]. split; [|reflexivity].
      exists []. change (Z.to_nat RX_CAPACITY) with 32%nat. cbn [length].
      split; [lia|]. split; [constructor|].
      split; [reflexivity|]. split; [reflexivity|exact Hfit].
    + replace ((b =? 13) || (b =? 10)) with false in Hfit
        by (symmetry; apply orb_false_iff; split; apply Z.eqb_neq; tauto).
      rewrite receive_drop by tauto.
      eexists. split; [reflexivity|]. split; [|reflexivity].
      exists line. change (Z.to_nat RX_CAPACITY) with 32%nat. auto.
Qed.

(** A turn of the loop: the scan side halts on a refused write or hands
    the console over as it found it, to one call of [receive_uart_cmd]. *)
Lemma turn_shape e s :
  (exists h, main_loop_body e s = Halted h /\ eeprom_write_ok e = false)
  \/ (exists t,
        bufferIndex t = bufferIndex s /\ rxBuffer t = rxBuffer s
        /\ uart_rx t = uart_rx s
        /\ main_loop_body e s
           = receive_uart_cmd t
             >>> (fun s => Returns (display_next_level_val s))).
Proof.
  unfold main_loop_body.
  assert (H : (exists h,
                 (if capsense_busy e then Returns s
                  else main_scan_complete e s) = Halted h
                 /\ eeprom_write_ok e = false)
              \/ (exists u,
                    (if capsense_busy e then Returns s
                     else main_scan_complete e s) = Returns u)).
  { destruct (capsense_busy e); [right; eauto|].
    destruct (decide (cal_flag s = TRUE)) as [Hc|Hc].
    - rewrite (main_scan_complete_cal e s Hc).
      generalize (main_read_counts e s). intros s1.
      destruct (store_calibration_outcome (eeprom_write_ok e)
                  (set_cal_flag FALSE s1)) as (c & -> & _).
      destruct (eeprom_write_ok e); cbn [and_then]; [right|left]; eauto.
    - rewrite (main_scan_complete_plain e s Hc). right. eauto. }
  destruct H as [(h & Hh & Hok)|(u & Hu)].
  - left. exists h. rewrite Hh. split; [reflexivity|exact Hok].
  - right. rewrite Hu. cbn [and_then].
    apply scan_complete_console in Hu. destruct Hu as (U1 & U2 & U3).
    unfold display_cur_liquid_level.
    pose proof (display_mode_console (main_level u)) as Hm.
    rewrite console_of_main_level in Hm.
    pose proof (console_display_mode_cases (console_of u)) as Hd.
    cbv zeta in Hd. rewrite <- Hm in Hd. clear Hm. revert Hd.
    generalize (display_mode (main_level u)). intros t Hd.
    cbn [console_of con_rx con_index con_buffer] in Hd.
    exists t. split; [|split; [|split; [|reflexivity]]];
      intuition congruence.
Qed.

(** One turn: it stores outside the buffer only if the line does not fit,
    halts only on a refused write, and otherwise leaves the console
    settled, with a line that fits if it did. *)
Lemma console_fits_turn e s :
  console_settled s -> Forall (fun b => 0 <= b < 256) (uart_rx s) ->
  match main_loop_body e s with
  | Returns s' =>
      console_settled s' /\ Forall (fun b => 0 <= b < 256) (uart_rx s')
      /\ (line_fits s -> line_fits s')
  | Halted _ => eeprom_write_ok e = false
  | OutOfBounds _ _ => ~ line_fits s
  end.
Proof.
  intros Hs Hb.
  assert (Hfits : forall t,
            bufferIndex t = bufferIndex s -> rxBuffer t = rxBuffer s ->
            uart_rx t = uart_rx s -> line_fits s ->
            exists t', receive_uart_cmd t = Returns t' /\ line_fits t'
                       /\ uart_rx t' = tail (uart_rx s)).
  { intros t T1 T2 T3 (line & L1 & L2 & L3 & L4 & L5). rewrite <- T3.
    apply receive_uart_cmd_fits; [|rewrite T3; exact Hb].
    exists line. rewrite T1, T2, T3. auto. }
  destruct (main_loop_body e s) as [s'|h|i h] eqn:Hrun.
  - destruct (console_settled_turn e s s' Hs Hb Hrun) as (Hs' & Hb').
    split; [exact Hs'|]. split; [exact Hb'|]. intros Hfit.
    pose proof (turn_console e s s' Hrun) as Hcon.
    apply console_cycle_cases in Hcon. destruct Hcon as (Hrx & _).
    cbn [console_of con_rx] in Hrx.
    destruct (turn_receive e s s' Hrun)
      as (t & t' & Ht & T1 & T2 & T3 & T4 & T5).
    destruct (Hfits t T1 T2 T3 Hfit)
      as (t'' & Ht'' & (line & L1 & L2 & L3 & L4 & L5) & Hrx').
    rewrite Ht in Ht''. injection Ht'' as <-.
    exists line. rewrite T4, T5, Hrx, <- Hrx'. auto.
  - destruct (turn_shape e s) as [(h' & Hh & Hok)|(t & T1 & T2 & T3 & Ht)];
      [exact Hok|].
    exfalso. rewrite Ht in Hrun.
    destruct (receive_uart_cmd t) as [t'|h'|j h'] eqn:Hr; cbn [and_then] in Hrun;
      try discriminate.
    exact (receive_uart_cmd_no_halt t h' Hr).
  - intros Hfit.
    destruct (turn_shape e s) as [(h' & Hh & Hok)|(t & T1 & T2 & T3 & Ht)].
    + rewrite Hh in Hrun. discriminate.
    + destruct (Hfits t T1 T2 T3 Hfit) as (t' & Hr & _).
      rewrite Ht, Hr in Hrun. discriminate.
Qed.

Lemma console_fits_loop es : forall s,
  console_settled s -> Forall (fun b => 0 <= b < 256) (uart_rx s) ->
  match main_loop es s with
  | Returns s' => console_settled s'
  | Halted _ => Exists (fun e => eeprom_write_ok e = false) es
  | OutOfBounds _ _ => ~ line_fits s
  end.
Proof.
  induction es as [|e es IH]; intros s Hs Hb; [exact Hs|].
  cbn [main_loop]. pose proof (console_fits_turn e s Hs Hb) as Hturn.
  destruct (main_loop_body e s) as [t|h|i h]; cbn [and_then].
  - destruct Hturn as (Ht & Hb' & Hfit). specialize (IH t Ht Hb').
    destruct (main_loop es t) as [s'|h|i h].
    + exact IH.
    + apply Exists_cons_tl, IH.
    + intros H. apply IH, Hfit, H.
  - apply Exists_cons_hd, Hturn.
  - exact Hturn.
Qed.

(** X12. From reset on and for any bytes typed, the first turns of the
    loop end in one of three ways. They store outside the line buffer only
    if some line of the typed bytes holds more than [RX_CAPACITY - 1]
    bytes above ['0']. They halt in [handle_error] only if the EEPROM
    initialisation or a calibration write fails. Otherwise the next head
    of the loop is reached, and there the display mode is one of the four
    modes, the calibration flag is 0 or 1, no store or reset request is
    pending, the sample cursor is inside the axis-label table, and the
    line buffer holds the bytes kept so far on the current line, all above
    ['0'], with the index right behind them and zeros from there on. *)
Theorem console_settled_every_turn
  (b : boot) (bytes : list Z) (es : list env) :
  Forall (fun x => 0 <= x < 256) bytes ->
  match main b bytes es with
  | Returns s => console_settled s
  | Halted _ =>
      eeprom_init_ok b = false
      \/ Exists (fun e => eeprom_write_ok e = false) es
  | OutOfBounds _ _ => lines_fit bytes = false
  end.
Proof.
  unfold main. intros Hbytes.
  destruct (eeprom_init_ok b) eqn:Hb.
  - destruct (main_startup_returns b bytes (boot_tx_full b) Hb)
      as (s0 & Hs0 & _ & _ & Hf).
    rewrite Hs0. cbn [and_then].
    unfold outside_startup in Hf.
    injection Hf as K1 K2 K3 K4 K5 K6 K7 K8 K9 K10 K11 K12 K13 K14 K15.
    assert (Hs : console_settled s0).
    { unfold console_settled. rewrite K4, K8, K9, K10, K11, K12, K13.
      split; [right; left; reflexivity|]. split; [left; reflexivity|].
      split; [reflexivity|]. split; [reflexivity|].
      split; [unfold NUM_SAMPLES; cbn; lia|].
      exists []. split; [cbn; lia|]. split; [constructor|].
      split; reflexivity. }
    assert (Hrx : Forall (fun x => 0 <= x < 256) (uart_rx s0))
      by (rewrite K14; exact Hbytes).
    pose proof (console_fits_loop es s0 Hs Hrx) as Hloop.
    destruct (main_loop es s0) as [s|h|i h].
    + exact Hloop.
    + right. exact Hloop.
    + destruct (lines_fit bytes) eqn:Hfit; [|reflexivity].
      exfalso. apply Hloop. exists [].
      rewrite K11, K12, K14. cbn [length].
      split; [vm_compute; lia|]. split; [constructor|].
      split; [reflexivity|]. split; [reflexivity|exact Hfit].
  - rewrite main_startup_cases, Hb. cbn [and_then]. left. reflexivity.
Qed.

Lemma console_settled_every_turn_witness :
  Forall (fun x => 0 <= x < 256) (text "ca")
  /\ lines_fit (text "ca") = true
  /\ exists s,
       main (mkBoot true (fun _ => 0) [true; false]) (text "ca")
         [sample_scan; sample_scan]
       = Returns s
       /\ console_settled s.
Proof.
  assert (Hb : Forall (fun x => 0 <= x < 256) (text "ca"))
    by (vm_compute; repeat constructor; discriminate).
  split; [exact Hb|]. split; [reflexivity|].
  pose proof (console_settled_every_turn
                (mkBoot true (fun _ => 0) [true; false]) (text "ca")
                [sample_scan; sample_scan] Hb) as H.
  destruct (main (mkBoot true (fun _ => 0) [true; false]) (text "ca")
              [sample_scan; sample_scan])
    as [s|s|i s] eqn:E;
    [|vm_compute in E; discriminate E|vm_compute in E; discriminate E].
  exists s. split; [reflexivity|exact H].
Defined.

(** ** Lines *)

(** A whole line that fits the buffer, read byte by byte. *)
Lemma receive_whole_line (s : state) (bytes rest : list Z) (t : Z) :
  bufferIndex s = 0 ->
  rxBuffer s = replicate (Z.to_nat RX_CAPACITY) 0 ->
  uart_rx s = bytes ++ t :: rest ->
  Forall line_byte bytes -> t = 13 \/ t = 10 ->
  (length (kept bytes) < Z.to_nat RX_CAPACITY)%nat ->
  receive_bytes (S (length bytes)) s
  = Returns (command_effect (kept bytes)
               (set_uart_tx_full
                  (after_puts (length (kept bytes)) (uart_tx_full s))
                  (set_uart_tx (uart_tx s ++ kept bytes)
                     (set_uart_rx rest s)))).
Proof.
  intros Hidx Hbuf Hrx Hbytes Ht Hfit.
  rewrite (holding_clean s Hidx Hbuf) at 1. rewrite Hrx.
  replace (S (length bytes)) with (length bytes + 1)%nat by lia.
  rewrite receive_bytes_app, receive_line;
    [|exact Hbytes|cbn [length]; lia].
  cbn [and_then receive_bytes app].
  rewrite receive_end; [|exact Ht|exact Hfit|apply kept_nonzero].
  cbn [and_then]. f_equal.
  unfold command_effect. destruct s. cbn in Hidx, Hbuf |- *. subst.
  repeat case_decide; reflexivity.
Qed.

(** X13. A line whose kept bytes fit the buffer, read byte by byte from an
    empty line buffer: every call returns, the kept bytes are echoed, each
    offered to the transmit FIFO until it is taken, the line takes effect
    as the command it spells ([cal], [stop], [csv], [basic], the empty
    line, [reset], or else [Command Error]), and afterwards the buffer is
    all zeros with the index at 0 and the bytes after the terminator are
    still in the receive FIFO. *)
Theorem command_line_is_read (s : state) (bytes rest : list Z) (t : Z) :
  bufferIndex s = 0 ->
  rxBuffer s = replicate (Z.to_nat RX_CAPACITY) 0 ->
  uart_rx s = bytes ++ t :: rest ->
  Forall line_byte bytes -> t = 13 \/ t = 10 ->
  (length (kept bytes) < Z.to_nat RX_CAPACITY)%nat ->
  exists s',
    receive_bytes (S (length bytes)) s = Returns s'
    /\ s' = command_effect (kept bytes)
              (set_uart_tx_full
                 (after_puts (length (kept bytes)) (uart_tx_full s))
                 (set_uart_tx (uart_tx s ++ kept bytes) (set_uart_rx rest s)))
    /\ bufferIndex s' = 0
    /\ rxBuffer s' = replicate (Z.to_nat RX_CAPACITY) 0
    /\ uart_rx s' = rest.
Proof.
  intros Hidx Hbuf Hrx Hbytes Ht Hfit. eexists.
  split; [apply (receive_whole_line s bytes rest t); assumption|].
  split; [reflexivity|].
  destruct (command_effect_buffer (kept bytes)
              (set_uart_tx_full
                 (after_puts (length (kept bytes)) (uart_tx_full s))
                 (set_uart_tx (uart_tx s ++ kept bytes) (set_uart_rx rest s))))
    as (-> & -> & ->).
  split; [exact Hidx|]. split; [exact Hbuf|reflexivity].
Qed.

Lemma text_line_bytes_stop : Forall line_byte (text "stop").
Proof. vm_compute. repeat constructor; discriminate. Qed.

Lemma command_line_is_read_witness :
  exists s',
    receive_bytes 5 (typed (text "stop" ++ [13]) power_on) = Returns s'
    /\ uartTxMode s' = UART_NONE
    /\ uart_tx s' = text "stop"
    /\ bufferIndex s' = 0
    /\ rxBuffer s' = replicate (Z.to_nat RX_CAPACITY) 0
    /\ uart_rx s' = [].
Proof.
  destruct (command_line_is_read (typed (text "stop" ++ [13]) power_on)
              (text "stop") [] 13 eq_refl eq_refl eq_refl
              text_line_bytes_stop (or_introl eq_refl))
    as (s' & Hrun & Hs & Hi & Hb & Hr); [vm_compute; lia|].
  exists s'. split; [exact Hrun|]. rewrite Hs at 1 2.
  split; [reflexivity|]. split; [reflexivity|]. auto.
Defined.

Lemma kept_line_bytes bytes : Forall line_byte bytes -> Forall line_byte (kept bytes).
Proof.
  intros H. unfold kept. apply Forall_forall. intros b Hb.
  apply list_elem_of_filter in Hb. destruct Hb as (_ & Hb).
  rewrite Forall_forall in H. apply H, Hb.
Qed.

Lemma kept_kept bytes : kept (kept bytes) = kept bytes.
Proof.
  unfold kept. induction bytes as [|b bytes IH]; [reflexivity|].
  rewrite filter_cons. destruct (decide (48 < b)) as [Hb|Hb]; [|exact IH].
  rewrite filter_cons. destruct (decide (48 < b)); [|contradiction].
  rewrite IH. reflexivity.
Qed.

(** X14. Bytes that are not above ['0'] (controls, blanks, punctuation and
    the digit 0) and do not end the line take no part in it: a line with
    such bytes in it is read exactly as the line without them. *)
Theorem noise_is_ignored (s : state) (bytes rest : list Z) (t : Z) :
  bufferIndex s = 0 ->
  rxBuffer s = replicate (Z.to_nat RX_CAPACITY) 0 ->
  Forall line_byte bytes -> t = 13 \/ t = 10 ->
  (length (kept bytes) < Z.to_nat RX_CAPACITY)%nat ->
  receive_bytes (S (length bytes)) (set_uart_rx (bytes ++ t :: rest) s)
  = receive_bytes (S (length (kept bytes)))
      (set_uart_rx (kept bytes ++ t :: rest) s).
Proof.
  intros Hidx Hbuf Hbytes Ht Hfit.
  rewrite (receive_whole_line (set_uart_rx (bytes ++ t :: rest) s)
             bytes rest t); try assumption; try reflexivity.
  rewrite (receive_whole_line (set_uart_rx (kept bytes ++ t :: rest) s)
             (kept bytes) rest t); try assumption; try reflexivity.
  - rewrite kept_kept. destruct s. reflexivity.
  - apply kept_line_bytes, Hbytes.
  - rewrite kept_kept. exact Hfit.
Qed.

Lemma noise_is_ignored_witness :
  Forall line_byte (text "c a-l 0")
  /\ kept (text "c a-l 0") = text "cal"
  /\ receive_bytes 8 (set_uart_rx (text "c a-l 0" ++ [13]) power_on)
     = receive_bytes 4 (set_uart_rx (text "cal" ++ [13]) power_on).
Proof.
  assert (Hb : Forall line_byte (text "c a-l 0"))
    by (vm_compute; repeat constructor; discriminate).
  split; [exact Hb|]. split; [reflexivity|].
  exact (noise_is_ignored power_on (text "c a-l 0") [] 13 eq_refl eq_refl Hb
           (or_introl eq_refl) ltac:(vm_compute; lia)).
Defined.

(** ** The lines of the display modes *)

Lemma tenths_range v : 0 <= tenths v <= 9.
Proof.
  unfold tenths. pose proof (Z.mod_pos_bound v 256 ltac:(lia)) as Hm.
  split; [apply Z.div_pos; lia|].
  apply Z.lt_succ_r, Z.div_lt_upper_bound; lia.
Qed.

Lemma decimal_digit_text d :
  0 <= d <= 9 ->
  decimal_val_text d 0 = [48 + d] /\ decimal_val_text d 1 = [48 + d].
Proof.
  intros Hd.
  assert (Hcases : In d (map Z.of_nat (seq 0 10))).
  { replace d with (Z.of_nat (Z.to_nat d)) by lia.
    apply in_map, in_seq. lia. }
  cbv [map seq In Z.of_nat Pos.of_succ_nat Pos.succ] in Hcases.
  repeat (destruct Hcases as [<-|Hcases]; [split; reflexivity|]).
  contradiction.
Qed.

(** The fraction digit of the BASIC line: low byte times ten, shifted. *)
Lemma basic_fraction_value v :
  Z.shiftr (wrap32 (Z.land v 0xFF * 10)) 8 = tenths v.
Proof.
  change 0xFF with (Z.ones 8). rewrite Z.land_ones by lia.
  change (2 ^ 8) with 256.
  pose proof (Z.mod_pos_bound v 256 ltac:(lia)) as Hm.
  rewrite wrap32_small by (unfold in_int32; lia).
  rewrite Z.shiftr_div_pow2 by lia. reflexivity.
Qed.

Lemma basic_fraction_text v :
  decimal_val_text (Z.shiftr (wrap32 (Z.land v 0xFF * 10)) 8) 0
  = [48 + tenths v].
Proof. rewrite basic_fraction_value. apply decimal_digit_text, tenths_range. Qed.

(** The BASIC line holds no sign when the two level values are not
    negative, and its points are part of strings: it arrives whole. *)
Lemma display_basic_all :
  sends eq (fun t => 0 <= levelPercent t /\ 0 <= levelMm t)
    display_basic basic_line_text.
Proof.
  eapply (sends_ext eq);
    [|apply (display_basic_sends eq (@eq_refl _) eq_app
               (fun n => 0 <= n) decimal_val_sent_all)].
  - intros t _. cbv beta. unfold basic_line_text.
    rewrite !basic_fraction_text, !Z.shiftr_div_pow2 by lia.
    change (2 ^ 8) with 256. reflexivity.
  - intros sent left t H. exact H.
  - intros t (Hp & Hm). cbv beta. rewrite !basic_fraction_value.
    pose proof (tenths_range (levelPercent t)).
    pose proof (tenths_range (levelMm t)).
    rewrite !Z.shiftr_nonneg. lia.
Qed.

(** The normalisation loop counts up from 0 by at most 2 a sensor,
    whatever the arrays hold. *)
Lemma pipeline_step_count i s :
  0 <= sensorActiveCount s <= 253 ->
  sensorActiveCount s <= sensorActiveCount (pipeline_step i s)
  <= sensorActiveCount s + 2.
Proof.
  intros H. unfold pipeline_step. cbv zeta.
  repeat case_match; cbn;
    rewrite ?uint8_small by (unfold in_uint8; lia); lia.
Qed.

Lemma main_pipeline_count s : 0 <= sensorActiveCount (main_pipeline s) <= 24.
Proof.
  unfold main_pipeline.
  assert (H : forall k, (k <= NUMSENSORS)%nat ->
            0 <= sensorActiveCount
                   (for_range 0 k pipeline_step (set_sensorActiveCount 0 s))
            <= 2 * Z.of_nat k).
  { unfold NUMSENSORS. induction k as [|k IH]; intros Hk; [cbn; lia|].
    rewrite for_range_S. specialize (IH ltac:(lia)).
    pose proof (pipeline_step_count (0 + k)
                  (for_range 0 k pipeline_step (set_sensorActiveCount 0 s))
                  ltac:(lia)). lia. }
  specialize (H NUMSENSORS (Nat.le_refl _)). unfold NUMSENSORS in *. lia.
Qed.

(** Whatever the level values, the BASIC line arrives less the signs the
    FIFO refused: its points are part of strings. *)
Lemma display_basic_line_thin :
  sends thin any_state display_basic basic_line_text.
Proof.
  eapply (sends_ext thin);
    [|apply (display_basic_sends thin thin_refl thin_app
               (fun _ => True) (fun n lz t _ => decimal_val_sent n lz t)
               any_state any_state_blind)].
  - intros t _. cbv beta. unfold basic_line_text.
    rewrite !basic_fraction_text, !Z.shiftr_div_pow2 by lia.
    change (2 ^ 8) with 256. reflexivity.
  - intros. repeat split.
Qed.

(** The level values handed to the renderer are not negative. *)
Lemma sensed_levels e s :
  in_uint8 (sensorActiveCount s) ->
  0 <= levelPercent (sensed e s) /\ 0 <= levelMm (sensed e s).
Proof.
  intros Hs. unfold sensed.
  assert (Hc : in_uint8 (sensorActiveCount
                           (if capsense_busy e then s
                            else main_pipeline (main_read_counts e s)))).
  { destruct (capsense_busy e); [exact Hs|].
    pose proof (main_pipeline_count (main_read_counts e s)).
    unfold in_uint8. lia. }
  revert Hc.
  generalize (if capsense_busy e then s
              else main_pipeline (main_read_counts e s)).
  intros u Hc. destruct (main_level_values u Hc) as (Hmm & Hpc).
  assert (H : 0 <= levelMm (main_level u)).
  { rewrite Hmm. unfold in_uint8 in Hc. case_match; lia. }
  split; [|exact H]. rewrite Hpc. apply Z.div_pos; lia.
Qed.

(** X15. In BASIC mode, with an idle console and nothing typed, a turn of
    the loop transmits exactly one line: [%=], the whole percent, a point
    and one digit, [   mm=], the whole millimetres, a point and one digit,
    and a line end. Each digit after the point is the truncated tenths of
    the value's low byte, between 0 and 9. The points are part of strings
    and cannot be lost. With the active count the [uint8_t] it is declared
    as, no level value is negative, the line holds no sign and arrives
    whole whatever the transmit FIFO does. The console is left as it
    was. *)
Theorem basic_turn_prints_level (e : env) (s : state) :
  idle_console s -> uartTxMode s = UART_BASIC -> uart_rx s = [] ->
  exists s' line,
    main_loop_body e s = Returns s'
    /\ uart_tx s' = uart_tx s ++ line
    /\ thin (basic_line_text s') line
    /\ (in_uint8 (sensorActiveCount s) -> line = basic_line_text s')
    /\ 0 <= tenths (levelPercent s') <= 9 /\ 0 <= tenths (levelMm s') <= 9
    /\ idle_console s' /\ uartTxMode s' = UART_BASIC /\ uart_rx s' = [].
Proof.
  intros Hidle Hmode Hrx.
  pose proof Hidle as (Hcal & Hs & Hr & Hi & Hb).
  rewrite main_loop_body_no_cal by (rewrite Hcal; discriminate).
  destruct (sensed_console e s) as [Hc Ht].
  pose proof (sensed_levels e s) as Hl. revert Hc Ht Hl.
  generalize (sensed e s). intros u Hc Ht Hl.
  assert (Hu : idle_console u /\ uartTxMode u = UART_BASIC /\ uart_rx u = []).
  { unfold idle_console, console_of in *.
    injection Hc as -> -> -> -> -> -> _ ->. auto 10. }
  destruct Hu as ((Hucal & Hus & Hur & Hui & Hub) & Humode & Hurx).
  rewrite quiet_render by assumption.
  unfold display_mode. rewrite Humode.
  change (UART_BASIC =? UART_BASIC) with true. cbv iota.
  destruct (display_basic_line_thin u I) as (line & left & E & Hthin & _).
  rewrite E. eexists. exists line. split; [reflexivity|].
  split; [cbn; rewrite Ht; reflexivity|].
  split; [exact Hthin|].
  split.
  { intros Hcount.
    destruct (display_basic_all u (Hl Hcount)) as (sent & left' & E' & <- & _).
    rewrite E in E'. exact (emit_sent _ _ _ _ _ E'). }
  split; [apply tenths_range|]. split; [apply tenths_range|].
  unfold idle_console. cbn. auto 10.
Qed.

Lemma basic_turn_prints_level_witness :
  idle_console power_on /\ uartTxMode power_on = UART_BASIC
  /\ uart_rx power_on = []
  /\ exists s',
       main_loop_body sample_scan power_on = Returns s'
       /\ uart_tx s' = text "%=100.0   mm=153.0" ++ CRLF.
Proof.
  assert (Hidle : idle_console power_on) by (repeat split; reflexivity).
  split; [exact Hidle|]. split; [reflexivity|]. split; [reflexivity|].
  destruct (basic_turn_prints_level sample_scan power_on Hidle eq_refl eq_refl)
    as (s' & line & Hrun & Htx & _ & Hline & _).
  exists s'. split; [exact Hrun|].
  rewrite Htx, Hline by (unfold in_uint8; cbn; lia).
  assert (Hl : levelPercent s' = 25600 /\ levelMm s' = 39168).
  { vm_compute in Hrun. injection Hrun as <-. split; reflexivity. }
  destruct Hl as (Hp & Hm). unfold basic_line_text. rewrite Hp, Hm.
  reflexivity.
Defined.

(** X16. With the display mode [UART_NONE], an idle console and nothing
    typed, the loop transmits nothing, for any number of turns and whatever
    is sensed, and leaves the console and the cursor as they were. *)
Theorem stopped_console_is_silent (es : list env) : forall (s : state),
  idle_console s -> uartTxMode s = UART_NONE -> uart_rx s = [] ->
  exists s',
    main_loop es s = Returns s'
    /\ uart_tx s' = uart_tx s
    /\ idle_console s' /\ uartTxMode s' = UART_NONE /\ uart_rx s' = []
    /\ sampleIndex s' = sampleIndex s.
Proof.
  induction es as [|e es IH]; intros s Hidle Hmode Hrx.
  - exists s. cbn. auto 10.
  - pose proof Hidle as (Hcal & Hs & Hr & Hi & Hb).
    cbn [main_loop].
    rewrite main_loop_body_no_cal by (rewrite Hcal; discriminate).
    destruct (sensed_console e s) as [Hc Ht]. revert Hc Ht.
    generalize (sensed e s). intros u Hc Ht.
    assert (Hu : idle_console u /\ uartTxMode u = UART_NONE /\ uart_rx u = []
                 /\ sampleIndex u = sampleIndex s).
    { unfold idle_console, console_of in *.
      injection Hc as -> -> -> -> -> -> -> ->. auto 10. }
    destruct Hu as (Huidle & Humode & Hurx & Hucur).
    pose proof Huidle as (Hucal & Hus & Hur & Hui & Hub).
    rewrite quiet_render by assumption. cbn [and_then].
    unfold display_mode. rewrite Humode.
    change (UART_NONE =? UART_BASIC) with false.
    change ((UART_NONE =? UART_CSVINIT) || (UART_NONE =? UART_CSV))
      with false.
    cbv iota.
    destruct (IH u Huidle Humode Hurx) as (s' & Hrun & Htx & Hrest).
    exists s'. split; [exact Hrun|]. split; [congruence|].
    destruct Hrest as (H1 & H2 & H3 & H4). repeat split; try apply H1; congruence.
Qed.

Lemma stopped_console_is_silent_witness :
  idle_console (set_uartTxMode UART_NONE power_on)
  /\ exists s',
       main_loop [sample_scan; sample_busy] (set_uartTxMode UART_NONE power_on)
       = Returns s'
       /\ uart_tx s' = [] /\ uartTxMode s' = UART_NONE.
Proof.
  assert (Hidle : idle_console (set_uartTxMode UART_NONE power_on))
    by (repeat split; reflexivity).
  split; [exact Hidle|].
  destruct (stopped_console_is_silent [sample_scan; sample_busy]
              (set_uartTxMode UART_NONE power_on) Hidle eq_refl eq_refl)
    as (s' & Hrun & Htx & _ & Hmode & _).
  exists s'. split; [exact Hrun|]. split; [exact Htx|exact Hmode].
Defined.

(** The fraction computed by [display_decimal_fixed_val] for 8 fraction
    bits and one decimal: ten for an odd whole part, plus the tenths. *)
Lemma fraction_of_tenths v :
  in_int32 v ->
  fraction_of v 8 1 = 10 * ((v / 256) mod 2) + tenths v.
Proof.
  intros Hv. unfold fraction_of, tenths.
  replace (31 <? 8) with false by reflexivity.
  replace (9 <? 1) with false by reflexivity.
  change (Z.shiftr 0xFFFFFFFF (31 - 8)) with (Z.ones 9).
  change (dec_digits_loop 1) with 10. change (uint32 10) with 10.
  rewrite Z.land_ones by lia. unfold uint32 at 2.
  rewrite Z.mod_mod_divide by (exists (2 ^ 23); reflexivity).
  change (2 ^ 9) with (256 * 2). rewrite Z.rem_mul_r by lia.
  pose proof (Z.mod_pos_bound v 256 ltac:(lia)) as Hr.
  pose proof (Z.mod_pos_bound (v / 256) 2 ltac:(lia)) as Hq.
  unfold uint32. rewrite Z.mod_small by lia.
  rewrite Z.shiftr_div_pow2 by lia. change (2 ^ 8) with 256.
  replace ((v mod 256 + 256 * ((v / 256) mod 2)) * 10)
    with (v mod 256 * 10 + (10 * ((v / 256) mod 2)) * 256) by lia.
  rewrite Z.div_add by lia. lia.
Qed.

(** The digits of that fraction. *)
Lemma fraction_text v :
  in_int32 v ->
  decimal_val_text (wrap32 (fraction_of v 8 1)) 1
  = (if Z.odd (v / 256) then [49] else []) ++ [48 + tenths v].
Proof.
  intros Hv. rewrite fraction_of_tenths by exact Hv. rewrite Zmod_odd.
  pose proof (tenths_range v) as Ht.
  destruct (Z.odd (v / 256)).
  - rewrite wrap32_small by (unfold in_int32; lia).
    assert (Hcases : In (tenths v) (map Z.of_nat (seq 0 10))).
    { replace (tenths v) with (Z.of_nat (Z.to_nat (tenths v))) by lia.
      apply in_map, in_seq. lia. }
    cbv [map seq In Z.of_nat Pos.of_succ_nat Pos.succ] in Hcases.
    repeat (destruct Hcases as [<-|Hcases]; [reflexivity|]).
    contradiction.
  - rewrite wrap32_small by (unfold in_int32; lia).
    replace (10 * 0 + tenths v) with (tenths v) by lia.
    apply decimal_digit_text, Ht.
Qed.

(** X17. For 8 fraction bits and one decimal,
    [display_decimal_fixed_val] only transmits: what [display_decimal_val]
    transmits for the whole part, then a point, if the transmit FIFO has
    room at the one moment the point is offered, then the truncated
    tenths, with a digit 1 before the tenths whenever the whole part is
    odd. *)
Theorem fixed_val_fraction_digits (v : Z) (s : state) :
  in_int32 v ->
  exists whole left left',
    display_decimal_val (v / 256) 0 s = emit whole left s
    /\ display_decimal_fixed_val v 8 1 s
       = emit (whole
               ++ (if tx_fifo_full (display_decimal_val (v / 256) 0 s)
                   then [] else [46])
               ++ (if Z.odd (v / 256) then [49] else []) ++ [48 + tenths v])
           left' s.
Proof.
  intros Hv. unfold display_decimal_fixed_val. cbv zeta.
  replace (31 <? 8) with false by reflexivity.
  replace (9 <? 1) with false by reflexivity.
  replace (0 <? 1) with true by reflexivity.
  change (int8 1) with 1.
  rewrite Z.shiftr_div_pow2 by lia. change (2 ^ 8) with 256.
  destruct (decimal_val_sent (v / 256) 0 s) as (whole & left & E & _).
  rewrite E, put_once. change (uint8 46) with 46.
  assert (Hf : 0 <= wrap32 (fraction_of v 8 1)).
  { rewrite fraction_of_tenths by exact Hv.
    pose proof (tenths_range v). pose proof (Z.mod_pos_bound (v / 256) 2).
    rewrite wrap32_small by (unfold in_int32; lia). lia. }
  match goal with
  | |- context [display_decimal_val _ 1 ?t] =>
      destruct (decimal_val_sent_all (wrap32 (fraction_of v 8 1)) 1 t Hf)
        as (sent & left' & E' & <- & _)
  end.
  rewrite E', !emit_emit, fraction_text by exact Hv.
  exists whole, left, left'. split; reflexivity.
Qed.

Lemma fixed_val_fraction_digits_witness :
  in_int32 (-39168)
  /\ (exists whole left left',
        display_decimal_val (-153) 0
          (set_uart_tx_full [true; false; false; false; true] power_on)
        = emit whole left
            (set_uart_tx_full [true; false; false; false; true] power_on)
        /\ display_decimal_fixed_val (-39168) 8 1
             (set_uart_tx_full [true; false; false; false; true] power_on)
           = emit (whole ++ [] ++ [49] ++ [48 + 0]) left'
               (set_uart_tx_full [true; false; false; false; true] power_on))
  /\ uart_tx (display_decimal_fixed_val (-39168) 8 1
                (set_uart_tx_full [true; false; false; false; true] power_on))
     = text "15310"
  /\ uart_tx (display_decimal_fixed_val (-39168) 8 1 power_on)
     = text "-153.10"
  /\ uart_tx (display_decimal_fixed_val 37380 8 1 power_on) = text "146.0".
Proof.
  assert (H : in_int32 (-39168)) by (unfold in_int32; lia).
  split; [exact H|].
  split; [exact (fixed_val_fraction_digits (-39168)
                   (set_uart_tx_full [true; false; false; false; true] power_on)
                   H)|].
  repeat split; reflexivity.
Defined.

(** ** The calibration line *)

Lemma cal_line_text_ext a b :
  (forall i, (i < NUMSENSORS)%nat -> a !!! i = b !!! i) ->
  cal_line_text a = cal_line_text b.
Proof.
  intros H. unfold cal_line_text. f_equal. f_equal. f_equal.
  apply map_ext_in. intros i Hi. apply in_seq in Hi. rewrite H by lia.
  reflexivity.
Qed.

(** X18. [store_calibration] transmits the calibration line after copying
    the readings and before writing the EEPROM: the line shows the new
    baselines of the twelve sensors, also when the write then fails, in
    which case the error message follows, the EEPROM is unchanged and the
    function does not return. The line has no point, and a sign only for a
    negative reading: with the readings the counts the caller has just
    copied, none of them negative, it arrives whole whatever the transmit
    FIFO does. *)
Theorem calibration_line_shows_new_baselines (ok : bool) (s : state) :
  well_formed s ->
  exists c line,
    store_calibration ok s = (if ok then Returns c else Halted c)
    /\ uart_tx c
       = uart_tx s ++ line
         ++ (if ok then [] else text "Emulated EEPROM Write failed " ++ CRLF)
    /\ thin (cal_line_text (sensorDiff s)) line
    /\ ((forall i, (i < NUMSENSORS)%nat -> 0 <= sensorDiff s !!! i) ->
        line = cal_line_text (sensorDiff s))
    /\ (forall i, (i < NUMSENSORS)%nat ->
          sensorEmptyOffset c !!! i = sensorDiff s !!! i)
    /\ (ok = false -> eeprom c = eeprom s).
Proof.
  intros [_ _ Lo _].
  destruct (copy_offset_prefix NUMSENSORS s Lo (Nat.le_refl _))
    as (F & T & P & L & E).
  unfold store_calibration. cbv zeta.
  generalize dependent (for_range 0 NUMSENSORS copy_offset s).
  intros s1 F T P L E.
  assert (Hoff : forall i, (i < NUMSENSORS)%nat ->
            sensorEmptyOffset s1 !!! i = sensorDiff s !!! i).
  { intros i Hi. rewrite E. case_decide; [reflexivity|lia]. }
  assert (Hline : cal_line_text (sensorEmptyOffset s1)
                  = cal_line_text (sensorDiff s)).
  { apply cal_line_text_ext. exact Hoff. }
  destruct (display_current_cal_val_thin s1 I)
    as (line & left & Eline & Hthin & _).
  assert (Hwhole : (forall i, (i < NUMSENSORS)%nat -> 0 <= sensorDiff s !!! i) ->
            line = cal_line_text (sensorDiff s)).
  { intros Hcounts.
    destruct (display_current_cal_val_all s1) as (sent & left' & E' & <- & _).
    { intros i Hi. rewrite (Hoff i Hi). apply Hcounts, Hi. }
    rewrite Eline in E'. rewrite <- Hline. exact (emit_sent _ _ _ _ _ E'). }
  rewrite Hline in Hthin. rewrite Eline.
  destruct ok; unfold handle_error; eexists; exists line;
    (split; [reflexivity|]); fields.
  - rewrite T, app_nil_r. split; [reflexivity|].
    split; [exact Hthin|]. split; [exact Hwhole|].
    split; [exact Hoff|discriminate].
  - rewrite T, <- app_assoc. split; [reflexivity|].
    split; [exact Hthin|]. split; [exact Hwhole|].
    split; [exact Hoff|]. intros _. exact P.
Qed.

Lemma calibration_line_shows_new_baselines_witness :
  well_formed (main_read_counts sample_scan power_on)
  /\ exists h,
       store_calibration false (main_read_counts sample_scan power_on)
       = Halted h
       /\ uart_tx h
          = text "EmptyCal=1000,1000,1000,1000,1000,1000,1000,1000,1000,1000,1000,1000,"
            ++ CRLF ++ text "Emulated EEPROM Write failed " ++ CRLF
       /\ sensorEmptyOffset h !!! 11%nat = 1000
       /\ eeprom h = [].
Proof.
  assert (Hwf : well_formed (main_read_counts sample_scan power_on))
    by (split; reflexivity).
  split; [exact Hwf|].
  destruct (calibration_line_shows_new_baselines false _ Hwf)
    as (h & line & Hrun & Htx & _ & Hline & Ho & He).
  rewrite Hline in Htx.
  2:{ intros i Hi. unfold NUMSENSORS in Hi.
      do 12 (destruct i as [|i]; [vm_compute; discriminate|]). lia. }
  exists h. split; [exact Hrun|]. split; [rewrite Htx; reflexivity|].
  split; [rewrite Ho by (unfold NUMSENSORS; lia); reflexivity|].
  rewrite He by reflexivity. reflexivity.
Defined.

(** ** The sample sequence *)

(** The sensor side of a turn leaves the transmit FIFO alone. *)
Lemma sensed_answers e s : uart_tx_full (sensed e s) = uart_tx_full s.
Proof.
  unfold sensed.
  assert (H : uart_tx_full (if capsense_busy e then s
                            else main_pipeline (main_read_counts e s))
              = uart_tx_full s).
  { destruct (capsense_busy e); [reflexivity|].
    assert (Hr : uart_tx_full (main_read_counts e s) = uart_tx_full s).
    { unfold main_read_counts.
      apply (for_range_keeps (fun t => uart_tx_full t = uart_tx_full s));
        [intros i t Ht; rewrite <- Ht; reflexivity|reflexivity]. }
    revert Hr. generalize (main_read_counts e s). intros s1 Hr.
    rewrite <- Hr. unfold main_pipeline.
    apply (for_range_keeps (fun t => uart_tx_full t = uart_tx_full s1));
      [|reflexivity].
    intros i t Ht. rewrite <- Ht. unfold pipeline_step. cbv zeta.
    repeat case_match; reflexivity. }
  revert H.
  generalize (if capsense_busy e then s
              else main_pipeline (main_read_counts e s)).
  intros u H. rewrite <- H. unfold main_level. cbv zeta.
  case_match; reflexivity.
Qed.

(** With room in the FIFO before a transmission there is room after it. *)
Lemma sends_room R f a t :
  sends R any_state f a -> uart_tx_full t = [] -> uart_tx_full (f t) = [].
Proof.
  intros H Hroom. destruct (H t I) as (sent & left & -> & _ & X).
  destruct (X Hroom) as (_ & ->). reflexivity.
Qed.

Lemma display_mode_room t :
  uart_tx_full t = [] -> uart_tx_full (display_mode t) = [].
Proof.
  intros H. unfold display_mode. repeat case_match.
  - destruct display_basic_thin as (offered & Hb).
    exact (sends_room thin _ _ t Hb H).
  - destruct (display_csv_header_emit t) as (left & -> & X).
    rewrite (X H). reflexivity.
  - exact (sends_room thin _ _ t display_csv_row_sends H).
  - exact H.
Qed.

(** What a store request makes [display_next_level_val] transmit: the
    header at the start of a sequence, and one row. *)
Lemma display_next_level_val_tx t :
  storeSampleFlag t = TRUE -> resetSampleFlag t = FALSE ->
  exists row,
    uart_tx (display_next_level_val t)
    = uart_tx t
      ++ (if sampleIndex t =? 0 then sample_header_text else [])
      ++ row
    /\ thin (sample_row_text (sampleIndex t) t) row
    /\ (uart_tx_full t = [] -> row = sample_row_text (sampleIndex t) t).
Proof.
  intros Hs Hr. unfold display_next_level_val. rewrite Hs.
  change (TRUE =? TRUE) with true. cbv iota zeta.
  assert (Hhead : exists left,
            (if sampleIndex (set_uartTxMode UART_NONE t) =? 0
             then display_sample_header (set_uartTxMode UART_NONE t)
             else set_uartTxMode UART_NONE t)
            = emit (if sampleIndex t =? 0 then sample_header_text else [])
                left (set_uartTxMode UART_NONE t)
            /\ (uart_tx_full t = [] -> left = [])).
  { cbn [sampleIndex set_uartTxMode]. destruct (sampleIndex t =? 0).
    - destruct (display_sample_header_all (set_uartTxMode UART_NONE t) I)
        as (sent & left & E & <- & X).
      exists left. split; [exact E|]. intros Hroom. apply X, Hroom.
    - exists (uart_tx_full t). split; [|auto].
      symmetry. apply (emit_nil (set_uartTxMode UART_NONE t)). }
  destruct Hhead as (l1 & -> & X1).
  destruct (display_sample_row_sends
              (emit (if sampleIndex t =? 0 then sample_header_text else [])
                 l1 (set_uartTxMode UART_NONE t)) I)
    as (row & l2 & -> & Hthin & X2).
  exists row.
  split; [|split; [exact Hthin|]].
  - match goal with
    | |- context [NUM_SAMPLES <=? ?x] => destruct (NUM_SAMPLES <=? x)
    end; fields; rewrite Hr; change (FALSE =? TRUE) with false; cbv iota;
      fields; rewrite <- ?app_assoc; reflexivity.
  - intros Hroom. apply X2. fields. apply X1, Hroom.
Qed.

Lemma command_effect_empty x :
  command_effect [] x = set_uartTxMode UART_NONE (set_storeSampleFlag TRUE x).
Proof. reflexivity. Qed.

(** X19. An empty line read by a turn of the loop with an idle console is
    served in that turn: after the line of the display mode, the turn
    transmits the sample header if the cursor is at 0, then one sample row
    with the axis label under the cursor, the processed values of sensors
    1 to 11, percent and height. The sign of the label and the two points
    of the row are offered to the transmit FIFO once each: the row arrives
    less those for which the FIFO was full, and whole when the FIFO has
    room. The cursor moves up one slot but not past the last, the mode
    becomes [UART_NONE], and the console is idle again. *)
Theorem sample_request_prints_row
  (e : env) (s : state) (t : Z) (rest : list Z) :
  idle_console s -> uart_rx s = t :: rest -> t = 13 \/ t = 10 ->
  0 <= sampleIndex s <= NUM_SAMPLES - 1 ->
  exists s' row,
    main_loop_body e s = Returns s'
    /\ uart_tx s'
       = uart_tx (display_mode (sensed e s))
         ++ (if sampleIndex s =? 0 then sample_header_text else [])
         ++ row
    /\ thin (sample_row_text (sampleIndex s) s') row
    /\ (uart_tx_full s = [] -> row = sample_row_text (sampleIndex s) s')
    /\ (uartTxMode s = UART_NONE ->
        uart_tx (display_mode (sensed e s)) = uart_tx s)
    /\ sampleIndex s' = Z.min (sampleIndex s + 1) (NUM_SAMPLES - 1)
    /\ idle_console s' /\ uartTxMode s' = UART_NONE /\ uart_rx s' = rest.
Proof.
  intros Hidle Hrx Ht Hk.
  pose proof Hidle as (Hcal & Hst & Hrs & Hix & Hbuf).
  unfold NUM_SAMPLES in *. change (20 - 1) with 19 in *.
  (* the console *)
  pose proof (main_loop_body_refines e s) as Href.
  rewrite (console_of_idle s Hidle), Hrx in Href.
  rewrite (console_cycle_empty_line e _ _ _ _ Ht Hk) in Href.
  apply refines_returns in Href. destruct Href as (s' & Hrun & Hcon).
  apply idle_of_console in Hcon.
  destruct Hcon as (Hidle' & Hmode' & Hcur' & Hrx').
  (* the transmit log *)
  assert (Hlog : exists row,
            uart_tx s'
            = uart_tx (display_mode (sensed e s))
              ++ (if sampleIndex s =? 0 then sample_header_text else [])
              ++ row
            /\ thin (sample_row_text (sampleIndex s) s') row
            /\ (uart_tx_full s = [] ->
                row = sample_row_text (sampleIndex s) s')).
  { clear Hidle' Hmode' Hcur' Hrx'.
    rewrite main_loop_body_no_cal in Hrun by (rewrite Hcal; discriminate).
    destruct (sensed_console e s) as [Hc _].
    pose proof (sensed_answers e s) as Ha. revert Hrun Hc Ha.
    generalize (sensed e s). intros u Hrun Hc Ha.
    unfold display_cur_liquid_level in Hrun.
    pose proof (display_mode_console u) as Hd.
    pose proof (console_display_mode_cases (console_of u)) as Hdc.
    cbv zeta in Hdc. rewrite <- Hd in Hdc. clear Hd.
    pose proof (display_mode_room u) as Hroom. rewrite Ha in Hroom. clear Ha.
    revert Hrun Hdc Hroom. generalize (display_mode u). intros w Hrun Hdc Hroom.
    assert (Hw : bufferIndex w = 0
                 /\ rxBuffer w = replicate (Z.to_nat RX_CAPACITY) 0
                 /\ uart_rx w = t :: rest
                 /\ resetSampleFlag w = FALSE /\ sampleIndex w = sampleIndex s).
    { unfold console_of in Hc. injection Hc as C1 C2 C3 C4 C5 C6 C7 C8.
      cbn [console_of con_cal con_rx con_index con_buffer con_store con_reset
           con_cursor con_mode] in Hdc.
      destruct Hdc as (D1 & D2 & D3 & D4 & D5 & D6 & D7 & _).
      repeat split; congruence. }
    destruct Hw as (Wix & Wbuf & Wrx & Wrs & Wcur). clear Hdc Hc.
    rewrite (holding_clean w Wix Wbuf), Wrx in Hrun.
    rewrite receive_end in Hrun;
      [|exact Ht|change (Z.to_nat RX_CAPACITY) with 32%nat; cbn; lia
       |constructor].
    cbn [and_then] in Hrun. injection Hrun as <-.
    rewrite !command_effect_empty.
    match goal with
    | |- context [display_next_level_val ?x] =>
        assert (Ht1 : uart_tx x = uart_tx w /\ storeSampleFlag x = TRUE
                      /\ resetSampleFlag x = FALSE
                      /\ sampleIndex x = sampleIndex w
                      /\ sensors x = sensors w
                      /\ uart_tx_full x = uart_tx_full w)
          by (unfold holding, sensors; fields; auto 10);
        pose proof (display_next_level_val_sensors x) as Hsens;
        pose proof (display_next_level_val_tx x) as Hsent;
        revert Ht1 Hsens Hsent;
        generalize (display_next_level_val x); generalize x
    end.
    intros t1 v (T1 & T2 & T3 & T4 & T5 & T6) Hsens Hsent.
    destruct (Hsent T2 T3) as (row & Hrow & Hthin & Hexact).
    assert (Htext : sample_row_text (sampleIndex t1) t1
                    = sample_row_text (sampleIndex s) v).
    { rewrite T5 in Hsens. unfold sensors in Hsens, T5.
      injection Hsens as S1 S2 S3 S4 S5 S6 S7 S8.
      injection T5 as V1 V2 V3 V4 V5 V6 V7 V8.
      unfold sample_row_text. rewrite T4, Wcur, V2, V3, V7, S2, S3, S7.
      reflexivity. }
    exists row. split; [rewrite Hrow, T1, T4, Wcur; reflexivity|].
    rewrite <- Htext. split; [exact Hthin|].
    intros Hs0. apply Hexact. rewrite T6. apply Hroom, Hs0. }
  destruct Hlog as (row & L1 & L2 & L3).
  exists s', row. split; [exact Hrun|]. split; [exact L1|].
  split; [exact L2|]. split; [exact L3|].
  split; [|split; [exact Hcur'|split; [exact Hidle'|split; assumption]]].
  intros Hmode. destruct (sensed_console e s) as [Hc Htx]. revert Hc Htx.
  generalize (sensed e s). intros u Hc Htx. unfold display_mode.
  replace (uartTxMode u) with UART_NONE
    by (unfold console_of in Hc; congruence).
  rewrite <- Htx. reflexivity.
Qed.

Lemma sample_request_prints_row_witness :
  idle_console (typed [13] (set_uartTxMode UART_NONE power_on))
  /\ exists s',
       main_loop_body sample_scan
         (typed [13] (set_uartTxMode UART_NONE power_on)) = Returns s'
       /\ uart_tx s' = sample_header_text ++ sample_row_text 0 s'
       /\ sampleIndex s' = 1
       /\ uart_rx s' = [].
Proof.
  assert (Hidle : idle_console (typed [13] (set_uartTxMode UART_NONE power_on)))
    by (repeat split; reflexivity).
  split; [exact Hidle|].
  destruct (sample_request_prints_row sample_scan
              (typed [13] (set_uartTxMode UART_NONE power_on)) 13 []
              Hidle eq_refl (or_introl eq_refl))
    as (s' & row & Hrun & Htx & _ & Hwhole & Hquiet & Hcur & _ & _ & Hrx).
  { cbn. unfold NUM_SAMPLES. lia. }
  exists s'. split; [exact Hrun|].
  split; [rewrite Htx, (Hquiet eq_refl), (Hwhole eq_refl); reflexivity|].
  split; [exact Hcur|exact Hrx].
Defined.

(** ** A turn that finds the scan running *)

(** X20. A turn that finds the scan still running leaves the raw,
    difference and processed values, the active count, the baselines and
    the EEPROM as they were, and recomputes the two level values from the
    count it found. *)
Theorem busy_turn_keeps_readings (e : env) (s s' : state) :
  capsense_busy e = true -> main_loop_body e s = Returns s' ->
  sensorRaw s' = sensorRaw s /\ sensorDiff s' = sensorDiff s
  /\ sensorProcessed s' = sensorProcessed s
  /\ sensorActiveCount s' = sensorActiveCount s
  /\ sensorEmptyOffset s' = sensorEmptyOffset s /\ eeprom s' = eeprom s
  /\ levelMm s' = levelMm (main_level s)
  /\ levelPercent s' = levelPercent (main_level s).
Proof.
  intros Hb Hrun.
  destruct (turn_sensing e s s' Hrun) as (u & Hu & Hs).
  rewrite Hb in Hu. injection Hu as <-.
  pose proof (main_level_outside s) as Fl. revert Hs Fl.
  generalize (main_level s). intros v Hs Fl.
  unfold sensors, outside_level in *.
  injection Hs as S1 S2 S3 S4 S5 S6 S7 S8.
  injection Fl as F1 F2 F3 F4 F5 F6 F7 F8 F9 F10 F11 F12 F13 F14 F15.
  repeat split; congruence.
Qed.

Lemma busy_turn_keeps_readings_witness :
  capsense_busy sample_busy = true
  /\ exists s',
       main_loop_body sample_busy (set_sensorActiveCount 11 power_on)
       = Returns s'
       /\ sensorActiveCount s' = 11
       /\ levelMm s' = 19580.
Proof.
  split; [reflexivity|].
  destruct (main_loop_body sample_busy (set_sensorActiveCount 11 power_on))
    as [s'|s'|i s'] eqn:E;
    [|vm_compute in E; discriminate E|vm_compute in E; discriminate E].
  exists s'. split; [reflexivity|].
  destruct (busy_turn_keeps_readings sample_busy _ s' eq_refl E)
    as (_ & _ & _ & Hc & _ & _ & Hmm & _).
  split; [exact Hc|exact Hmm].
Defined.

(** ** The readings as a function of the counts *)

Lemma lists_equal (n : nat) (a b : list Z) :
  length a = n -> length b = n ->
  (forall i, (i < n)%nat -> a !!! i = b !!! i) -> a = b.
Proof.
  intros La Lb H. apply list_eq. intros i.
  destruct (decide (i < n)%nat) as [Hi|Hi].
  - rewrite (list_lookup_lookup_total_lt a i) by lia.
    rewrite (list_lookup_lookup_total_lt b i) by lia.
    f_equal. apply H, Hi.
  - rewrite !lookup_ge_None_2 by lia. reflexivity.
Qed.

(** The readings when the block run on a complete scan returns, from the
    counts of the scan and the baselines before it. *)
Lemma scan_values e s s' :
  well_formed s -> main_scan_complete e s = Returns s' ->
  well_formed s'
  /\ sensorActiveCount s' = weighted_sum (sensorProcessed s') NUMSENSORS
  /\ forall i, (i < NUMSENSORS)%nat ->
       sensorRaw s' !!! i = raw_count e i
       /\ sensorDiff s' !!! i
          = (let d := wrap32 (raw_count e i
                              - (if decide (cal_flag s = TRUE)
                                 then raw_count e i
                                 else sensorEmptyOffset s !!! i)) in
             if d <? 0 then 0 else d)
       /\ sensorProcessed s' !!! i
          = Z.shiftr (wrap32 (sensorDiff s' !!! i * sensorScale !!! i)) 8.
Proof.
  intros Hwf Hrun.
  destruct (scan_complete_shape e s s' Hwf Hrun)
    as (c & -> & Hc & Hraw & Hplain & Hcal).
  split; [apply well_formed_pipeline, Hc|].
  destruct Hc as [_ Ld _ Lp].
  destruct (main_pipeline_spec c Ld Lp) as (_ & _ & Ep & Ea).
  split; [exact Ea|]. intros i Hi.
  destruct (Ep i Hi) as (Ed & Epr). destruct (Hraw i Hi) as (Hr & Hd).
  pose proof (main_pipeline_outside c) as F.
  split.
  { replace (sensorRaw (main_pipeline c)) with (sensorRaw c) by frame.
    exact Hr. }
  rewrite Epr, Ed. split; [|reflexivity].
  unfold diff_of. rewrite Hd. cbv zeta.
  destruct (decide (cal_flag s = TRUE)) as [Hf|Hf].
  - destruct (Hcal Hf) as (_ & Eo & _). rewrite (Eo i Hi). reflexivity.
  - destruct (Hplain Hf) as (-> & _). reflexivity.
Qed.

(** X21. The readings have no memory: from two states with arrays of the
    declared lengths, the same first twelve baselines and the same
    calibration request, the block run on a complete scan yields, for the
    same counts, the same raw, difference and processed values, the same
    active count and the same level. *)
Theorem readings_have_no_memory (e : env) (s1 s2 s1' s2' : state) :
  well_formed s1 -> well_formed s2 ->
  (cal_flag s1 = TRUE <-> cal_flag s2 = TRUE) ->
  (forall i, (i < NUMSENSORS)%nat ->
     sensorEmptyOffset s1 !!! i = sensorEmptyOffset s2 !!! i) ->
  main_scan_complete e s1 = Returns s1' ->
  main_scan_complete e s2 = Returns s2' ->
  sensorRaw s1' = sensorRaw s2' /\ sensorDiff s1' = sensorDiff s2'
  /\ sensorProcessed s1' = sensorProcessed s2'
  /\ sensorActiveCount s1' = sensorActiveCount s2'
  /\ levelMm (main_level s1') = levelMm (main_level s2')
  /\ levelPercent (main_level s1') = levelPercent (main_level s2').
Proof.
  intros Hwf1 Hwf2 Hcal Hoff Hrun1 Hrun2.
  destruct (scan_values e s1 s1' Hwf1 Hrun1) as ([Lr1 Ld1 _ Lp1] & Ha1 & V1).
  destruct (scan_values e s2 s2' Hwf2 Hrun2) as ([Lr2 Ld2 _ Lp2] & Ha2 & V2).
  assert (Hd : forall i, (i < NUMSENSORS)%nat ->
            sensorDiff s1' !!! i = sensorDiff s2' !!! i).
  { intros i Hi. destruct (V1 i Hi) as (_ & -> & _).
    destruct (V2 i Hi) as (_ & -> & _). rewrite (Hoff i Hi).
    destruct (decide (cal_flag s1 = TRUE)) as [H1|H1];
      destruct (decide (cal_flag s2 = TRUE)) as [H2|H2];
      try reflexivity; tauto. }
  assert (Eraw : sensorRaw s1' = sensorRaw s2').
  { apply (lists_equal NUMSENSORS); try assumption. intros i Hi.
    destruct (V1 i Hi) as (-> & _). destruct (V2 i Hi) as (-> & _).
    reflexivity. }
  assert (Ediff : sensorDiff s1' = sensorDiff s2')
    by (apply (lists_equal NUMSENSORS); assumption).
  assert (Eproc : sensorProcessed s1' = sensorProcessed s2').
  { apply (lists_equal NUMSENSORS); try assumption. intros i Hi.
    destruct (V1 i Hi) as (_ & _ & ->). destruct (V2 i Hi) as (_ & _ & ->).
    rewrite Ediff. reflexivity. }
  assert (Ecount : sensorActiveCount s1' = sensorActiveCount s2')
    by (rewrite Ha1, Ha2, Eproc; reflexivity).
  split; [exact Eraw|]. split; [exact Ediff|]. split; [exact Eproc|].
  split; [exact Ecount|].
  rewrite !main_level_percent, !main_level_mm, Ecount. split; reflexivity.
Qed.

Lemma readings_have_no_memory_witness :
  well_formed power_on
  /\ well_formed (set_sensorProcessed (replicate NUMSENSORS 700) power_on)
  /\ exists s1' s2',
       main_scan_complete sample_scan power_on = Returns s1'
       /\ main_scan_complete sample_scan
            (set_sensorProcessed (replicate NUMSENSORS 700) power_on)
          = Returns s2'
       /\ sensorProcessed s1' = sensorProcessed s2'
       /\ sensorActiveCount s1' = sensorActiveCount s2'.
Proof.
  assert (H2 : well_formed
                 (set_sensorProcessed (replicate NUMSENSORS 700) power_on))
    by (split; reflexivity).
  split; [exact power_on_well_formed|]. split; [exact H2|].
  destruct (main_scan_complete sample_scan power_on) as [s1'|s1'|i s1'] eqn:E1;
    [|vm_compute in E1; discriminate E1|vm_compute in E1; discriminate E1].
  destruct (main_scan_complete sample_scan
              (set_sensorProcessed (replicate NUMSENSORS 700) power_on))
    as [s2'|s2'|i s2'] eqn:E2;
    [|vm_compute in E2; discriminate E2|vm_compute in E2; discriminate E2].
  exists s1', s2'. split; [reflexivity|]. split; [reflexivity|].
  destruct (readings_have_no_memory sample_scan power_on
              (set_sensorProcessed (replicate NUMSENSORS 700) power_on)
              s1' s2' power_on_well_formed H2)
    as (_ & _ & Hp & Hc & _); try assumption.
  - split; intros H; discriminate H.
  - intros i _. reflexivity.
  - split; [exact Hp|exact Hc].
Defined.

(** ** More signal, no lower level *)

Lemma weighted_sum_mono a b n :
  (forall i, (i < n)%nat -> submerged a i = true -> submerged b i = true) ->
  weighted_sum a n <= weighted_sum b n.
Proof.
  induction n as [|n IH]; intros H; [reflexivity|].
  cbn [weighted_sum]. specialize (IH ltac:(intros i Hi; apply H; lia)).
  pose proof (weight_range n) as Hw. specialize (H n ltac:(lia)).
  destruct (submerged a n); [rewrite H by reflexivity; lia|].
  destruct (submerged b n); lia.
Qed.

Lemma main_level_order s t :
  0 <= sensorActiveCount s <= sensorActiveCount t ->
  sensorActiveCount t <= 22 ->
  levelMm (main_level s) <= levelMm (main_level t)
  /\ levelPercent (main_level s) <= levelPercent (main_level t).
Proof.
  intros Hs Ht.
  destruct (main_level_values s) as (Ms & Ps); [unfold in_uint8; lia|].
  destruct (main_level_values t) as (Mt & Pt); [unfold in_uint8; lia|].
  assert (Hmm : 0 <= levelMm (main_level s) <= levelMm (main_level t)).
  { rewrite Ms, Mt.
    destruct (21 <? sensorActiveCount s) eqn:H1;
      [apply Z.ltb_lt in H1|apply Z.ltb_ge in H1];
      destruct (21 <? sensorActiveCount t) eqn:H2;
      [apply Z.ltb_lt in H2|apply Z.ltb_ge in H2
      |apply Z.ltb_lt in H2|apply Z.ltb_ge in H2]; lia. }
  split; [lia|]. rewrite Ps, Pt. apply Z.div_le_mono; lia.
Qed.

(** X22. More signal never lowers the level: from the same state, with
    16-bit counts and baselines in range, a scan whose counts are sensor by
    sensor at least those of another yields difference and processed
    values, an active count and a level that are at least those of the
    other. *)
Theorem level_monotone_in_counts (e1 e2 : env) (s s1 s2 : state) :
  well_formed s -> baseline_ok s -> counts_ok e1 -> counts_ok e2 ->
  (forall i, (i < NUMSENSORS)%nat -> raw_count e1 i <= raw_count e2 i) ->
  main_scan_complete e1 s = Returns s1 ->
  main_scan_complete e2 s = Returns s2 ->
  (forall i, (i < NUMSENSORS)%nat ->
     sensorDiff s1 !!! i <= sensorDiff s2 !!! i
     /\ sensorProcessed s1 !!! i <= sensorProcessed s2 !!! i)
  /\ sensorActiveCount s1 <= sensorActiveCount s2
  /\ levelMm (main_level s1) <= levelMm (main_level s2)
  /\ levelPercent (main_level s1) <= levelPercent (main_level s2).
Proof.
  intros Hwf Hb Hc1 Hc2 Hle Hrun1 Hrun2.
  destruct (scan_values e1 s s1 Hwf Hrun1) as (_ & Ha1 & V1).
  destruct (scan_values e2 s s2 Hwf Hrun2) as (_ & Ha2 & V2).
  assert (Hvals : forall i, (i < NUMSENSORS)%nat ->
            0 <= sensorDiff s1 !!! i <= sensorDiff s2 !!! i
            /\ sensorProcessed s1 !!! i <= sensorProcessed s2 !!! i).
  { intros i Hi.
    destruct (V1 i Hi) as (_ & D1 & P1). destruct (V2 i Hi) as (_ & D2 & P2).
    specialize (Hc1 i Hi). specialize (Hc2 i Hi). specialize (Hle i Hi).
    specialize (Hb i Hi). unfold in_uint16 in *. cbv zeta in D1, D2.
    assert (R : 0 <= sensorDiff s1 !!! i <= sensorDiff s2 !!! i
                /\ sensorDiff s2 !!! i < 2 ^ 17).
    { rewrite D1, D2.
      destruct (decide (cal_flag s = TRUE)).
      - rewrite !Z.sub_diag. change (wrap32 0) with 0.
        change (0 <? 0) with false. cbv iota. lia.
      - rewrite !wrap32_small by (unfold in_int32; lia).
        destruct (raw_count e1 i - sensorEmptyOffset s !!! i <? 0) eqn:T1;
          [apply Z.ltb_lt in T1|apply Z.ltb_ge in T1];
          destruct (raw_count e2 i - sensorEmptyOffset s !!! i <? 0) eqn:T2;
          [apply Z.ltb_lt in T2|apply Z.ltb_ge in T2
          |apply Z.ltb_lt in T2|apply Z.ltb_ge in T2]; lia. }
    split; [lia|]. rewrite P1, P2.
    pose proof (scale_range i) as Hs.
    rewrite !wrap32_small by (unfold in_int32; nia).
    rewrite !Z.shiftr_div_pow2 by lia. apply Z.div_le_mono; [lia|nia]. }
  split; [intros i Hi; specialize (Hvals i Hi); lia|].
  assert (Hcount : sensorActiveCount s1 <= sensorActiveCount s2).
  { rewrite Ha1, Ha2. apply weighted_sum_mono. intros i Hi.
    unfold submerged. intros H. apply Z.ltb_lt in H. apply Z.ltb_lt.
    specialize (Hvals i Hi). lia. }
  split; [exact Hcount|].
  apply main_level_order.
  - pose proof (weighted_sum_at_most_22 (sensorProcessed s1)). lia.
  - pose proof (weighted_sum_at_most_22 (sensorProcessed s2)). lia.
Qed.

Lemma sample_scan_low_counts_ok : counts_ok sample_scan_low.
Proof. intros i _. unfold in_uint16. cbn. lia. Qed.

Lemma level_monotone_in_counts_witness :
  well_formed power_on /\ baseline_ok power_on
  /\ counts_ok sample_scan_low /\ counts_ok sample_scan
  /\ exists s1 s2,
       main_scan_complete sample_scan_low power_on = Returns s1
       /\ main_scan_complete sample_scan power_on = Returns s2
       /\ sensorActiveCount s1 <= sensorActiveCount s2
       /\ levelMm (main_level s1) <= levelMm (main_level s2).
Proof.
  split; [exact power_on_well_formed|]. split; [exact power_on_baseline_ok|].
  split; [exact sample_scan_low_counts_ok|].
  split; [exact sample_scan_counts_ok|].
  destruct (main_scan_complete sample_scan_low power_on)
    as [s1|s1|i s1] eqn:E1;
    [|vm_compute in E1; discriminate E1|vm_compute in E1; discriminate E1].
  destruct (main_scan_complete sample_scan power_on) as [s2|s2|i s2] eqn:E2;
    [|vm_compute in E2; discriminate E2|vm_compute in E2; discriminate E2].
  exists s1, s2. split; [reflexivity|]. split; [reflexivity|].
  destruct (level_monotone_in_counts sample_scan_low sample_scan power_on
              s1 s2 power_on_well_formed power_on_baseline_ok
              sample_scan_low_counts_ok sample_scan_counts_ok)
    as (_ & Hc & Hmm & _); try assumption.
  - intros i _. cbn. lia.
  - split; [exact Hc|exact Hmm].
Defined.

(** ** Rows and their headers *)

Lemma commas_app a b : commas (a ++ b) = (commas a + commas b)%nat.
Proof. unfold commas. apply count_occ_app. Qed.

Lemma commas_none line : Forall (fun b => b <> 44) line -> commas line = 0%nat.
Proof.
  intros H. unfold commas. apply count_occ_not_In. intros Hin.
  rewrite Forall_forall in H. apply (H 44); [|reflexivity].
  apply list_elem_of_In, Hin.
Qed.

Lemma commas_slots (f : nat -> list Z) (k : nat) (l : list nat) :
  (forall i, commas (f i) = k) ->
  commas (concat (map f l)) = (k * length l)%nat.
Proof.
  intros H. induction l as [|i l IH]; [cbn; lia|].
  cbn [map concat length]. rewrite commas_app, H, IH. lia.
Qed.

Lemma decimal_val_text_no_comma number leading_zeros :
  commas (decimal_val_text number leading_zeros) = 0%nat.
Proof.
  apply commas_none. unfold decimal_val_text. apply Forall_app. split.
  - destruct (number <? 0); repeat constructor. discriminate.
  - eapply Forall_impl; [apply digit_row_bytes|]. cbv beta. intros; lia.
Qed.

Lemma decimal_fixed_val_text_no_comma number fixed_shift num_decimal :
  commas (decimal_fixed_val_text number fixed_shift num_decimal) = 0%nat.
Proof.
  unfold decimal_fixed_val_text. cbv zeta.
  rewrite commas_app, decimal_val_text_no_comma.
  destruct (0 <? (if 9 <? num_decimal then 9 else num_decimal));
    [|reflexivity].
  rewrite commas_app, decimal_val_text_no_comma. reflexivity.
Qed.

(** A sign or a point that is lost is no comma. *)
Lemma thin_commas offered sent :
  thin offered sent -> commas sent = commas offered.
Proof.
  unfold commas.
  induction 1 as [|b offered sent _ IH|b offered sent Hb _ IH].
  - reflexivity.
  - cbn [count_occ]. destruct (Z.eq_dec b 44); rewrite IH; reflexivity.
  - rewrite IH. symmetry. apply count_occ_cons_neq. lia.
Qed.

(** X23. Each data row has as many fields as its header: the four
    renderers only transmit, a CSV header and a CSV data row hold 38
    commas each, a sample header and a sample row 13 each, whatever the
    readings and whatever signs and points the transmit FIFO refuses. *)
Theorem rows_have_header_columns (t : state) :
  exists header row sample_header sample_row left1 left2 left3 left4,
    display_csv_header t = set_uartTxMode UART_CSV (emit header left1 t)
    /\ display_csv_row t = emit row left2 t
    /\ display_sample_header t = emit sample_header left3 t
    /\ display_sample_row t = emit sample_row left4 t
    /\ commas header = 38%nat /\ commas row = 38%nat
    /\ commas sample_header = 13%nat /\ commas sample_row = 13%nat.
Proof.
  destruct (display_csv_header_emit t) as (left1 & E1 & _).
  destruct (display_csv_row_sends t I) as (row & left2 & E2 & T2 & _).
  destruct (display_sample_header_all t I) as (sh & left3 & E3 & <- & _).
  destruct (display_sample_row_sends t I) as (sr & left4 & E4 & T4 & _).
  exists csv_header_text, row, sample_header_text, sr,
    left1, left2, left3, left4.
  split; [exact E1|]. split; [exact E2|]. split; [exact E3|].
  split; [exact E4|].
  split; [reflexivity|]. split.
  { rewrite (thin_commas _ _ T2). unfold csv_row_text.
    rewrite !commas_app, (commas_slots _ 3).
    - rewrite !decimal_val_text_no_comma, !decimal_fixed_val_text_no_comma.
      reflexivity.
    - intros i. unfold csv_slot_text.
      rewrite !commas_app, !decimal_val_text_no_comma. reflexivity. }
  split; [reflexivity|].
  rewrite (thin_commas _ _ T4). unfold sample_row_text.
  rewrite !commas_app, (commas_slots _ 1).
  - rewrite !decimal_val_text_no_comma, !decimal_fixed_val_text_no_comma.
    reflexivity.
  - intros i. rewrite commas_app, decimal_val_text_no_comma. reflexivity.
Qed.

(** ** Commands through the loop *)

Lemma well_formed_turn e s s' :
  well_formed s -> main_loop_body e s = Returns s' -> well_formed s'.
Proof.
  intros Hwf Hrun.
  destruct (turn_sensing e s s' Hrun) as (u & Hu & Hs).
  assert (Hu' : well_formed u).
  { destruct (capsense_busy e).
    - injection Hu as <-. exact Hwf.
    - destruct (scan_complete_shape e s u Hwf Hu) as (c & -> & Hc & _).
      apply well_formed_pipeline, Hc. }
  destruct Hu' as [Lr Ld Lo Lp].
  pose proof (main_level_outside u) as Fl. revert Hs Fl.
  generalize (main_level u). intros v Hs Fl.
  unfold sensors, outside_level in *.
  injection Hs as S1 S2 S3 S4 S5 S6 S7 S8.
  injection Fl as F1 F2 F3 F4 F5 F6 F7 F8 F9 F10 F11 F12 F13 F14 F15.
  split; congruence.
Qed.

Lemma well_formed_loop es : forall s s',
  well_formed s -> main_loop es s = Returns s' -> well_formed s'.
Proof.
  induction es as [|e es IH]; intros s s' Hwf Hrun.
  - injection Hrun as <-. exact Hwf.
  - cbn [main_loop] in Hrun.
    destruct (main_loop_body e s) as [t|t|i t] eqn:Ht; cbn [and_then] in Hrun;
      try discriminate.
    exact (IH t s' (well_formed_turn e s t Hwf Ht) Hrun).
Qed.

(** X24. The three commands that set the display mode, typed into an
    idle console and followed by one terminator: after as many turns of the
    loop as the line has bytes, whatever those turns sense, the mode is the
    one the command names ([stop]: none, [basic]: BASIC, [csv]: CSV-INIT),
    the console is idle again, the FIFO is empty and the sample cursor is
    where it was. *)
Theorem mode_commands_take_effect
  (s : state) (es : list env) (line : list Z) (mode t : Z) :
  In (line, mode) mode_commands ->
  idle_console s -> t = 13 \/ t = 10 ->
  uart_rx s = line ++ [t] -> length es = S (length line) ->
  exists s',
    main_loop es s = Returns s'
    /\ uartTxMode s' = mode
    /\ idle_console s' /\ uart_rx s' = [] /\ sampleIndex s' = sampleIndex s.
Proof.
  intros Hin Hidle Ht Hrx Hlen.
  assert (Hloop : console_loop es (console_of s)
                  = ConReturns (mkConsole mode FALSE FALSE FALSE 0
                                  (replicate (Z.to_nat RX_CAPACITY) 0)
                                  (sampleIndex s) [])).
  { rewrite (console_of_idle s Hidle), Hrx.
    destruct Hin as [E|[E|[E|[]]]]; injection E as <- <-;
      cbn [length text list_ascii_of_string map] in Hlen;
      repeat (destruct es as [|? es]; [discriminate Hlen|]);
      (destruct es; [|discriminate Hlen]);
      destruct Ht; subst t; vm_compute; reflexivity. }
  destruct (main_loop_console es s _ Hloop) as (s' & Hrun & Hc).
  exists s'. split; [exact Hrun|].
  destruct (idle_of_console _ _ _ _ Hc) as (Hi & Hmode & Hcur & Hr). auto.
Qed.

Lemma mode_commands_take_effect_witness :
  In (text "stop", UART_NONE) mode_commands
  /\ idle_console (typed (text "stop" ++ [13]) power_on)
  /\ exists s',
       main_loop (replicate 5 sample_scan)
         (typed (text "stop" ++ [13]) power_on) = Returns s'
       /\ uartTxMode s' = UART_NONE /\ idle_console s' /\ uart_rx s' = [].
Proof.
  assert (Hin : In (text "stop", UART_NONE) mode_commands)
    by (left; reflexivity).
  assert (Hidle : idle_console (typed (text "stop" ++ [13]) power_on))
    by (repeat split; reflexivity).
  split; [exact Hin|]. split; [exact Hidle|].
  destruct (mode_commands_take_effect
              (typed (text "stop" ++ [13]) power_on)
              (replicate 5 sample_scan) (text "stop") UART_NONE 13
              Hin Hidle (or_introl eq_refl) eq_refl eq_refl)
    as (s' & Hrun & Hmode & Hidle' & Hrx & _).
  exists s'. auto.
Defined.

(** X25. The [cal] command from the keyboard to the baselines: typed into
    an idle console with one terminator, the line is read in four turns of
    the loop, after which the calibration flag is set; the next turn that
    finds the scan complete and the EEPROM write accepted makes the counts
    of that scan the baselines, so that every difference and processed
    value, the active count, the height and the percentage are 0, and
    leaves the console idle with the flag cleared. *)
Theorem cal_command_calibrates
  (s : state) (es : list env) (e : env) (t : Z) :
  well_formed s -> idle_console s -> t = 13 \/ t = 10 ->
  uart_rx s = text "cal" ++ [t] -> length es = 4%nat ->
  capsense_busy e = false -> eeprom_write_ok e = true ->
  exists s1 s2,
    main_loop es s = Returns s1 /\ cal_flag s1 = TRUE
    /\ main_loop_body e s1 = Returns s2
    /\ idle_console s2
    /\ (forall i, (i < NUMSENSORS)%nat ->
          sensorEmptyOffset s2 !!! i = raw_count e i
          /\ sensorDiff s2 !!! i = 0 /\ sensorProcessed s2 !!! i = 0)
    /\ sensorActiveCount s2 = 0 /\ levelMm s2 = 0 /\ levelPercent s2 = 0.
Proof.
  intros Hwf Hidle Ht Hrx Hlen Hbusy Hok.
  (* the line is read *)
  assert (Hloop : exists c,
            console_loop es (console_of s) = ConReturns c
            /\ con_cal c = TRUE /\ con_store c = FALSE /\ con_reset c = FALSE
            /\ con_index c = 0
            /\ con_buffer c = replicate (Z.to_nat RX_CAPACITY) 0
            /\ con_rx c = []).
  { rewrite (console_of_idle s Hidle), Hrx.
    do 4 (destruct es as [|? es]; [discriminate|]).
    destruct es; [|discriminate].
    destruct Ht; subst t; eexists; (split; [vm_compute; reflexivity|]);
      repeat split; reflexivity. }
  destruct Hloop as (c1 & Hloop & C1 & C2 & C3 & C4 & C5 & C6).
  destruct (main_loop_console es s c1 Hloop) as (s1 & Hrun1 & Hcon1).
  pose proof (well_formed_loop es s s1 Hwf Hrun1) as Hwf1.
  assert (Hfields : cal_flag s1 = TRUE /\ storeSampleFlag s1 = FALSE
                    /\ resetSampleFlag s1 = FALSE /\ bufferIndex s1 = 0
                    /\ rxBuffer s1 = replicate (Z.to_nat RX_CAPACITY) 0
                    /\ uart_rx s1 = []).
  { subst c1. cbn [console_of con_cal con_store con_reset con_index
                   con_buffer con_rx] in *. auto 10. }
  destruct Hfields as (F1 & F2 & F3 & F4 & F5 & F6).
  exists s1.
  (* the turn that saves *)
  assert (Hturn : console_cycle e (console_of s1)
                  = ConReturns
                      (mkConsole
                         (con_mode (console_display_mode (console_of s1)))
                         FALSE FALSE FALSE 0
                         (replicate (Z.to_nat RX_CAPACITY) 0)
                         (sampleIndex s1) [])).
  { unfold console_cycle, console_scan, console_of.
    rewrite F1, F2, F3, F4, F5, F6, Hbusy, Hok.
    change (TRUE =? TRUE) with true. cbv iota. reflexivity. }
  pose proof (main_loop_body_refines e s1) as Href. rewrite Hturn in Href.
  apply refines_returns in Href. destruct Href as (s2 & Hrun2 & Hcon2).
  exists s2. split; [exact Hrun1|]. split; [exact F1|].
  split; [exact Hrun2|].
  destruct (idle_of_console _ _ _ _ Hcon2) as (Hidle2 & _).
  split; [exact Hidle2|].
  destruct (turn_sensing e s1 s2 Hrun2) as (u & Hu & Hs).
  rewrite Hbusy in Hu.
  destruct (scan_complete_shape e s1 u Hwf1 Hu)
    as (c & -> & [_ Ld _ Lp] & Hraw & _ & Hcal).
  destruct (Hcal F1) as (_ & Eo & _).
  destruct (main_pipeline_spec c Ld Lp) as (_ & _ & Ep & Ea).
  pose proof (main_pipeline_outside c) as Fp.
  generalize dependent (main_pipeline c). intros v Hs Hu Ep Ea Fp.
  assert (Hslots : forall i, (i < NUMSENSORS)%nat ->
            sensorEmptyOffset v !!! i = raw_count e i
            /\ sensorDiff v !!! i = 0 /\ sensorProcessed v !!! i = 0).
  { intros i Hi. destruct (Ep i Hi) as [Ed Epr].
    destruct (Hraw i Hi) as (_ & Dc).
    assert (O : sensorEmptyOffset v = sensorEmptyOffset c) by frame.
    rewrite Ed, Epr, O, diff_of_calibrated, processed_of_calibrated
      by (rewrite Dc, (Eo i Hi); reflexivity).
    split; [apply Eo, Hi|split; reflexivity]. }
  assert (Hac : sensorActiveCount v = 0).
  { rewrite Ea. apply weighted_sum_dry. intros i Hi.
    destruct (Hslots i Hi) as (_ & _ & ->). lia. }
  assert (Hmm : levelMm (main_level v) = 0).
  { rewrite main_level_mm, Hac. reflexivity. }
  assert (Hpc : levelPercent (main_level v) = 0).
  { rewrite main_level_percent, Hmm. reflexivity. }
  pose proof (main_level_outside v) as Fl.
  generalize dependent (main_level v). intros w Hs Hmm Hpc Fl.
  unfold sensors, outside_level in *.
  injection Hs as S1 S2 S3 S4 S5 S6 S7 S8.
  injection Fl as G1 G2 G3 G4 G5 G6 G7 G8 G9 G10 G11 G12 G13 G14 G15.
  rewrite S1, S2, S3, S5, S6, S7, G1, G4, G5, G6.
  split; [exact Hslots|]. split; [exact Hac|]. split; assumption.
Qed.

Lemma cal_command_calibrates_witness :
  well_formed (typed (text "cal" ++ [10]) power_on)
  /\ idle_console (typed (text "cal" ++ [10]) power_on)
  /\ exists s1 s2,
       main_loop (replicate 4 sample_busy)
         (typed (text "cal" ++ [10]) power_on) = Returns s1
       /\ cal_flag s1 = TRUE
       /\ main_loop_body sample_scan s1 = Returns s2
       /\ idle_console s2
       /\ sensorEmptyOffset s2 !!! 11%nat = 1000
       /\ sensorActiveCount s2 = 0 /\ levelMm s2 = 0 /\ levelPercent s2 = 0.
Proof.
  assert (Hwf : well_formed (typed (text "cal" ++ [10]) power_on))
    by (split; reflexivity).
  assert (Hidle : idle_console (typed (text "cal" ++ [10]) power_on))
    by (repeat split; reflexivity).
  split; [exact Hwf|]. split; [exact Hidle|].
  destruct (cal_command_calibrates
              (typed (text "cal" ++ [10]) power_on)
              (replicate 4 sample_busy) sample_scan 10
              Hwf Hidle (or_intror eq_refl) eq_refl eq_refl eq_refl eq_refl)
    as (s1 & s2 & Hrun1 & Hcal & Hrun2 & Hidle2 & Hslots & Hc & Hmm & Hpc).
  exists s1, s2. split; [exact Hrun1|]. split; [exact Hcal|].
  split; [exact Hrun2|]. split; [exact Hidle2|].
  split; [apply (Hslots 11%nat); unfold NUMSENSORS; lia|]. auto.
Defined.

(** ** The level for a container filled from below *)

(** X26. A container filled from below: when the normalisation loop finds
    the lowest [k] sensors submerged and the others not, the active count
    is 0 for [k = 0], [2 k - 1] for [k] from 1 to 11, and 22 for all
    twelve; the height is that count times half a slot height, the middle
    of the highest submerged sensor, and the full 153.0 mm for all
    twelve. *)
Theorem level_of_contiguous_fill (s : state) (k : nat) :
  length (sensorDiff s) = NUMSENSORS ->
  length (sensorProcessed s) = NUMSENSORS ->
  (k <= NUMSENSORS)%nat ->
  (forall i, (i < NUMSENSORS)%nat ->
     submerged (sensorProcessed (main_pipeline s)) i = bool_decide (i < k)%nat) ->
  sensorActiveCount (main_pipeline s)
  = (if decide (k = 0%nat) then 0
     else if decide (k = NUMSENSORS) then 22 else 2 * Z.of_nat k - 1)
  /\ levelMm (main_level (main_pipeline s))
     = (if decide (k = NUMSENSORS) then Z.shiftl LEVELMM_MAX 8
        else sensorActiveCount (main_pipeline s) * Z.shiftr sensorHeight 1).
Proof.
  intros Ld Lp Hk Hsub.
  destruct (main_pipeline_spec s Ld Lp) as (_ & _ & _ & Ea).
  assert (Hcount : sensorActiveCount (main_pipeline s)
                   = if decide (k = 0%nat) then 0
                     else if decide (k = NUMSENSORS) then 22
                          else 2 * Z.of_nat k - 1).
  { rewrite Ea. unfold NUMSENSORS in *. cbn [weighted_sum].
    rewrite !Hsub by lia.
    do 13 (destruct k as [|k]; [reflexivity|]). lia. }
  split; [exact Hcount|].
  destruct (main_level_values (main_pipeline s)) as (Hmm & _).
  { rewrite Hcount. unfold in_uint8, NUMSENSORS in *.
    repeat case_decide; lia. }
  rewrite Hmm, Hcount. unfold NUMSENSORS in *.
  change (Z.shiftl LEVELMM_MAX 8) with 39168.
  change (Z.shiftr sensorHeight 1) with 1780.
  destruct (decide (k = 0%nat)) as [->|H0]; [reflexivity|].
  destruct (decide (k = 12%nat)) as [->|H12]; [reflexivity|].
  replace (21 <? 2 * Z.of_nat k - 1) with false
    by (symmetry; apply Z.ltb_ge; lia).
  reflexivity.
Qed.

Lemma level_of_contiguous_fill_witness :
  exists s,
    s = main_read_counts sample_scan_five power_on
    /\ length (sensorDiff s) = NUMSENSORS
    /\ length (sensorProcessed s) = NUMSENSORS
    /\ (5 <= NUMSENSORS)%nat
    /\ (forall i, (i < NUMSENSORS)%nat ->
          submerged (sensorProcessed (main_pipeline s)) i
          = bool_decide (i < 5)%nat)
    /\ sensorActiveCount (main_pipeline s) = 9
    /\ levelMm (main_level (main_pipeline s)) = 9 * 1780.
Proof.
  exists (main_read_counts sample_scan_five power_on).
  assert (Hsub : forall i, (i < NUMSENSORS)%nat ->
            submerged (sensorProcessed
                         (main_pipeline
                            (main_read_counts sample_scan_five power_on))) i
            = bool_decide (i < 5)%nat).
  { intros i Hi. unfold NUMSENSORS in Hi.
    do 12 (destruct i as [|i]; [vm_compute; reflexivity|]). lia. }
  assert (H5 : (5 <= NUMSENSORS)%nat) by (unfold NUMSENSORS; lia).
  split; [reflexivity|]. split; [reflexivity|]. split; [reflexivity|].
  split; [exact H5|]. split; [exact Hsub|].
  destruct (level_of_contiguous_fill
              (main_read_counts sample_scan_five power_on) 5
              eq_refl eq_refl H5 Hsub) as (Hc & Hmm).
  split; [exact Hc|]. rewrite Hmm, Hc. reflexivity.
Defined.

(** ** A line ended by both terminators *)

(** X27. A mode command ended by a carriage return and a line feed is two
    lines, the command and an empty one: typed into an idle console and
    read by the loop, [stop], [basic] and [csv] all leave the display mode
    at [UART_NONE], with one sample row requested and served, the cursor
    one slot up but not past the last, the console idle and the FIFO
    empty. *)
Theorem crlf_cancels_mode_command
  (s : state) (es : list env) (line : list Z) (mode : Z) :
  In (line, mode) mode_commands ->
  idle_console s -> 0 <= sampleIndex s <= NUM_SAMPLES - 1 ->
  uart_rx s = line ++ CRLF -> length es = S (S (length line)) ->
  exists s',
    main_loop es s = Returns s'
    /\ uartTxMode s' = UART_NONE
    /\ sampleIndex s' = Z.min (sampleIndex s + 1) (NUM_SAMPLES - 1)
    /\ idle_console s' /\ uart_rx s' = [].
Proof.
  intros Hin Hidle Hk Hrx Hlen.
  assert (Hloop : console_loop es (console_of s)
                  = ConReturns (mkConsole UART_NONE FALSE FALSE FALSE 0
                                  (replicate (Z.to_nat RX_CAPACITY) 0)
                                  (Z.min (sampleIndex s + 1) (NUM_SAMPLES - 1))
                                  [])).
  { rewrite (console_of_idle s Hidle), Hrx. revert Hk.
    generalize (sampleIndex s). intros k Hk. unfold NUM_SAMPLES in *.
    assert (Hcases : In k (map Z.of_nat (seq 0 20))).
    { replace k with (Z.of_nat (Z.to_nat k)) by lia.
      apply in_map, in_seq. lia. }
    clear Hk.
    cbv [map seq In Z.of_nat Pos.of_succ_nat Pos.succ] in Hcases.
    destruct Hin as [E|[E|[E|[]]]]; injection E as <- <-;
      cbn [length text list_ascii_of_string map] in Hlen;
      repeat (destruct es as [|? es]; [discriminate Hlen|]);
      (destruct es; [|discriminate Hlen]);
      repeat (destruct Hcases as [<-|Hcases]; [vm_compute; reflexivity|]);
      contradiction. }
  destruct (main_loop_console es s _ Hloop) as (s' & Hrun & Hc).
  exists s'. split; [exact Hrun|].
  destruct (idle_of_console _ _ _ _ Hc) as (Hi & Hmode & Hcur & Hr). auto.
Qed.

Lemma crlf_cancels_mode_command_witness :
  In (text "basic", UART_BASIC) mode_commands
  /\ idle_console (typed (text "basic" ++ CRLF) power_on)
  /\ exists s',
       main_loop (replicate 7 sample_scan)
         (typed (text "basic" ++ CRLF) power_on) = Returns s'
       /\ uartTxMode s' = UART_NONE /\ sampleIndex s' = 1.
Proof.
  assert (Hin : In (text "basic", UART_BASIC) mode_commands)
    by (right; left; reflexivity).
  assert (Hidle : idle_console (typed (text "basic" ++ CRLF) power_on))
    by (repeat split; reflexivity).
  split; [exact Hin|]. split; [exact Hidle|].
  destruct (crlf_cancels_mode_command
              (typed (text "basic" ++ CRLF) power_on)
              (replicate 7 sample_scan) (text "basic") UART_BASIC
              Hin Hidle)
    as (s' & Hrun & Hmode & Hcur & _); [cbn; unfold NUM_SAMPLES; lia|reflexivity|reflexivity|].
  exists s'. split; [exact Hrun|]. split; [exact Hmode|exact Hcur].
Defined.
